(** * EquityAI / EquityNest front end: a shallow embedding and its properties

    The development follows the executable sources of the repository:

    - [Json], [Num], [JS]  what the pages use of JSON.stringify, of
                      JavaScript numbers and of JavaScript values and objects;
    - [Marketplace]   the React marketplace page (state, margin, filters,
                      saved properties kept in localStorage);
    - [AgentConnect]  the lead form of the agent-connect page;
    - [Dom], [Router], [Vanilla], [Frontend], [VanillaNew]
                      the page routers of vanilla/script.js,
                      frontend/script.js and vanilla/script_new.js over a
                      small document model;
    - [Chatbot]       the ChatbotManager widget of frontend/script.js as an
                      event-driven machine (clicks, replies, timers);
    - [Spec]          statements of the specification in its own words;
    - [Examples]      concrete pages and traces;
    - [DealAnalyzer]  the deal analyzer page (React): the rehab rows and
                      their total;
    - [Money], [Markup]
                      formatMoney of vanilla/script_new.js and formatMessage
                      of the chat widget;
    - [MarketplaceLog], [AgentConnectPage], [RouterFrame], [ChatLog]
                      what the properties over whole sessions speak about;
    - [Scenarios]     further sessions of the pages.

    Modelling conventions.  A JavaScript [number] is given by its exact
    value, a rational ([Q]), or is one of the non-finite values.  The
    arithmetic of the marketplace margin is binary64: every operation rounds
    its exact result to the nearest binary64 number ([Num.binary64]).  The
    deal analyzer is modelled without rounding.  JavaScript strings are
    [string]s (UTF-8).  Browser facilities (toast, localStorage, fetch,
    timers) are explicit components of the state.  An [async] method is
    split at its [await fetch]: the part before it runs within the event that
    calls the method, the part after it when the request settles, and other
    events may come in between.  Icons, focus, scrolling, console output and
    element heights are left out. *)

From Stdlib Require Import ZArith QArith Qround Qabs Qpower Lqa String Ascii List Lia Bool
  Permutation.
From Stdlib Require Import DecimalString DecimalZ DecimalFacts DecimalPos.
From stdpp Require Import gmap strings list.
Import ListNotations.
Open Scope string_scope.

(** ** JSON.stringify on an array of strings *)

Module Json.

Definition dquote : ascii := ascii_of_nat 34.
Definition backslash : ascii := ascii_of_nat 92.

Definition hex_digit (n : nat) : ascii :=
  nth n ["0"; "1"; "2"; "3"; "4"; "5"; "6"; "7"; "8"; "9";
         "a"; "b"; "c"; "d"; "e"; "f"]%char "0"%char.

(** QuoteJSONString: the two-character escapes, [\u00XX] for the other
    control characters, every other character as it is. *)
Definition escape_char (c : ascii) : string :=
  let n := nat_of_ascii c in
  if Nat.eqb n 34 then String backslash (String dquote EmptyString)
  else if Nat.eqb n 92 then String backslash (String backslash EmptyString)
  else if Nat.eqb n 8 then String backslash "b"
  else if Nat.eqb n 12 then String backslash "f"
  else if Nat.eqb n 10 then String backslash "n"
  else if Nat.eqb n 13 then String backslash "r"
  else if Nat.eqb n 9 then String backslash "t"
  else if Nat.ltb n 32 then
    String backslash
      (String "u" (String "0" (String "0"
         (String (hex_digit (n / 16)) (String (hex_digit (n mod 16)) EmptyString)))))
  else String c EmptyString.

Fixpoint escape (s : string) : string :=
  match s with
  | EmptyString => EmptyString
  | String c rest => escape_char c ++ escape rest
  end.

Definition quote (s : string) : string :=
  String dquote (escape s ++ String dquote EmptyString).

Fixpoint join (sep : string) (l : list string) : string :=
  match l with
  | [] => ""
  | [x] => x
  | x :: rest => x ++ sep ++ join sep rest
  end.

(** [JSON.stringify(l)] for [l : string[]]. *)
Definition stringify (l : list string) : string :=
  "[" ++ join "," (map quote l) ++ "]".

End Json.

(** ** JavaScript numbers as far as the pages need them *)

Module Num.
Local Open Scope Q_scope.

(** The result of an arithmetic expression: finite, or one of the three
    non-finite values.  A finite number is given by its exact value; negative
    zero is not told apart from zero (the numbers the pages start from are not
    negative zeros, so no divisor is one, and the pages do not tell the two
    apart in a result). *)
Inductive number :=
| Fin (q : Q)
| PosInf
| NegInf
| NaN.

(** *** Rounding to binary64

    Every arithmetic operation of JavaScript returns the exact result
    rounded to the nearest binary64 number, a tie going to the number whose
    last binary digit is even; a result that rounds to 2^1024 or beyond
    becomes an infinity. *)

(** The integer part of the binary logarithm of a positive rational. *)
Definition ilog2 (q : Q) : Z :=
  let k := (Z.log2 (Qnum q) - Z.log2 (Zpos (Qden q)))%Z in
  if Qle_bool (2 ^ k) q then k else (k - 1)%Z.

(** The nearest integer, a half going to the even neighbour. *)
Definition round_half_even (x : Q) : Z :=
  let f := Qfloor x in
  match Qcompare (x - inject_Z f) (1 # 2) with
  | Lt => f
  | Gt => (f + 1)%Z
  | Eq => if Z.even f then f else (f + 1)%Z
  end.

(** The exponent of the unit in the last place of the binary64 numbers
    around [q]: 52 binary places below the leading digit, and never below
    that of the subnormal numbers. *)
Definition ulp_exponent (q : Q) : Z := Z.max (ilog2 (Qabs q) - 52) (-1074).

(** The multiple of the unit in the last place that is nearest to [q]. *)
Definition round64 (q : Q) : Q :=
  if Qeq_bool q 0 then 0
  else inject_Z (round_half_even (q / 2 ^ ulp_exponent q)) * 2 ^ ulp_exponent q.

(** The binary64 number an exact result is rounded to. *)
Definition binary64 (q : Q) : number :=
  let r := round64 q in
  if Qle_bool (2 ^ 1024) r then PosInf
  else if Qle_bool r (- 2 ^ 1024) then NegInf
  else Fin r.

(** The number a decimal literal of the source denotes. *)
Definition literal (q : Q) : number := binary64 q.

(** *** The arithmetic operators *)

Definition opp (x : number) : number :=
  match x with
  | Fin a => Fin (- a)
  | PosInf => NegInf
  | NegInf => PosInf
  | NaN => NaN
  end.

(** [x + y] *)
Definition add (x y : number) : number :=
  match x, y with
  | Fin a, Fin b => binary64 (a + b)
  | NaN, _ => NaN
  | _, NaN => NaN
  | PosInf, NegInf => NaN
  | NegInf, PosInf => NaN
  | PosInf, _ => PosInf
  | _, PosInf => PosInf
  | NegInf, _ => NegInf
  | _, NegInf => NegInf
  end.

(** [x - y] *)
Definition sub (x y : number) : number := add x (opp y).

(** An infinity times, or divided by, a finite number [a]. *)
Definition scaled_infinity (inf : number) (a : Q) : number :=
  if Qle_bool 0 a then inf else opp inf.

(** [x * y] *)
Definition mul (x y : number) : number :=
  match x, y with
  | Fin a, Fin b => binary64 (a * b)
  | NaN, _ => NaN
  | _, NaN => NaN
  | Fin a, inf => if Qeq_bool a 0 then NaN else scaled_infinity inf a
  | inf, Fin b => if Qeq_bool b 0 then NaN else scaled_infinity inf b
  | PosInf, PosInf => PosInf
  | NegInf, NegInf => PosInf
  | _, _ => NegInf
  end.

(** [x / y] *)
Definition div (x y : number) : number :=
  match x, y with
  | Fin a, Fin b =>
      if Qeq_bool b 0 then
        (if Qeq_bool a 0 then NaN
         else if Qle_bool 0 a then PosInf else NegInf)
      else binary64 (a / b)
  | NaN, _ => NaN
  | _, NaN => NaN
  | Fin _, _ => Fin 0
  | inf, Fin b => scaled_infinity inf b
  | _, _ => NaN
  end.

(** [Math.round]: the nearest integer, halves towards plus infinity. *)
Definition round_half_up (q : Q) : Z := Qfloor (q + (1 # 2)).

Definition Math_round (x : number) : number :=
  match x with
  | Fin q => Fin (inject_Z (round_half_up q))
  | other => other
  end.

(** [x >= m] for a finite [m]; every comparison with NaN is false. *)
Definition ge (x : number) (m : Q) : bool :=
  match x with
  | Fin q => Qle_bool m q
  | PosInf => true
  | NegInf => false
  | NaN => false
  end.

(** [x || d] on an optional number: [undefined] and [0] are falsy. *)
Definition or_default (x : option Q) (d : Q) : Q :=
  match x with
  | Some v => if Qeq_bool v 0 then d else v
  | None => d
  end.

End Num.

(** ** The marketplace page (React) *)

Module Property.
(** [interface Property] of types/property.ts. *)
Record t := mk {
  id : string;
  address : string;
  city : string;
  state : string;
  zip : string;
  beds : Q;
  baths : Q;
  sqft : Q;
  price : Q;
  arv : Q;
  rehabEstimate : Q;
  dom : Q;
  equityScore : Q;
  lat : Q;
  lng : Q;
  needsWork : bool;
  propertyType : string
}.
End Property.

Module SearchFilters.
(** [interface SearchFilters]: an optional field is an [option]. *)
Record t := mk {
  city : option string;
  zip : option string;
  state : string;
  priceMin : option Q;
  priceMax : option Q;
  beds : option Q;
  propertyType : option string;
  needsWork : option bool;
  marginMin : option Q;
  daysOnMarketMax : option Q
}.

(** [{...filters, field: value}] for each field the page updates. *)
Definition with_city (v : string) (f : t) : t :=
  mk (Some v) (zip f) (state f) (priceMin f) (priceMax f) (beds f)
    (propertyType f) (needsWork f) (marginMin f) (daysOnMarketMax f).
Definition with_state (v : string) (f : t) : t :=
  mk (city f) (zip f) v (priceMin f) (priceMax f) (beds f)
    (propertyType f) (needsWork f) (marginMin f) (daysOnMarketMax f).
Definition with_priceRange (lo hi : Q) (f : t) : t :=
  mk (city f) (zip f) (state f) (Some lo) (Some hi) (beds f)
    (propertyType f) (needsWork f) (marginMin f) (daysOnMarketMax f).
Definition with_beds (v : Q) (f : t) : t :=
  mk (city f) (zip f) (state f) (priceMin f) (priceMax f) (Some v)
    (propertyType f) (needsWork f) (marginMin f) (daysOnMarketMax f).
Definition with_propertyType (v : string) (f : t) : t :=
  mk (city f) (zip f) (state f) (priceMin f) (priceMax f) (beds f)
    (Some v) (needsWork f) (marginMin f) (daysOnMarketMax f).
Definition with_needsWork (v : bool) (f : t) : t :=
  mk (city f) (zip f) (state f) (priceMin f) (priceMax f) (beds f)
    (propertyType f) (Some v) (marginMin f) (daysOnMarketMax f).
Definition with_marginMin (v : Q) (f : t) : t :=
  mk (city f) (zip f) (state f) (priceMin f) (priceMax f) (beds f)
    (propertyType f) (needsWork f) (Some v) (daysOnMarketMax f).
Definition with_daysOnMarketMax (v : Q) (f : t) : t :=
  mk (city f) (zip f) (state f) (priceMin f) (priceMax f) (beds f)
    (propertyType f) (needsWork f) (marginMin f) (Some v).
End SearchFilters.

Module Marketplace.

Definition mockProperties : list Property.t :=
  [ Property.mk "1" "123 Main St" "Austin" "TX" "73301" 3 2 1850
      285000 365000 45000 14 87 (302672 # 10000) (-977431 # 10000)
      true "single-family";
    Property.mk "2" "456 Oak Ave" "Dallas" "TX" "75201" 4 3 2340
      425000 520000 28000 7 92 (327767 # 10000) (-967970 # 10000)
      false "single-family";
    Property.mk "3" "789 Pine Rd" "Houston" "TX" "77001" 2 1 1200
      195000 285000 52000 28 74 (297604 # 10000) (-953698 # 10000)
      true "condo";
    Property.mk "4" "321 Elm St" "San Antonio" "TX" "78201" 3 2 1650
      235000 315000 35000 21 81 (294241 # 10000) (-984936 # 10000)
      true "townhouse" ]%Q.

Record Toast := mkToast { title : string; description : string }.

(** The hooks of the component, the browser's localStorage and the toasts
    raised so far. *)
Record State := mkState {
  filters : SearchFilters.t;
  properties : list Property.t;
  savedProperties : list string;
  sortBy : string;
  localStorage : gmap string string;
  toasts : list Toast
}.

Definition defaultFilters : SearchFilters.t :=
  SearchFilters.mk None None "TX" (Some 0%Q) (Some 1000000%Q) None None None
    (Some 10%Q) (Some 90%Q).

(** The values of the [useState] calls at the first render. *)
Definition initial (storage : gmap string string) : State :=
  mkState defaultFilters mockProperties [] "equity-score" storage [].

Definition setFilters (f : SearchFilters.t) (st : State) : State :=
  mkState f (properties st) (savedProperties st) (sortBy st)
    (localStorage st) (toasts st).

Definition setSavedProperties (l : list string) (st : State) : State :=
  mkState (filters st) (properties st) l (sortBy st)
    (localStorage st) (toasts st).

Definition setSortBy (s : string) (st : State) : State :=
  mkState (filters st) (properties st) (savedProperties st) s
    (localStorage st) (toasts st).

(** [localStorage.setItem(k, v)], taken to succeed. *)
Definition localStorage_setItem (k v : string) (st : State) : State :=
  mkState (filters st) (properties st) (savedProperties st) (sortBy st)
    (<[k := v]> (localStorage st)) (toasts st).

Definition toast (t : Toast) (st : State) : State :=
  mkState (filters st) (properties st) (savedProperties st) (sortBy st)
    (localStorage st) (toasts st ++ [t]).

(** [property.price + property.rehabEstimate + (property.price * 0.08)] *)
Definition totalCost (property : Property.t) : Num.number :=
  Num.add
    (Num.add (Num.Fin (Property.price property))
       (Num.Fin (Property.rehabEstimate property)))
    (Num.mul (Num.Fin (Property.price property)) (Num.literal (8 # 100))).

(** [Math.round(((property.arv - totalCost) / totalCost) * 100)] *)
Definition calculateMargin (property : Property.t) : Num.number :=
  let totalCost := totalCost property in
  Num.Math_round
    (Num.mul
       (Num.div (Num.sub (Num.Fin (Property.arv property)) totalCost) totalCost)
       (Num.Fin 100)).

(** [savedProperties.includes(propertyId)] *)
Definition includes (propertyId : string) (l : list string) : bool :=
  existsb (String.eqb propertyId) l.

Definition toggled (propertyId : string) (saved : list string) : list string :=
  if includes propertyId saved
  then List.filter (fun id => negb (String.eqb id propertyId)) saved
  else saved ++ [propertyId].

Definition handleSaveProperty (propertyId : string) (st : State) : State :=
  let newSaved := toggled propertyId (savedProperties st) in
  let st1 := setSavedProperties newSaved st in
  let st2 := localStorage_setItem "savedProperties" (Json.stringify newSaved) st1 in
  toast
    (if includes propertyId (savedProperties st)
     then mkToast "Property removed" "Removed from your saved properties"
     else mkToast "Property saved" "Added to your saved properties")
    st2.

(** The predicate of [properties.filter(...)]. *)
Definition passes (f : SearchFilters.t) (property : Property.t) : bool :=
  let margin := calculateMargin property in
  String.eqb (Property.state property) (SearchFilters.state f)
  && Qle_bool (Num.or_default (SearchFilters.priceMin f) 0) (Property.price property)
  && Qle_bool (Property.price property) (Num.or_default (SearchFilters.priceMax f) 1000000)
  && match SearchFilters.beds f with
     | None => true
     | Some b => Qeq_bool b 0 || Qle_bool b (Property.beds property)
     end
  && match SearchFilters.propertyType f with
     | None => true
     | Some ty => String.eqb ty "" || String.eqb (Property.propertyType property) ty
     end
  && match SearchFilters.needsWork f with
     | None => true
     | Some w => Bool.eqb (Property.needsWork property) w
     end
  && Num.ge margin (Num.or_default (SearchFilters.marginMin f) 0)
  && Qle_bool (Property.dom property) (Num.or_default (SearchFilters.daysOnMarketMax f) 90).

Definition filteredProperties (st : State) : list Property.t :=
  List.filter (passes (filters st)) (properties st).

(** The cards of the property grid: one per filtered property, with its
    margin and whether it is saved. *)
Record Card := mkCard {
  card_property : Property.t;
  card_margin : Num.number;
  card_isSaved : bool
}.

Definition render (st : State) : list Card :=
  map (fun property =>
         mkCard property (calculateMargin property)
           (includes (Property.id property) (savedProperties st)))
      (filteredProperties st).

(** The user interactions the JSX binds a handler to. *)
Inductive Event :=
| ChangeCity (value : string)
| ChangeState (value : string)
| ChangePriceRange (min max : Q)
| ChangeBeds (parsed : Q)
| ChangePropertyType (value : string)
| ChangeNeedsWork (checked : bool)
| ChangeMarginMin (value : Q)
| ChangeDaysOnMarketMax (value : Q)
| ChangeSortBy (value : string)
| ClickSave (propertyId : string)
| ClickResetFilters.

Definition handle (e : Event) (st : State) : State :=
  let f := filters st in
  match e with
  | ChangeCity v => setFilters (SearchFilters.with_city v f) st
  | ChangeState v => setFilters (SearchFilters.with_state v f) st
  | ChangePriceRange lo hi => setFilters (SearchFilters.with_priceRange lo hi f) st
  | ChangeBeds b => setFilters (SearchFilters.with_beds b f) st
  | ChangePropertyType v => setFilters (SearchFilters.with_propertyType v f) st
  | ChangeNeedsWork c => setFilters (SearchFilters.with_needsWork c f) st
  | ChangeMarginMin v => setFilters (SearchFilters.with_marginMin v f) st
  | ChangeDaysOnMarketMax v => setFilters (SearchFilters.with_daysOnMarketMax v f) st
  | ChangeSortBy v => setSortBy v st
  | ClickSave propertyId => handleSaveProperty propertyId st
  | ClickResetFilters => setFilters defaultFilters st
  end.

Definition run (events : list Event) (st : State) : State :=
  fold_left (fun s e => handle e s) events st.

Section Mount.
(** [JSON.parse] restricted to what the page can use: [None] when it
    throws or the value is not an array of strings. *)
Variable JSON_parse : string -> option (list string).

(** The effect run once after the first render; [None] when it throws,
    which unmounts the page. *)
Definition useEffect_mount (st : State) : option State :=
  match localStorage st !! "savedProperties" with
  | Some saved =>
      if String.eqb saved "" then Some st
      else match JSON_parse saved with
           | Some l => Some (setSavedProperties l st)
           | None => None
           end
  | None => Some st
  end.

(** The state of the page after mounting on [storage] and handling
    [events] in order. *)
Definition lifetime (storage : gmap string string) (events : list Event)
  : option State :=
  match useEffect_mount (initial storage) with
  | Some st => Some (run events st)
  | None => None
  end.
End Mount.

End Marketplace.

(** ** The agent-connect page (React) *)

Module AgentConnect.

Record FormData := mkFormData {
  fullName : string;
  email : string;
  phone : string;
  city : string;
  timeline : string
}.

(** What a handler of the page can do to its surroundings. *)
Inductive Effect :=
| PreventDefault
| Toast (title description : string)
| Fetch (method url body : string).

Record State := mkState {
  formData : FormData;
  effects : list Effect
}.

Definition initial : State :=
  mkState (mkFormData "" "" "" "" "") [].

Definition perform (e : Effect) (st : State) : State :=
  mkState (formData st) (effects st ++ [e]).

Definition setFormData (f : FormData -> FormData) (st : State) : State :=
  mkState (f (formData st)) (effects st).

Definition handleSubmit (st : State) : State :=
  let st1 := perform PreventDefault st in
  perform (Toast "Request submitted"
             "We'll connect you with a qualified agent within 24 hours.") st1.

Definition handleRequestIntro (agentName : string) (st : State) : State :=
  perform (Toast "Introduction requested"
             ("We'll connect you with " ++ agentName ++ " within 24 hours.")) st.

Inductive Event :=
| ChangeFullName (value : string)
| ChangeEmail (value : string)
| ChangePhone (value : string)
| ChangeCity (value : string)
| ChangeTimeline (value : string)
| Submit
| RequestIntro (agentName : string).

Definition handle (e : Event) (st : State) : State :=
  match e with
  | ChangeFullName v =>
      setFormData (fun prev => mkFormData v (email prev) (phone prev) (city prev) (timeline prev)) st
  | ChangeEmail v =>
      setFormData (fun prev => mkFormData (fullName prev) v (phone prev) (city prev) (timeline prev)) st
  | ChangePhone v =>
      setFormData (fun prev => mkFormData (fullName prev) (email prev) v (city prev) (timeline prev)) st
  | ChangeCity v =>
      setFormData (fun prev => mkFormData (fullName prev) (email prev) (phone prev) v (timeline prev)) st
  | ChangeTimeline v =>
      setFormData (fun prev => mkFormData (fullName prev) (email prev) (phone prev) (city prev) v) st
  | Submit => handleSubmit st
  | RequestIntro agentName => handleRequestIntro agentName st
  end.

Definition is_fetch (e : Effect) : bool :=
  match e with
  | Fetch _ _ _ => true
  | _ => false
  end.

End AgentConnect.

(** ** JavaScript values and plain objects *)

Module JS.

(** A value read from a parsed JSON body or held in a field. *)
Inductive value :=
| VUndefined
| VNull
| VBool (b : bool)
| VNum (q : Q)
| VStr (s : string)
| VObject (json : string).

(** ToBoolean. *)
Definition truthy (v : value) : bool :=
  match v with
  | VUndefined => false
  | VNull => false
  | VBool b => b
  | VNum q => negb (Qeq_bool q 0)
  | VStr s => negb (String.eqb s "")
  | VObject _ => true
  end.

(** The properties every object literal inherits from [Object.prototype]. *)
Definition Object_prototype_properties : list string :=
  [ "constructor"; "__defineGetter__"; "__defineSetter__"; "hasOwnProperty";
    "__lookupGetter__"; "__lookupSetter__"; "isPrototypeOf";
    "propertyIsEnumerable"; "toString"; "valueOf"; "__proto__";
    "toLocaleString" ].

Definition inherited (k : string) : bool :=
  existsb (String.eqb k) Object_prototype_properties.

(** The result of [o[k]] on an object literal whose own properties are
    strings: an own property, an inherited one, or [undefined]. *)
Inductive property :=
| Own (v : string)
| Inherited (name : string)
| Missing.

Definition get (o : gmap string string) (k : string) : property :=
  match o !! k with
  | Some v => Own v
  | None => if inherited k then Inherited k else Missing
  end.

Definition property_truthy (p : property) : bool :=
  match p with
  | Own v => negb (String.eqb v "")
  | Inherited _ => true
  | Missing => false
  end.

(** [p || q] *)
Definition or (p q : property) : property :=
  if property_truthy p then p else q.

(** ToString, as [document.getElementById] applies it to its argument.
    An inherited property is a built-in function (the prototype object for
    [__proto__]); its text is the engine's rendering of native code. *)
Definition ToString (p : property) : string :=
  match p with
  | Own v => v
  | Inherited name =>
      if String.eqb name "__proto__" then "[object Object]"
      else if String.eqb name "constructor" then "function Object() { [native code] }"
      else "function " ++ name ++ "() { [native code] }"
  | Missing => "undefined"
  end.

End JS.

(** ** A document: the elements the router reads and writes *)

Module Dom.

Record Element := mkElement {
  id : string;
  classList : list string;
  data_page : option string;
  style_display : string;
  parent : option nat
}.

(** Elements in document order; [parent] is an index into the list. *)
Abbreviation Document := (list Element).

Definition contains (c : string) (el : Element) : bool :=
  existsb (String.eqb c) (classList el).

(** [el.classList.remove(c)] *)
Definition classList_remove (c : string) (el : Element) : Element :=
  mkElement (id el) (List.filter (fun x => negb (String.eqb x c)) (classList el))
    (data_page el) (style_display el) (parent el).

(** [el.classList.add(c)] *)
Definition classList_add (c : string) (el : Element) : Element :=
  if contains c el then el
  else mkElement (id el) (classList el ++ [c]) (data_page el) (style_display el) (parent el).

Definition set_display (d : string) (el : Element) : Element :=
  mkElement (id el) (classList el) (data_page el) d (parent el).

(** [document.querySelectorAll('.' + c).forEach(f)] *)
Definition forEach_class (c : string) (f : Element -> Element) (doc : Document) : Document :=
  map (fun el => if contains c el then f el else el) doc.

Fixpoint find_index (p : Element -> bool) (doc : Document) : option nat :=
  match doc with
  | [] => None
  | el :: rest =>
      if p el then Some 0%nat
      else match find_index p rest with
           | Some i => Some (S i)
           | None => None
           end
  end.

(** [document.getElementById(x)]: the first element with that id. *)
Definition getElementById (x : string) (doc : Document) : option nat :=
  find_index (fun el => String.eqb (id el) x) doc.

(** Apply [f] to the element at index [i]. *)
Definition update (i : nat) (f : Element -> Element) (doc : Document) : Document :=
  match doc !! i with
  | Some el => <[i := f el]> doc
  | None => doc
  end.

(** [el.closest('[data-page]')]: the element itself or its nearest
    ancestor carrying the attribute. *)
Fixpoint closest_data_page (fuel : nat) (doc : Document) (i : nat) : option nat :=
  match doc !! i with
  | None => None
  | Some el =>
      match data_page el with
      | Some _ => Some i
      | None =>
          match fuel, parent el with
          | S fuel', Some p => closest_data_page fuel' doc p
          | _, _ => None
          end
      end
  end.

(** The selector engine of the browser, for the selector texts built at
    run time: [None] when the text is not a valid selector (a SyntaxError
    is thrown), otherwise the first matching element if any. *)
Definition QuerySelector := string -> Document -> option (option nat).

(** The text of the template literal [[data-page="${pageId}"]]. *)
Definition data_page_selector (pageId : string) : string :=
  "[data-page=" ++ String Json.dquote (pageId ++ String Json.dquote "]").

(** How the engine answers for a page identifier without quotes,
    backslashes or line breaks. *)
Definition plain_querySelector : QuerySelector :=
  fun selector doc =>
    Some (find_index
            (fun el => match data_page el with
                       | Some v => String.eqb (data_page_selector v) selector
                       | None => false
                       end) doc).

End Dom.

(** ** The page router of vanilla/script.js *)

Module Router.
(** The document and the [currentPage] variable of the script. *)
Record Page := mkPage {
  document : Dom.Document;
  currentPage : string
}.

(** What the click listeners leave behind: the page, whether
    [preventDefault] was called, whether an exception was thrown. *)
Record Click := mkClick {
  after : Page;
  defaultPrevented : bool;
  thrown : bool
}.
End Router.

Module Vanilla.
Import Router.

Definition pages : gmap string string :=
  list_to_map
    [ ("home", "home-page");
      ("marketplace", "marketplace-page");
      ("analyzer", "analyzer-page");
      ("agent-connect", "agent-connect-page");
      ("pricing", "pricing-page");
      ("signin", "signin-page");
      ("signup", "signup-page") ].

(** [pages[pageId] || pages['home']], as [getElementById] reads it. *)
Definition targetId (pageId : string) : string :=
  JS.ToString (JS.or (JS.get pages pageId) (JS.get pages "home")).

Section WithSelectors.
Variable querySelector : Dom.QuerySelector.

(** The second component tells whether the call threw (the selector of
    the navigation link is built from [pageId]); the page has been switched
    by then.  The re-initialisation of the icons is left out. *)
Definition showPage (pageId : string) (st : Page) : Page * bool :=
  (* Hide all pages *)
  let doc1 := Dom.forEach_class "page" (Dom.classList_remove "active") (document st) in
  (* Show selected page *)
  let doc2 :=
    match Dom.getElementById (targetId pageId) doc1 with
    | Some targetPage => Dom.update targetPage (Dom.classList_add "active") doc1
    | None => doc1
    end in
  (* Update active nav link *)
  let doc3 := Dom.forEach_class "nav-link" (Dom.classList_remove "active") doc2 in
  match querySelector (Dom.data_page_selector pageId) doc3 with
  | None => (mkPage doc3 (currentPage st), true)
  | Some activeLink =>
      let doc4 :=
        match activeLink with
        | Some i =>
            match doc3 !! i with
            | Some el =>
                if Dom.contains "nav-link" el
                then Dom.update i (Dom.classList_add "active") doc3
                else doc3
            | None => doc3
            end
        | None => doc3
        end in
      (mkPage doc4 pageId, false)
  end.

(** The click listener that navigates (the first of the two listeners the
    script adds to the document); [target] is the index of [e.target] in the
    document. *)
Definition on_click (target : nat) (st : Page) : Click :=
  match Dom.closest_data_page (length (document st)) (document st) target with
  | Some t =>
      match document st !! t with
      | Some el =>
          match Dom.data_page el with
          | Some pageId =>
              let '(st', threw) := showPage pageId st in
              mkClick st' true threw
          | None => mkClick st false false
          end
      | None => mkClick st false false
      end
  | None => mkClick st false false
  end.

(** [e.target.tagName === 'A' && e.target.getAttribute('href')?.startsWith('#')] *)
Definition is_hash_anchor (tagName : string) (href : option string) : bool :=
  String.eqb tagName "A"
  && match href with
     | Some h => String.prefix "#" h
     | None => false
     end.

(** The click listener for smooth scrolling (the second listener):
    [tagName] and [href] are the tag name and the href attribute of
    [e.target].  For a link to a fragment it prevents the default action and
    looks the href up as a selector, which throws when the href is not one.
    The scrolling is left out.  The result tells whether the default action
    was prevented and whether the listener threw. *)
Definition on_anchor_click (tagName : string) (href : option string) (st : Page)
  : bool * bool :=
  if is_hash_anchor tagName href then
    match href with
    | Some h =>
        (true, match querySelector h (document st) with
               | None => true
               | Some _ => false
               end)
    | None => (true, false)
    end
  else (false, false).

(** A click as the page handles it: both listeners run, in the order in
    which they were added, and an exception in the first does not keep the
    second from running. *)
Definition click (target : nat) (tagName : string) (href : option string)
    (st : Page) : Click :=
  let first := on_click target st in
  let second := on_anchor_click tagName href (after first) in
  mkClick (after first) (defaultPrevented first || fst second)
    (thrown first || snd second).
End WithSelectors.

End Vanilla.

(** ** The page router of frontend/script.js *)

Module Frontend.
Import Router.

Definition pages : gmap string string :=
  list_to_map
    [ ("home", "home-page");
      ("marketplace", "marketplace-page");
      ("analyzer", "analyzer-page");
      ("agent-connect", "agent-connect-page");
      ("pricing", "pricing-page");
      ("signin", "signin-page");
      ("signup", "signup-page") ].

Definition targetId (pageId : string) : string :=
  JS.ToString (JS.or (JS.get pages pageId) (JS.get pages "home")).

Section WithSelectors.
Variable querySelector : Dom.QuerySelector.

Definition showPage (pageId : string) (st : Page) : Page * bool :=
  let doc1 := Dom.forEach_class "page" (Dom.classList_remove "active") (document st) in
  let doc2 :=
    match Dom.getElementById (targetId pageId) doc1 with
    | Some targetPage => Dom.update targetPage (Dom.classList_add "active") doc1
    | None => doc1
    end in
  let doc3 := Dom.forEach_class "nav-link" (Dom.classList_remove "active") doc2 in
  match querySelector (Dom.data_page_selector pageId) doc3 with
  | None => (mkPage doc3 (currentPage st), true)
  | Some activeLink =>
      let doc4 :=
        match activeLink with
        | Some i =>
            match doc3 !! i with
            | Some el =>
                if Dom.contains "nav-link" el
                then Dom.update i (Dom.classList_add "active") doc3
                else doc3
            | None => doc3
            end
        | None => doc3
        end in
      (mkPage doc4 pageId, false)
  end.
End WithSelectors.

End Frontend.

(** ** The page router of vanilla/script_new.js *)

Module VanillaNew.

Definition pages : gmap string string :=
  list_to_map
    [ ("home", "home-page");
      ("marketplace", "marketplace-page");
      ("property-details", "property-details-page") ].

(** The document, the [currentPage] variable and how often the property
    grid has been rewritten by [renderProperties]. *)
Record State := mkState {
  document : Dom.Document;
  currentPage : string;
  renderings : nat
}.

(** [renderProperties] replaces the content of [#properties-grid]; the
    cards it writes carry no id and no [page] class. *)
Definition renderProperties (st : State) : State :=
  match Dom.getElementById "properties-grid" (document st) with
  | Some _ => mkState (document st) (currentPage st) (S (renderings st))
  | None => st
  end.

Definition targetPageId (pageId : string) : string :=
  JS.ToString (JS.or (JS.get pages pageId) (JS.get pages "home")).

Definition showPage (pageId : string) (st : State) : State :=
  (* Hide all pages *)
  let doc1 := Dom.forEach_class "page" (Dom.set_display "none") (document st) in
  (* Show target page *)
  match Dom.getElementById (targetPageId pageId) doc1 with
  | Some targetPage =>
      let st1 :=
        mkState (Dom.update targetPage (Dom.set_display "block") doc1)
          pageId (renderings st) in
      if String.eqb pageId "marketplace" then renderProperties st1 else st1
  | None => mkState doc1 (currentPage st) (renderings st)
  end.

End VanillaNew.

(** ** The chatbot widget of frontend/script.js *)

Module Chatbot.

(** *** String.prototype.trim *)

Definition of_bytes (l : list nat) : string :=
  string_of_list_ascii (map ascii_of_nat l).

(** The UTF-8 encodings of the WhiteSpace and LineTerminator code points. *)
Definition whitespace : list string :=
  map of_bytes
    [ [9]; [10]; [11]; [12]; [13]; [32]; [194; 160]; [225; 154; 128];
      [226; 128; 128]; [226; 128; 129]; [226; 128; 130]; [226; 128; 131];
      [226; 128; 132]; [226; 128; 133]; [226; 128; 134]; [226; 128; 135];
      [226; 128; 136]; [226; 128; 137]; [226; 128; 138]; [226; 128; 168];
      [226; 128; 169]; [226; 128; 175]; [226; 129; 159]; [227; 128; 128];
      [239; 187; 191] ]%nat.

Definition string_rev (s : string) : string :=
  string_of_list_ascii (rev (list_ascii_of_string s)).

Definition drop_string (n : nat) (s : string) : string :=
  String.substring n (String.length s - n) s.

(** Strip one leading token of [tokens], if there is one. *)
Fixpoint strip_one (tokens : list string) (s : string) : option string :=
  match tokens with
  | [] => None
  | t :: rest =>
      if String.prefix t s then Some (drop_string (String.length t) s)
      else strip_one rest s
  end.

Fixpoint strip (fuel : nat) (tokens : list string) (s : string) : string :=
  match fuel with
  | O => s
  | S fuel' =>
      match strip_one tokens s with
      | Some s' => strip fuel' tokens s'
      | None => s
      end
  end.

Definition trimStart (s : string) : string :=
  strip (String.length s) whitespace s.

Definition trimEnd (s : string) : string :=
  string_rev (strip (String.length s) (map string_rev whitespace) (string_rev s)).

Definition trim (s : string) : string := trimEnd (trimStart s).

(** *** The browser around the widget *)

Inductive Role := user | assistant.

Definition apiBaseUrl : string := "http://localhost:8001".

(** A call of [fetch]; [body] is the object given to [JSON.stringify],
    which leaves out the keys whose value is [undefined]. *)
Record Request := mkRequest {
  url : string;
  method : string;
  contentType : string;
  body : list (string * JS.value)
}.

Definition JSON_object (fields : list (string * JS.value)) : list (string * JS.value) :=
  List.filter (fun kv => match snd kv with JS.VUndefined => false | _ => true end) fields.

(** What [response.json()] resolves to, as far as the widget reads it:
    [null], or a value whose four properties are read ([undefined] for an
    absent one; a number, a string or a boolean has none of them). *)
Inductive Body :=
| BodyNull
| BodyObject (session_id message completed preferences_collected : JS.value).

(** How a [fetch] settles: the promise rejects, or a response arrives
    with its [ok] flag and its body ([None] when it is not JSON). *)
Inductive FetchResult :=
| NetworkError
| Response (ok : bool) (json : option Body).

(** The async method suspended on a pending [fetch]. *)
Inductive Awaiting := AwaitStart | AwaitMessage.

(** The callbacks given to [setTimeout]. *)
Inductive Timer :=
| ShowWindow
| HideWindow
| ScrollToBottom
| Acknowledge
| Notify.

Definition delay (t : Timer) : nat :=
  match t with
  | ShowWindow => 10
  | HideWindow => 300
  | ScrollToBottom => 100
  | Acknowledge => 1000
  | Notify => 5000
  end.

(** The part of [this.elements] the methods read and write.  A chat
    message is kept by role and content; the HTML that [formatMessage]
    makes of the content is not modelled. *)
Record Elements := mkElements {
  input_value : string;
  messages : list (Role * string);
  typing_display : string;
  send_disabled : bool;
  notification_display : string;
  toggle_active : bool;
  window_hidden : bool;
  window_visible : bool
}.

Record Browser := mkBrowser {
  sessionId : JS.value;
  isOpen : bool;
  isTyping : bool;
  elements : Elements;
  requests : list Request;
  pending : list Awaiting;
  timers : list Timer;
  console_errors : list string
}.

Definition set_sessionId (v : JS.value) (b : Browser) : Browser :=
  mkBrowser v (isOpen b) (isTyping b) (elements b) (requests b) (pending b)
    (timers b) (console_errors b).
Definition set_isOpen (v : bool) (b : Browser) : Browser :=
  mkBrowser (sessionId b) v (isTyping b) (elements b) (requests b) (pending b)
    (timers b) (console_errors b).
Definition set_isTyping (v : bool) (b : Browser) : Browser :=
  mkBrowser (sessionId b) (isOpen b) v (elements b) (requests b) (pending b)
    (timers b) (console_errors b).
Definition set_elements (f : Elements -> Elements) (b : Browser) : Browser :=
  mkBrowser (sessionId b) (isOpen b) (isTyping b) (f (elements b)) (requests b)
    (pending b) (timers b) (console_errors b).
Definition set_pending (l : list Awaiting) (b : Browser) : Browser :=
  mkBrowser (sessionId b) (isOpen b) (isTyping b) (elements b) (requests b) l
    (timers b) (console_errors b).
Definition set_timers (l : list Timer) (b : Browser) : Browser :=
  mkBrowser (sessionId b) (isOpen b) (isTyping b) (elements b) (requests b)
    (pending b) l (console_errors b).
Definition setTimeout (t : Timer) (b : Browser) : Browser :=
  set_timers (timers b ++ [t]) b.
Definition console_error (msg : string) (b : Browser) : Browser :=
  mkBrowser (sessionId b) (isOpen b) (isTyping b) (elements b) (requests b)
    (pending b) (timers b) (console_errors b ++ [msg]).
(** [await fetch(...)]: the request leaves and the method is suspended. *)
Definition fetch (r : Request) (k : Awaiting) (b : Browser) : Browser :=
  mkBrowser (sessionId b) (isOpen b) (isTyping b) (elements b) (requests b ++ [r])
    (pending b ++ [k]) (timers b) (console_errors b).

Definition with_input_value (v : string) (e : Elements) : Elements :=
  mkElements v (messages e) (typing_display e) (send_disabled e)
    (notification_display e) (toggle_active e) (window_hidden e) (window_visible e).
Definition with_message (m : Role * string) (e : Elements) : Elements :=
  mkElements (input_value e) (messages e ++ [m]) (typing_display e) (send_disabled e)
    (notification_display e) (toggle_active e) (window_hidden e) (window_visible e).
Definition with_typing (display : string) (disabled : bool) (e : Elements) : Elements :=
  mkElements (input_value e) (messages e) display disabled
    (notification_display e) (toggle_active e) (window_hidden e) (window_visible e).
Definition with_notification (display : string) (e : Elements) : Elements :=
  mkElements (input_value e) (messages e) (typing_display e) (send_disabled e)
    display (toggle_active e) (window_hidden e) (window_visible e).
Definition with_toggle_active (v : bool) (e : Elements) : Elements :=
  mkElements (input_value e) (messages e) (typing_display e) (send_disabled e)
    (notification_display e) v (window_hidden e) (window_visible e).
Definition with_window_hidden (v : bool) (e : Elements) : Elements :=
  mkElements (input_value e) (messages e) (typing_display e) (send_disabled e)
    (notification_display e) (toggle_active e) v (window_visible e).
Definition with_window_visible (v : bool) (e : Elements) : Elements :=
  mkElements (input_value e) (messages e) (typing_display e) (send_disabled e)
    (notification_display e) (toggle_active e) (window_hidden e) v.

(** *** Statements that may throw *)

(** A computation on the browser; [None] when it throws. *)
Definition M (A : Type) : Type := Browser -> option A * Browser.

Definition ret {A} (a : A) : M A := fun b => (Some a, b).
Definition throw {A} : M A := fun b => (None, b).
Definition bind {A B} (m : M A) (k : A -> M B) : M B :=
  fun b => match m b with
           | (Some a, b') => k a b'
           | (None, b') => (None, b')
           end.
Definition modify (f : Browser -> Browser) : M unit := fun b => (Some tt, f b).
Definition read {A} (proj : Browser -> A) : M A := fun b => (Some (proj b), b).
(** [try { m } catch (error) { handler }] *)
Definition try_catch (m handler : M unit) : M unit :=
  fun b => match m b with
           | (Some _, b') => (Some tt, b')
           | (None, b') => handler b'
           end.

Notation "'let*' x ':=' m 'in' k" := (bind m (fun x => k))
  (at level 10, x name, m at level 100, k at level 200).
Notation "'do' m 'then' k" := (bind m (fun _ => k))
  (at level 10, m at level 100, k at level 200).

(** *** The methods of ChatbotManager *)

Definition scrollToBottom : M unit := modify (setTimeout ScrollToBottom).

(** [addMessage(role, content)]: [formatMessage] calls [content.replace],
    which throws unless [content] is a string; the element is appended
    only after that. *)
Definition addMessage (role : Role) (content : JS.value) : M unit :=
  match content with
  | JS.VStr s =>
      do modify (set_elements (with_message (role, s))) then
      scrollToBottom
  | _ => throw
  end.

Definition showTyping : M unit :=
  do modify (set_isTyping true) then
  do modify (set_elements (with_typing "flex" true)) then
  scrollToBottom.

Definition hideTyping : M unit :=
  do modify (set_isTyping false) then
  modify (set_elements (with_typing "none" false)).

Definition showNotification : M unit :=
  modify (set_elements (with_notification "block")).

Definition hideNotification : M unit :=
  modify (set_elements (with_notification "none")).

Definition start_request : Request :=
  mkRequest (apiBaseUrl ++ "/chat/start") "POST" "application/json" (JSON_object []).

Definition message_request (session : JS.value) (message : string) : Request :=
  mkRequest (apiBaseUrl ++ "/chat/message") "POST" "application/json"
    (JSON_object [("session_id", session); ("message", JS.VStr message)]).

Definition start_apology : string :=
  "Sorry, I encountered an error starting our conversation. Please try refreshing the page.".

Definition message_apology : string :=
  "Sorry, I encountered an error processing your message. Please try again.".

Definition handoff_message : string :=
  "Perfect! I have all the information I need. Our property finding team will now search for investments that match your criteria. You should hear from us soon with some exciting opportunities!".

(** [startSession] up to [await fetch]. *)
Definition startSession : M unit :=
  modify (fetch start_request AwaitStart).

(** [startSession] from the point where the [fetch] has settled. *)
Definition startSession_resume (r : FetchResult) : M unit :=
  try_catch
    (match r with
     | NetworkError => throw
     | Response ok json =>
         if negb ok then throw
         else match json with
              | None => throw
              | Some BodyNull => throw
              | Some (BodyObject session_id message _ _) =>
                  do modify (set_sessionId session_id) then
                  addMessage assistant message
              end
     end)
    (do modify (console_error "Error starting chat session:") then
     addMessage assistant (JS.VStr start_apology)).

(** [sendMessage] up to [await fetch]. *)
Definition sendMessage : M unit :=
  let* value := read (fun b => input_value (elements b)) in
  let message := trim value in
  let* typing := read isTyping in
  if String.eqb message "" || typing then ret tt
  else
    do addMessage user (JS.VStr message) then
    do modify (set_elements (with_input_value "")) then
    do showTyping then
    let* session := read sessionId in
    modify (fetch (message_request session message) AwaitMessage).

(** [sendMessage] from the point where the [fetch] has settled. *)
Definition sendMessage_resume (r : FetchResult) : M unit :=
  try_catch
    (match r with
     | NetworkError => throw
     | Response ok json =>
         if negb ok then throw
         else match json with
              | None => throw
              | Some BodyNull => throw
              | Some (BodyObject _ message completed preferences_collected) =>
                  do hideTyping then
                  do addMessage assistant message then
                  if JS.truthy completed && JS.truthy preferences_collected
                  then modify (setTimeout Acknowledge)
                  else ret tt
              end
     end)
    (do modify (console_error "Error sending message:") then
     do hideTyping then
     addMessage assistant (JS.VStr message_apology)).

Definition openChat : M unit :=
  do modify (set_isOpen true) then
  do modify (set_elements (with_toggle_active true)) then
  do modify (set_elements (with_window_hidden false)) then
  do hideNotification then
  do modify (setTimeout ShowWindow) then
  let* session := read sessionId in
  if negb (JS.truthy session) then startSession else ret tt.

Definition closeChat : M unit :=
  do modify (set_isOpen false) then
  do modify (set_elements (with_toggle_active false)) then
  do modify (set_elements (with_window_visible false)) then
  modify (setTimeout HideWindow).

Definition toggleChat : M unit :=
  let* open := read isOpen in
  if open then closeChat else openChat.

(** The callback of a timer. *)
Definition callback (t : Timer) : M unit :=
  match t with
  | ShowWindow => modify (set_elements (with_window_visible true))
  | HideWindow => modify (set_elements (with_window_hidden true))
  | ScrollToBottom => ret tt
  | Acknowledge => addMessage assistant (JS.VStr handoff_message)
  | Notify =>
      let* open := read isOpen in
      if open then ret tt else showNotification
  end.

Definition resume (k : Awaiting) (r : FetchResult) : M unit :=
  match k with
  | AwaitStart => startSession_resume r
  | AwaitMessage => sendMessage_resume r
  end.

(** [initializeChatbot]: the constructor on the elements of the page,
    and the timer of the notification. *)
Definition initializeChatbot (page : Elements) : Browser :=
  setTimeout Notify (mkBrowser JS.VNull false false page [] [] [] []).

(** *** The event loop *)

Inductive Event :=
| ClickToggle
| ClickMinimize
| ClickSend
| Keypress (key : string) (shiftKey : bool)
| Input (text : string)
| Settle (i : nat) (r : FetchResult)
| Fire (i : nat).

Definition remove_nth {A} (i : nat) (l : list A) : list A :=
  firstn i l ++ skipn (S i) l.

(** The listeners bound by [bindEvents], the continuation of a settled
    [fetch], the callback of a due timer.  A disabled send button receives
    no click. *)
Definition handler (e : Event) : M unit :=
  match e with
  | ClickToggle => toggleChat
  | ClickMinimize => closeChat
  | ClickSend =>
      let* disabled := read (fun b => send_disabled (elements b)) in
      if disabled then ret tt else sendMessage
  | Keypress key shiftKey =>
      if String.eqb key "Enter" && negb shiftKey then sendMessage else ret tt
  | Input text => modify (set_elements (with_input_value text))
  | Settle i r =>
      let* waiting := read pending in
      match nth_error waiting i with
      | Some k =>
          do modify (set_pending (remove_nth i waiting)) then
          resume k r
      | None => ret tt
      end
  | Fire i =>
      let* due := read timers in
      match nth_error due i with
      | Some t =>
          do modify (set_timers (remove_nth i due)) then
          callback t
      | None => ret tt
      end
  end.

Definition step (e : Event) (b : Browser) : Browser := snd (handler e b).

Definition run (events : list Event) (b : Browser) : Browser :=
  fold_left (fun s e => step e s) events b.

(** Is this the request that opens a session? *)
Definition is_start (r : Request) : bool :=
  String.eqb (url r) (apiBaseUrl ++ "/chat/start").

Definition blank_page : Elements :=
  mkElements "" [] "none" false "none" false true false.

(** *** Predicates on replies, requests and states *)

(** A [fetch] that fails: the promise rejects, the status is not ok, or
    the body is not an object. *)
Definition failed (r : FetchResult) : bool :=
  match r with
  | NetworkError => true
  | Response ok json =>
      negb ok || match json with
                 | Some (BodyObject _ _ _ _) => false
                 | _ => true
                 end
  end.

(** The two requests the widget can make. *)
Definition local_request (r : Request) : Prop :=
  r = start_request \/ exists session message, r = message_request session message.

(** A session id is stored and no start of a session is under way. *)
Definition established (b : Browser) : Prop :=
  JS.truthy (sessionId b) = true /\ ~ In AwaitStart (pending b).

End Chatbot.

(** ** The statements of the specification about the marketplace, in its
    own words, to be compared with the code *)

Module Spec.
Local Open Scope Q_scope.

Definition totalCost (p : Property.t) : Q :=
  Property.price p + Property.rehabEstimate p + (8 # 100) * Property.price p.

(** 100 * (arv - totalCost) / totalCost, in exact arithmetic. *)
Definition margin_value (p : Property.t) : Q :=
  100 * (Property.arv p - totalCost p) / totalCost p.

(** [m] is round(x): the integer nearest to [x], a half going up. *)
Definition rounds_to (x : Q) (m : Z) : Prop :=
  inject_Z m - (1 # 2) <= x /\ x < inject_Z m + (1 # 2).

(** The amounts the amended statement speaks about: a price of at least
    one dollar, no negative amount, none above a billion dollars. *)
Definition plausible (p : Property.t) : Prop :=
  (1 <= Property.price p /\ Property.price p <= 1000000000)
  /\ (0 <= Property.rehabEstimate p /\ Property.rehabEstimate p <= 1000000000)
  /\ (0 <= Property.arv p /\ Property.arv p <= 1000000000).

(** A condition that applies when a filter is set. *)
Definition when_set {A} (o : option A) (P : A -> Prop) : Prop :=
  forall v, o = Some v -> P v.

(** The membership condition as the specification words it, for a property
    of the given margin: each bound is the value of the filter. *)
Definition filter_as_stated (f : SearchFilters.t) (p : Property.t) (margin : Q) : Prop :=
  Property.state p = SearchFilters.state f
  /\ when_set (SearchFilters.priceMin f) (fun lo => lo <= Property.price p)
  /\ when_set (SearchFilters.priceMax f) (fun hi => Property.price p <= hi)
  /\ when_set (SearchFilters.beds f) (fun b => b <= Property.beds p)
  /\ when_set (SearchFilters.propertyType f) (fun ty => Property.propertyType p = ty)
  /\ when_set (SearchFilters.needsWork f) (fun w => Property.needsWork p = w)
  /\ when_set (SearchFilters.marginMin f) (fun m => m <= margin)
  /\ when_set (SearchFilters.daysOnMarketMax f) (fun d => Property.dom p <= d).

(** The value of a bound, or the page's default when it is not set. *)
Definition set_or (o : option Q) (d : Q) : Q :=
  match o with
  | Some v => v
  | None => d
  end.

Definition nonzero (o : option Q) : Prop := when_set o (fun v => ~ v == 0).

(** The membership condition with the page's defaults, for a property of
    the given margin: no lower price bound and no minimum margin mean 0, no
    upper price bound means 1,000,000, no bound on the days on market means
    90; a minimum of zero beds and an empty property type select nothing. *)
Definition filter_with_defaults (f : SearchFilters.t) (p : Property.t) (margin : Q) : Prop :=
  Property.state p = SearchFilters.state f
  /\ set_or (SearchFilters.priceMin f) 0 <= Property.price p
  /\ Property.price p <= set_or (SearchFilters.priceMax f) 1000000
  /\ when_set (SearchFilters.beds f) (fun b => ~ b == 0 -> b <= Property.beds p)
  /\ when_set (SearchFilters.propertyType f)
       (fun ty => ty <> "" -> Property.propertyType p = ty)
  /\ when_set (SearchFilters.needsWork f) (fun w => Property.needsWork p = w)
  /\ set_or (SearchFilters.marginMin f) 0 <= margin
  /\ Property.dom p <= set_or (SearchFilters.daysOnMarketMax f) 90.

End Spec.

(** ** Concrete inputs for the examples below *)

Module Examples.

(** The first of the mock properties. *)
Definition austin : Property.t :=
  Property.mk "1" "123 Main St" "Austin" "TX" "73301" 3 2 1850
    285000 365000 45000 14 87 (302672 # 10000) (-977431 # 10000)
    true "single-family"%string.

(** A property whose margin is, in exact arithmetic, halfway between 14
    and 15. *)
Definition halfway : Property.t :=
  Property.mk "5" "12 Tie Ln" "Austin" "TX" "73301" 3 2 1850
    200000 247320 0 14 87 (302672 # 10000) (-977431 # 10000)
    true "single-family"%string.

(** The page after the margin slider and the days-on-market slider have
    both been dragged to 0. *)
Definition sliders_at_zero : Marketplace.State :=
  Marketplace.run
    [Marketplace.ChangeMarginMin 0; Marketplace.ChangeDaysOnMarketMax 0]
    (Marketplace.initial ∅).

(** The page after the margin slider has been dragged to 0. *)
Definition margin_at_zero : Marketplace.State :=
  Marketplace.run [Marketplace.ChangeMarginMin 0] (Marketplace.initial ∅).

(** The page with the properties 1 and 2 saved, in this order. *)
Definition two_saved : Marketplace.State :=
  Marketplace.run [Marketplace.ClickSave "1"; Marketplace.ClickSave "2"]
    (Marketplace.initial ∅).

(** A page of the site: three links, an icon inside the second link, and
    two pages, the home page being shown.  The third link names a page
    that the routing table does not list. *)
Definition site : Dom.Document :=
  [ Dom.mkElement "nav-home" ["nav-link"; "active"] (Some "home") "" None;
    Dom.mkElement "nav-market" ["nav-link"] (Some "marketplace") "" None;
    Dom.mkElement "nav-icon" [] None "" (Some 1%nat);
    Dom.mkElement "nav-about" ["nav-link"] (Some "constructor") "" None;
    Dom.mkElement "nav-demo" ["nav-link"] (Some "demo") "" None;
    Dom.mkElement "home-page" ["page"; "active"] None "block" None;
    Dom.mkElement "marketplace-page" ["page"] None "none" None ]%string.

Definition at_home : Router.Page := Router.mkPage site "home".

Definition new_at_home : VanillaNew.State := VanillaNew.mkState site "home" 0.

(** Replies of the backend. *)
Definition greeting (session : string) : Chatbot.FetchResult :=
  Chatbot.Response true
    (Some (Chatbot.BodyObject (JS.VStr session) (JS.VStr "Hi! What are you looking for?")
             JS.VUndefined JS.VUndefined)).

Definition refusal : Chatbot.FetchResult :=
  Chatbot.Response false
    (Some (Chatbot.BodyObject JS.VUndefined (JS.VStr "Too many requests")
             (JS.VBool true) (JS.VBool true))).

Definition untexted : Chatbot.FetchResult :=
  Chatbot.Response true
    (Some (Chatbot.BodyObject JS.VUndefined (JS.VNum 42) (JS.VBool true) (JS.VBool true))).

Definition loaded : Chatbot.Browser := Chatbot.initializeChatbot Chatbot.blank_page.

(** The chat is open, the session "s1" is established and the user has
    typed a message. *)
Definition typed : Chatbot.Browser :=
  Chatbot.run
    [Chatbot.ClickToggle; Chatbot.Settle 0 (greeting "s1");
     Chatbot.Input "  Austin, under 300k "]
    loaded.

(** The user opens the chat, closes it and opens it again before the
    backend has answered; then both answers arrive. *)
Definition impatient : list Chatbot.Event :=
  [Chatbot.ClickToggle; Chatbot.ClickMinimize; Chatbot.ClickToggle;
   Chatbot.Settle 0 (greeting "s1"); Chatbot.Settle 0 (greeting "s2")].

End Examples.

(** ** The deal analyzer page (React) *)

Module DealAnalyzer.

(** What a cost or a total holds: a number, or a string once the text of an
    input has been stored or concatenated. *)
Inductive Value :=
| Num (q : Q)
| Str (s : string).

Record RehabItem := mkItem {
  item : string;
  cost : Value
}.

Record Analysis := mkAnalysis {
  purchasePrice : Q;
  closingCosts : Q;
  rehabItems : list RehabItem;
  totalRehab : Value;
  arv : Q;
  confidence : Q
}.

Definition initial : Analysis :=
  mkAnalysis 285000 22800
    [ mkItem "Kitchen renovation" (Num 25000);
      mkItem "Bathroom updates" (Num 12000);
      mkItem "Flooring" (Num 8000) ]
    (Num 45000) 365000 85.

(** The [field] argument of [updateRehabItem]: ['item'] or ['cost']. *)
Inductive Field := item_field | cost_field.

Definition addRehabItem (prev : Analysis) : Analysis :=
  mkAnalysis (purchasePrice prev) (closingCosts prev)
    (rehabItems prev ++ [mkItem "" (Num 0)])
    (totalRehab prev) (arv prev) (confidence prev).

(** [{ ...item, [field]: value }] *)
Definition with_field (field : Field) (value : string) (it : RehabItem) : RehabItem :=
  match field with
  | item_field => mkItem value (cost it)
  | cost_field => mkItem (item it) (Str value)
  end.

(** [items.map((item, i) => i === index ? f(item) : item)], where [i] is the
    position counted from [from]. *)
Fixpoint map_at (from index : nat) (f : RehabItem -> RehabItem)
    (items : list RehabItem) : list RehabItem :=
  match items with
  | [] => []
  | it :: rest =>
      (if Nat.eqb from index then f it else it) :: map_at (S from) index f rest
  end.

Section WithToString.
(** The text of a number, as [+] makes it when the other operand is a
    string. *)
Variable ToString : Q -> string.

(** [a + b] on numbers and strings. *)
Definition plus (a b : Value) : Value :=
  match a, b with
  | Num x, Num y => Num (x + y)
  | Num x, Str t => Str (ToString x ++ t)
  | Str s, Num y => Str (s ++ ToString y)
  | Str s, Str t => Str (s ++ t)
  end.

(** The [reduce] of [updateRehabItem]; [number] is [Number(value)]. *)
Fixpoint reduce_costs (from index : nat) (field : Field) (number : Q)
    (items : list RehabItem) (sum : Value) : Value :=
  match items with
  | [] => sum
  | it :: rest =>
      reduce_costs (S from) index field number rest
        (if Nat.eqb from index
         then plus sum (match field with
                        | cost_field => Num number
                        | item_field => cost it
                        end)
         else plus sum (cost it))
  end.

(** [updateRehabItem(index, field, value)] for the text [value] of an
    input, [number] being [Number(value)]. *)
Definition updateRehabItem (index : nat) (field : Field) (value : string)
    (number : Q) (prev : Analysis) : Analysis :=
  mkAnalysis (purchasePrice prev) (closingCosts prev)
    (map_at 0 index (with_field field value) (rehabItems prev))
    (reduce_costs 0 index field number (rehabItems prev) (Num 0))
    (arv prev) (confidence prev).

(** [analysis.purchasePrice + analysis.closingCosts + analysis.totalRehab] *)
Definition totalInvestment (analysis : Analysis) : Value :=
  plus (plus (Num (purchasePrice analysis)) (Num (closingCosts analysis)))
    (totalRehab analysis).

(** The inputs of the page; a number input hands over its text, and
    [number] is what [Number] makes of it. *)
Inductive Event :=
| ChangePurchasePrice (number : Q)
| ChangeClosingCosts (number : Q)
| ChangeArv (number : Q)
| ClickAddItem
| ChangeItemName (index : nat) (value : string)
| ChangeItemCost (index : nat) (value : string) (number : Q).

Definition handle (e : Event) (prev : Analysis) : Analysis :=
  match e with
  | ChangePurchasePrice n =>
      mkAnalysis n (n * (8 # 100)) (rehabItems prev) (totalRehab prev)
        (arv prev) (confidence prev)
  | ChangeClosingCosts n =>
      mkAnalysis (purchasePrice prev) n (rehabItems prev) (totalRehab prev)
        (arv prev) (confidence prev)
  | ChangeArv n =>
      mkAnalysis (purchasePrice prev) (closingCosts prev) (rehabItems prev)
        (totalRehab prev) n (confidence prev)
  | ClickAddItem => addRehabItem prev
  | ChangeItemName index value => updateRehabItem index item_field value 0 prev
  | ChangeItemCost index value number =>
      updateRehabItem index cost_field value number prev
  end.

Definition run (events : list Event) (a : Analysis) : Analysis :=
  fold_left (fun s e => handle e s) events a.

End WithToString.

(** *** Predicates on analyses *)

Definition is_number (v : Value) : Prop := exists q, v = Num q.

Definition is_string (v : Value) : Prop := exists s, v = Str s.

(** The sum of the costs that are numbers. *)
Fixpoint sum_costs (items : list RehabItem) : Q :=
  match items with
  | [] => 0
  | it :: rest =>
      match cost it with
      | Num q => q + sum_costs rest
      | Str _ => sum_costs rest
      end
  end.

(** Every cost is a number and [totalRehab] is their sum. *)
Definition consistent (a : Analysis) : Prop :=
  Forall (fun it => is_number (cost it)) (rehabItems a)
  /\ exists t, totalRehab a = Num t /\ t == sum_costs (rehabItems a).

Definition edits_cost (e : Event) : bool :=
  match e with
  | ChangeItemCost _ _ _ => true
  | _ => false
  end.

End DealAnalyzer.

(** ** The marketplace page: what is kept in step *)

Module MarketplaceLog.

(** The localStorage key holds the JSON text of the saved list. *)
Definition synced (st : Marketplace.State) : Prop :=
  Marketplace.localStorage st !! "savedProperties"
  = Some (Json.stringify (Marketplace.savedProperties st)).

Definition is_save (e : Marketplace.Event) : bool :=
  match e with
  | Marketplace.ClickSave _ => true
  | _ => false
  end.

(** Typing in the location box, choosing a sort order. *)
Definition location_or_sort (e : Marketplace.Event) : bool :=
  match e with
  | Marketplace.ChangeCity _ => true
  | Marketplace.ChangeSortBy _ => true
  | _ => false
  end.

End MarketplaceLog.

(** ** The agent-connect page over time *)

Module AgentConnectPage.

Definition run (events : list AgentConnect.Event) (st : AgentConnect.State)
  : AgentConnect.State :=
  fold_left (fun s e => AgentConnect.handle e s) events st.

Definition is_toast (e : AgentConnect.Effect) : bool :=
  match e with
  | AgentConnect.Toast _ _ => true
  | _ => false
  end.

Definition raises_toast (e : AgentConnect.Event) : bool :=
  match e with
  | AgentConnect.Submit => true
  | AgentConnect.RequestIntro _ => true
  | _ => false
  end.

End AgentConnectPage.

(** ** Routing: what a navigation reads and what it leaves alone *)

Module RouterFrame.

(** An element without its "active" class. *)
Definition frame (el : Dom.Element)
  : string * list string * option string * string * option nat :=
  (Dom.id el,
   List.filter (fun c => negb (String.eqb c "active")) (Dom.classList el),
   Dom.data_page el, Dom.style_display el, Dom.parent el).

(** The element carries [data-page="pageId"]. *)
Definition has_data_page (pageId : string) (el : Dom.Element) : bool :=
  match Dom.data_page el with
  | Some v => String.eqb v pageId
  | None => false
  end.

(** A selector engine that, asked for [[data-page="pageId"]], finds the
    first element carrying that attribute value. *)
Definition finds_data_page (querySelector : Dom.QuerySelector) (pageId : string) : Prop :=
  forall doc,
    querySelector (Dom.data_page_selector pageId) doc
    = Some (Dom.find_index (has_data_page pageId) doc).

End RouterFrame.

(** ** script_new.js: amounts of money *)

Module Money.

(** Commas between groups of three, on the digits in reverse order. *)
Fixpoint group_rev (l : list ascii) : list ascii :=
  match l with
  | a :: b :: c :: ((_ :: _) as rest) => a :: b :: c :: ","%char :: group_rev rest
  | _ => l
  end.

Definition group (digits : string) : string :=
  string_of_list_ascii (rev (group_rev (rev (list_ascii_of_string digits)))).

(** [Number.MAX_SAFE_INTEGER]: up to here every integer is a number, and
    the digits written for it are its decimal numeral. *)
Definition MAX_SAFE_INTEGER : Z := 2 ^ 53 - 1.

(** [formatMoney(amount)] for an amount that is a safe integer: US dollars
    without cents, as [Intl.NumberFormat('en-US', {style: 'currency',
    currency: 'USD', minimumFractionDigits: 0, maximumFractionDigits: 0})]
    writes it.  Beyond the safe integers the digits written are the shortest
    ones that denote the number, followed by zeros; the model gives no text
    for such an amount ([None]), nor for one that is not an integer. *)
Definition formatMoney (amount : Z) : option string :=
  if (Z.abs amount <=? MAX_SAFE_INTEGER)%Z then
    Some match Z.to_int amount with
         | Decimal.Pos d => "$" ++ group (NilZero.string_of_uint d)
         | Decimal.Neg d => "-$" ++ group (NilZero.string_of_uint d)
         end
  else None.

(** The characters of an amount proper: all but the dollar sign and the
    commas. *)
Definition is_amount_char (c : ascii) : bool :=
  negb (Ascii.eqb c "$") && negb (Ascii.eqb c ",").

(** The digits and commas of a text, from right to left. *)
Definition from_right (text : string) : list ascii :=
  rev (List.filter (fun c => negb (Ascii.eqb c "$") && negb (Ascii.eqb c "-"))
         (list_ascii_of_string text)).

(** Reading an amount back: the dollar sign and the commas are dropped. *)
Definition unformat (text : string) : option Z :=
  option_map Z.of_int
    (NilZero.int_of_string
       (string_of_list_ascii
          (List.filter is_amount_char (list_ascii_of_string text)))).

End Money.

(** ** The chatbot widget: what the transcript and the requests record *)

Module ChatLog.

(** The texts of the user's messages in the transcript, in order. *)
Fixpoint user_texts (ms : list (Chatbot.Role * string)) : list string :=
  match ms with
  | [] => []
  | (Chatbot.user, s) :: rest => s :: user_texts rest
  | (Chatbot.assistant, _) :: rest => user_texts rest
  end.

(** The text a request to chat/message carries. *)
Definition sent_text (r : Chatbot.Request) : list string :=
  if String.eqb (Chatbot.url r) (Chatbot.apiBaseUrl ++ "/chat/message") then
    flat_map (fun kv => match kv with
                        | ("message", JS.VStr m) => [m]
                        | _ => []
                        end) (Chatbot.body r)
  else [].

(** The texts sent to chat/message, in order. *)
Definition sent_texts (rs : list Chatbot.Request) : list string :=
  flat_map sent_text rs.

Definition is_message (k : Chatbot.Awaiting) : bool :=
  match k with
  | Chatbot.AwaitMessage => true
  | Chatbot.AwaitStart => false
  end.

(** The number of messages whose reply is awaited. *)
Definition in_flight (b : Chatbot.Browser) : nat :=
  length (List.filter is_message (Chatbot.pending b)).

(** What an event adds to the transcript and to the requests. *)
Definition adds (b b' : Chatbot.Browser) (ms : list (Chatbot.Role * string))
    (rs : list Chatbot.Request) : Prop :=
  Chatbot.messages (Chatbot.elements b')
  = (Chatbot.messages (Chatbot.elements b) ++ ms)%list
  /\ Chatbot.requests b' = (Chatbot.requests b ++ rs)%list.

(** The texts one after the other. *)
Fixpoint flatten (ws : list string) : string :=
  match ws with
  | [] => EmptyString
  | w :: rest => w ++ flatten rest
  end.

(** The code points of the white-space characters and line terminators
    of ECMAScript: tab, line feed, vertical tab, form feed, carriage return,
    space, no-break space, the other space separators of Unicode, the line
    and paragraph separators, and the byte order mark. *)
Definition white_space_code_points : list N :=
  [ 0x9; 0xA; 0xB; 0xC; 0xD; 0x20; 0xA0; 0x1680;
    0x2000; 0x2001; 0x2002; 0x2003; 0x2004; 0x2005; 0x2006; 0x2007;
    0x2008; 0x2009; 0x200A; 0x2028; 0x2029; 0x202F; 0x205F; 0x3000;
    0xFEFF ]%N.

(** The UTF-8 encoding of a code point below 0x10000. *)
Definition utf8 (cp : N) : string :=
  Chatbot.of_bytes
    (map N.to_nat
       (if (cp <? 0x80)%N then [cp]
        else if (cp <? 0x800)%N then [0xC0 + cp / 0x40; 0x80 + cp mod 0x40]%N
        else [0xE0 + cp / 0x1000; 0x80 + (cp / 0x40) mod 0x40; 0x80 + cp mod 0x40]%N)).

(** A text made of white-space characters only (the empty text
    included). *)
Definition blank (s : string) : Prop :=
  exists cps,
    Forall (fun cp => In cp white_space_code_points) cps
    /\ s = flatten (map utf8 cps).

(** The send button is disabled exactly while the widget is typing, and
    then one message awaits its reply, otherwise none. *)
Definition one_at_a_time (b : Chatbot.Browser) : Prop :=
  Chatbot.send_disabled (Chatbot.elements b) = Chatbot.isTyping b
  /\ in_flight b = (if Chatbot.isTyping b then 1 else 0)%nat.

End ChatLog.

(** ** The chatbot widget: formatMessage *)

Module Markup.

Definition LF : ascii := ascii_of_nat 10.

(** The line terminators, which [.] does not match: LF, CR, U+2028 and
    U+2029 (in UTF-8). *)
Definition line_terminators : list string :=
  map Chatbot.of_bytes [[10]; [13]; [226; 128; 168]; [226; 128; 169]]%nat.

Definition at_line_terminator (s : string) : bool :=
  existsb (fun t => String.prefix t s) line_terminators.

(** What follows [d] when [s] starts with [d]. *)
Fixpoint strip_prefix (d s : string) : option string :=
  match d, s with
  | EmptyString, _ => Some s
  | String a d', String b s' => if Ascii.eqb a b then strip_prefix d' s' else None
  | String _ _, EmptyString => None
  end.

(** [content.replace(/\n/g, '<br>')] *)
Fixpoint replace_newlines (s : string) : string :=
  match s with
  | EmptyString => EmptyString
  | String c rest =>
      if Ascii.eqb c LF then "<br>" ++ replace_newlines rest
      else String c (replace_newlines rest)
  end.

(** The part [(.*?)d] of the pattern [d(.*?)d], matched against [s]: the
    shortest run of characters other than line terminators that is followed
    by [d].  The result is the group and what follows the closing [d]. *)
Fixpoint close_group (d s : string) : option (string * string) :=
  match strip_prefix d s with
  | Some rest => Some (EmptyString, rest)
  | None =>
      match s with
      | EmptyString => None
      | String c s' =>
          if at_line_terminator s then None
          else match close_group d s' with
               | Some (group, rest) => Some (String c group, rest)
               | None => None
               end
      end
  end.

(** [s.replace(/d(.*?)d/g, opening + '$1' + closing)]: the matches are
    searched from left to right; where none starts, the character is kept. *)
Fixpoint replace_pairs (fuel : nat) (d opening closing s : string) : string :=
  match fuel with
  | O => s
  | S fuel' =>
      match s with
      | EmptyString => EmptyString
      | String c s' =>
          match strip_prefix d s with
          | Some inner =>
              match close_group d inner with
              | Some (group, rest) =>
                  opening ++ group ++ closing
                  ++ replace_pairs fuel' d opening closing rest
              | None => String c (replace_pairs fuel' d opening closing s')
              end
          | None => String c (replace_pairs fuel' d opening closing s')
          end
      end
  end.

Definition replace_all (d opening closing s : string) : string :=
  replace_pairs (String.length s) d opening closing s.

Definition formatMessage (content : string) : string :=
  replace_all "*" "<em>" "</em>"
    (replace_all "**" "<strong>" "</strong>" (replace_newlines content)).

(** Does the character occur in the string? *)
Fixpoint has_char (c : ascii) (s : string) : bool :=
  match s with
  | EmptyString => false
  | String x rest => Ascii.eqb x c || has_char c rest
  end.

(** The lines of a text: what stands before, between and after its line
    feeds. *)
Fixpoint lines (s : string) : list string :=
  match s with
  | EmptyString => [EmptyString]
  | String c rest =>
      if Ascii.eqb c LF then EmptyString :: lines rest
      else match lines rest with
           | l :: ls => String c l :: ls
           | [] => [String c EmptyString]
           end
  end.

(** Does a line terminator occur in the string? *)
Fixpoint has_line_terminator (s : string) : bool :=
  match s with
  | EmptyString => false
  | String _ rest => at_line_terminator s || has_line_terminator rest
  end.

End Markup.

(** ** Sample sessions of the pages *)

Module Scenarios.

(** The text of a whole number, as [+] writes it next to a string. *)
Definition ToString (q : Q) : string :=
  NilZero.string_of_int (Z.to_int (Qfloor q)).

(** On the deal analyzer: a row is added and named, then the purchase
    price is changed. *)
Definition renaming : list DealAnalyzer.Event :=
  [ DealAnalyzer.ClickAddItem;
    DealAnalyzer.ChangeItemName 3 "Roof";
    DealAnalyzer.ChangePurchasePrice 300000 ].

(** On the marketplace: a slider is moved, a property is saved, a city is
    typed. *)
Definition browsing : list Marketplace.Event :=
  [ Marketplace.ChangeMarginMin 20;
    Marketplace.ClickSave "2";
    Marketplace.ChangeCity "Austin" ].

(** A reader of the one JSON text that the reload below meets. *)
Definition parse (text : string) : option (list string) :=
  if String.eqb text (Json.stringify ["1"; "2"]) then Some ["1"; "2"] else None.

(** The third of the mock properties. *)
Definition houston : Property.t :=
  Property.mk "3" "789 Pine Rd" "Houston" "TX" "77001" 2 1 1200
    195000 285000 52000 28 74 (297604 # 10000) (-953698 # 10000)
    true "condo"%string.

(** In the chat: the session starts, a message is sent with the button,
    another with the Enter key while the first is awaited, and the backend
    refuses the first. *)
Definition chat : list Chatbot.Event :=
  [ Chatbot.ClickToggle;
    Chatbot.Settle 0 (Examples.greeting "s1");
    Chatbot.Input "Austin";
    Chatbot.ClickSend;
    Chatbot.Input "and Dallas";
    Chatbot.Keypress "Enter" false;
    Chatbot.Settle 0 Examples.refusal;
    Chatbot.Input "   ";
    Chatbot.ClickSend ].

(** In the chat with an open session, three spaces have been typed. *)
Definition spaces : Chatbot.Browser :=
  Chatbot.run
    [Chatbot.ClickToggle; Chatbot.Settle 0 (Examples.greeting "s1");
     Chatbot.Input "   "]
    Examples.loaded.

End Scenarios.

(** * Properties *)

(** ** Marketplace: the listed properties never change *)

Lemma handle_properties (e : Marketplace.Event) (st : Marketplace.State) :
  Marketplace.properties (Marketplace.handle e st) = Marketplace.properties st.
Proof. destruct e; reflexivity. Qed.

Lemma run_properties (events : list Marketplace.Event) (st : Marketplace.State) :
  Marketplace.properties (Marketplace.run events st) = Marketplace.properties st.
Proof.
  revert st. induction events as [| e events IH]; intros st; [reflexivity |].
  simpl. unfold Marketplace.run in IH. rewrite IH. apply handle_properties.
Qed.

Lemma mount_properties (parse : string -> option (list string))
    (st st' : Marketplace.State) :
  Marketplace.useEffect_mount parse st = Some st' ->
  Marketplace.properties st' = Marketplace.properties st.
Proof.
  unfold Marketplace.useEffect_mount.
  destruct (Marketplace.localStorage st !! "savedProperties") as [saved |].
  - destruct (String.eqb saved "").
    + intros [= <-]. reflexivity.
    + destruct (parse saved); [intros [= <-]; reflexivity | discriminate].
  - intros [= <-]. reflexivity.
Qed.

Lemma render_from_properties (st : Marketplace.State) (card : Marketplace.Card) :
  In card (Marketplace.render st) ->
  In (Marketplace.card_property card) (Marketplace.properties st).
Proof.
  unfold Marketplace.render, Marketplace.filteredProperties.
  intros H. apply in_map_iff in H as (p & <- & Hp). simpl.
  apply filter_In in Hp. tauto.
Qed.

(** C5.  From the first render on, whatever the user does (any sequence of
    filter changes, sort changes, saves and resets), the [properties] state of
    the Marketplace page is the [mockProperties] array, which has four
    entries, all in Texas; every rendered card shows one of them. *)
Theorem C5_properties_stay_mock
    (parse : string -> option (list string)) (storage : gmap string string)
    (events : list Marketplace.Event) (st : Marketplace.State) :
  Marketplace.lifetime parse storage events = Some st ->
  Marketplace.properties (Marketplace.initial storage) = Marketplace.mockProperties
  /\ Marketplace.properties st = Marketplace.mockProperties
  /\ length Marketplace.mockProperties = 4%nat
  /\ Forall (fun p => Property.state p = "TX") Marketplace.mockProperties
  /\ (forall card, In card (Marketplace.render st) ->
        In (Marketplace.card_property card) Marketplace.mockProperties).
Proof.
  unfold Marketplace.lifetime.
  destruct (Marketplace.useEffect_mount parse (Marketplace.initial storage))
    as [st0 |] eqn:Hmount; [| discriminate].
  intros [= <-].
  assert (Hp : Marketplace.properties (Marketplace.run events st0)
               = Marketplace.mockProperties).
  { rewrite run_properties. apply mount_properties in Hmount.
    rewrite Hmount. reflexivity. }
  repeat split.
  - exact Hp.
  - repeat constructor.
  - intros card Hc. rewrite <- Hp. apply render_from_properties, Hc.
Qed.

Lemma C5_witness :
  Marketplace.properties
    (Marketplace.run
       [Marketplace.ChangeMarginMin 0; Marketplace.ClickSave "3";
        Marketplace.ChangeSortBy "price-low"; Marketplace.ClickResetFilters]
       (Marketplace.initial ∅))
  = Marketplace.mockProperties.
Proof.
  apply (C5_properties_stay_mock (fun _ => None) ∅
           [Marketplace.ChangeMarginMin 0; Marketplace.ClickSave "3";
            Marketplace.ChangeSortBy "price-low"; Marketplace.ClickResetFilters]).
  reflexivity.
Defined.

(** ** Numbers: rounding to binary64 *)

Section Binary64Facts.
Local Open Scope Q_scope.

Lemma round_half_even_error (x : Q) :
  Qabs (inject_Z (Num.round_half_even x) - x) <= 1 # 2.
Proof.
  unfold Num.round_half_even.
  pose proof (Qfloor_le x) as Hlo. pose proof (Qlt_floor x) as Hhi.
  rewrite inject_Z_plus in Hhi. change (inject_Z 1) with 1 in Hhi.
  apply Qabs_Qle_condition.
  destruct (Qcompare (x - inject_Z (Qfloor x)) (1 # 2)) eqn:C.
  - apply Qeq_alt in C. destruct (Z.even (Qfloor x)).
    + split; lra.
    + rewrite inject_Z_plus. change (inject_Z 1) with 1. split; lra.
  - apply Qlt_alt in C. split; lra.
  - apply Qgt_alt in C. rewrite inject_Z_plus. change (inject_Z 1) with 1. split; lra.
Qed.

Lemma two_to_pos (e : Z) : 0 < 2 ^ e.
Proof. apply Qpower_0_lt. reflexivity. Qed.

Lemma two_to_plus (a b : Z) : 2 ^ (a + b) == 2 ^ a * 2 ^ b.
Proof. apply Qpower_plus. discriminate. Qed.

Lemma two_to_Z (n : Z) : (0 <= n)%Z -> 2 ^ n == inject_Z (2 ^ n).
Proof. intros H. rewrite (Zpower_Qpower 2 n H). reflexivity. Qed.

(** [ilog2] is the integer part of the binary logarithm. *)
Lemma ilog2_spec (q : Q) :
  0 < q -> 2 ^ Num.ilog2 q <= q /\ q < 2 ^ (Num.ilog2 q + 1).
Proof.
  intros Hq. unfold Num.ilog2.
  destruct q as [n d]. simpl Qnum. simpl Qden.
  assert (Hn : (0 < n)%Z).
  { unfold Qlt in Hq. simpl in Hq. lia. }
  set (ln := Z.log2 n). set (ld := Z.log2 (Z.pos d)).
  pose proof (Z.log2_spec n Hn) as [Hn1 Hn2].
  pose proof (Z.log2_spec (Z.pos d) eq_refl) as [Hd1 Hd2].
  pose proof (Z.log2_nonneg n) as Hln. pose proof (Z.log2_nonneg (Z.pos d)) as Hld.
  fold ln in Hn1, Hn2, Hln. fold ld in Hd1, Hd2, Hld.
  assert (En : n # d == inject_Z n / inject_Z (Z.pos d)) by apply Qmake_Qdiv.
  assert (Hdpos : 0 < inject_Z (Z.pos d)) by reflexivity.
  assert (Qn1 : 2 ^ ln <= inject_Z n).
  { rewrite two_to_Z by assumption. rewrite <- Zle_Qle. exact Hn1. }
  assert (Qn2 : inject_Z n < 2 ^ (ln + 1)).
  { rewrite two_to_Z by lia. rewrite <- Zlt_Qlt. rewrite <- Z.add_1_r in Hn2. exact Hn2. }
  assert (Qd1 : 2 ^ ld <= inject_Z (Z.pos d)).
  { rewrite two_to_Z by assumption. rewrite <- Zle_Qle. exact Hd1. }
  assert (Qd2 : inject_Z (Z.pos d) < 2 ^ (ld + 1)).
  { rewrite two_to_Z by lia. rewrite <- Zlt_Qlt. rewrite <- Z.add_1_r in Hd2. exact Hd2. }
  assert (Hlow : 2 ^ (ln - ld - 1) <= n # d).
  { rewrite En. apply Qle_shift_div_l; [exact Hdpos |].
    apply Qle_trans with (2 ^ (ln - ld - 1) * 2 ^ (ld + 1)).
    - apply Qmult_le_l; [apply two_to_pos | apply Qlt_le_weak, Qd2].
    - rewrite <- two_to_plus. replace (ln - ld - 1 + (ld + 1))%Z with ln by lia. exact Qn1. }
  assert (Hupp : n # d < 2 ^ (ln - ld + 1)).
  { rewrite En. apply Qlt_shift_div_r; [exact Hdpos |].
    apply Qlt_le_trans with (2 ^ (ln + 1)); [exact Qn2 |].
    replace (ln + 1)%Z with (ln - ld + 1 + ld)%Z by lia. rewrite two_to_plus.
    apply Qmult_le_l; [apply two_to_pos | exact Qd1]. }
  destruct (Qle_bool (2 ^ (ln - ld)) (n # d)) eqn:E.
  - apply Qle_bool_iff in E. split; [exact E | exact Hupp].
  - split; [exact Hlow |].
    replace (ln - ld - 1 + 1)%Z with (ln - ld)%Z by lia.
    apply Qnot_le_lt. intros H. apply Qle_bool_iff in H. rewrite H in E. discriminate E.
Qed.

Lemma Qabs_pos_of_nonzero (q : Q) : ~ q == 0 -> 0 < Qabs q.
Proof.
  intros Hq. pose proof (Qabs_nonneg q) as Hn.
  apply Qle_lteq in Hn as [Hn | Hn]; [exact Hn |].
  exfalso. apply Hq. revert Hn. apply Qabs_case; intros; lra.
Qed.

Lemma ulp_exponent_bound (q : Q) :
  ~ q == 0 -> 2 ^ Num.ulp_exponent q <= Qabs q * 2 ^ (-52) + 2 ^ (-1074).
Proof.
  intros Hq. unfold Num.ulp_exponent.
  destruct (ilog2_spec (Qabs q) (Qabs_pos_of_nonzero q Hq)) as [Hlo _].
  pose proof (two_to_pos (-1074)) as H1. pose proof (two_to_pos (-52)) as H2.
  pose proof (Qabs_nonneg q) as Hn.
  destruct (Z.max_spec (Num.ilog2 (Qabs q) - 52) (-1074)) as [[_ ->] | [_ ->]].
  - assert (0 <= Qabs q * 2 ^ (-52)) by (apply Qmult_le_0_compat; lra). lra.
  - replace (Num.ilog2 (Qabs q) - 52)%Z with (Num.ilog2 (Qabs q) + -52)%Z by lia.
    rewrite two_to_plus.
    assert (2 ^ Num.ilog2 (Qabs q) * 2 ^ (-52) <= Qabs q * 2 ^ (-52)).
    { apply Qmult_le_compat_r; lra. }
    lra.
Qed.

(** The error of a rounding is at most half a unit in the last place. *)
Lemma round64_error (q : Q) :
  Qabs (Num.round64 q - q) <= Qabs q * 2 ^ (-53) + 2 ^ (-1075).
Proof.
  unfold Num.round64. destruct (Qeq_bool q 0) eqn:E.
  - apply Qeq_bool_iff in E.
    pose proof (two_to_pos (-1075)). pose proof (two_to_pos (-53)).
    assert (0 <= Qabs q * 2 ^ (-53)).
    { apply Qmult_le_0_compat; [apply Qabs_nonneg | lra]. }
    apply Qabs_Qle_condition. split; lra.
  - assert (Hq : ~ q == 0).
    { intros H. apply Qeq_bool_iff in H. rewrite H in E. discriminate E. }
    set (e := Num.ulp_exponent q).
    pose proof (two_to_pos e) as He.
    pose proof (round_half_even_error (q / 2 ^ e)) as Hr.
    set (m := inject_Z (Num.round_half_even (q / 2 ^ e))) in *.
    assert (Hm : m * 2 ^ e - q == (m - q / 2 ^ e) * 2 ^ e).
    { field. lra. }
    rewrite Hm, Qabs_Qmult, (Qabs_pos (2 ^ e)) by lra.
    pose proof (ulp_exponent_bound q Hq) as Hu. fold e in Hu.
    assert (H53 : 2 ^ (-52) == 2 * 2 ^ (-53)) by reflexivity.
    assert (H1075 : 2 ^ (-1074) == 2 * 2 ^ (-1075)) by reflexivity.
    assert (Hprod : Qabs (m - q / 2 ^ e) * 2 ^ e <= (1 # 2) * 2 ^ e).
    { apply Qmult_le_compat_r; lra. }
    lra.
Qed.

(** A rounded number is a binary64 number: a multiple of a power of two
    not below 2^-1074, by an integer of at most 53 binary digits. *)
Lemma round64_format (q : Q) :
  exists (m e : Z),
    Num.round64 q == inject_Z m * 2 ^ e
    /\ (Z.abs m <= 2 ^ 53)%Z /\ (-1074 <= e)%Z.
Proof.
  unfold Num.round64. destruct (Qeq_bool q 0) eqn:E.
  - exists 0%Z, 0%Z. split; [reflexivity | split; [discriminate | discriminate]].
  - assert (Hq : ~ q == 0).
    { intros H. apply Qeq_bool_iff in H. rewrite H in E. discriminate E. }
    set (e := Num.ulp_exponent q).
    exists (Num.round_half_even (q / 2 ^ e)), e.
    split; [reflexivity |]. split; [| unfold e, Num.ulp_exponent; lia].
    destruct (ilog2_spec (Qabs q) (Qabs_pos_of_nonzero q Hq)) as [_ Hup].
    pose proof (two_to_pos e) as He.
    assert (Hle : 2 ^ (Num.ilog2 (Qabs q) + 1) <= 2 ^ 53 * 2 ^ e).
    { rewrite <- two_to_plus. apply Qpower_le_compat_l; [| lra].
      unfold e, Num.ulp_exponent. lia. }
    assert (Habs : Qabs (q / 2 ^ e) <= 2 ^ 53).
    { unfold Qdiv. rewrite Qabs_Qmult, Qabs_Qinv, (Qabs_pos (2 ^ e)) by lra.
      apply Qle_shift_div_r; [exact He | lra]. }
    apply Qabs_Qle_condition in Habs as [Hb1 Hb2].
    unfold Num.round_half_even.
    pose proof (Qfloor_le (q / 2 ^ e)) as Hlo. pose proof (Qlt_floor (q / 2 ^ e)) as Hhi.
    rewrite inject_Z_plus in Hhi. change (inject_Z 1) with 1 in Hhi.
    set (f := Qfloor (q / 2 ^ e)) in *.
    assert (H53 : 2 ^ 53 == inject_Z (2 ^ 53)) by reflexivity.
    assert (Hf1 : (- 2 ^ 53 < f + 1)%Z).
    { rewrite Zlt_Qlt. rewrite inject_Z_plus, inject_Z_opp, <- H53.
      change (inject_Z 1) with 1. lra. }
    assert (Hf2 : (f <= 2 ^ 53)%Z).
    { rewrite Zle_Qle. rewrite <- H53. lra. }
    destruct (Qcompare (q / 2 ^ e - inject_Z f) (1 # 2)) eqn:C.
    + apply Qeq_alt in C.
      assert (Hf3 : (f < 2 ^ 53)%Z).
      { rewrite Zlt_Qlt. rewrite <- H53. lra. }
      destruct (Z.even f); lia.
    + lia.
    + apply Qgt_alt in C.
      assert (Hf3 : (f < 2 ^ 53)%Z).
      { rewrite Zlt_Qlt. rewrite <- H53. lra. }
      lia.
Qed.

(** A result that is not huge is rounded to a finite number; [bound] is
    any bound of its magnitude, and the error is at most 2^-53 of the bound
    plus one. *)
Lemma binary64_error (q bound : Q) :
  Qabs q <= bound -> bound <= 1000000000000 ->
  exists r, Num.binary64 q = Num.Fin r
            /\ q - (1 # 9007199254740992) * (bound + 1) <= r
            /\ r <= q + (1 # 9007199254740992) * (bound + 1).
Proof.
  intros Hq Hbound. exists (Num.round64 q).
  pose proof (round64_error q) as He.
  pose proof (Qabs_nonneg q) as Hn.
  assert (H53 : 2 ^ (-53) == 1 # 9007199254740992) by reflexivity.
  assert (H1075 : 2 ^ (-1075) <= 2 ^ (-53)).
  { apply Qpower_le_compat_l; [lia | lra]. }
  assert (H40 : 2 ^ 40 == 1099511627776) by reflexivity.
  assert (H1000 : 2 ^ 40 <= 2 ^ 1000).
  { apply Qpower_le_compat_l; [lia | lra]. }
  assert (H1024 : 2 ^ 1000 < 2 ^ 1024).
  { apply Qpower_lt_compat_l; [lia | lra]. }
  assert (Hmul : Qabs q * 2 ^ (-53) <= (1 # 9007199254740992) * bound).
  { rewrite H53. lra. }
  apply Qabs_Qle_condition in He as [He1 He2].
  apply Qabs_Qle_condition in Hq as [Hq1 Hq2].
  split; [| split; lra].
  unfold Num.binary64.
  destruct (Qle_bool (2 ^ 1024) (Num.round64 q)) eqn:E1.
  { apply Qle_bool_iff in E1. lra. }
  destruct (Qle_bool (Num.round64 q) (- 2 ^ 1024)) eqn:E2.
  { apply Qle_bool_iff in E2. lra. }
  reflexivity.
Qed.

(** The rounding at work: the literals 0.08 and 0.1, a tie that goes to
    the even neighbour on either side, the largest finite number and the
    overflow next to it, and the smallest subnormal numbers. *)
Lemma binary64_samples :
  let gives (q expected : Q) :=
    match Num.binary64 q with
    | Num.Fin r => r == expected
    | _ => False
    end in
  gives (8 # 100) (5764607523034235 # 72057594037927936)
  /\ gives (1 # 10) (3602879701896397 # 36028797018963968)
  /\ gives (2 ^ 53 + 1) (2 ^ 53)
  /\ gives (2 ^ 53 + 3) (2 ^ 53 + 4)
  /\ gives (2 ^ 1024 - 2 ^ 970 - 1) (2 ^ 1024 - 2 ^ 971)
  /\ Num.binary64 (2 ^ 1024 - 2 ^ 970) = Num.PosInf
  /\ Num.binary64 (- 2 ^ 1024) = Num.NegInf
  /\ gives (2 ^ (-1075)) 0
  /\ gives (3 * 2 ^ (-1075)) (2 ^ (-1073))
  /\ gives (2 ^ (-1074)) (2 ^ (-1074)).
Proof. vm_compute. repeat split. Qed.

End Binary64Facts.

(** ** Marketplace: the margin in binary64 and in exact arithmetic *)

Section MarginArithmetic.
Local Open Scope Q_scope.
Local Abbreviation u := (1 # 9007199254740992).
Local Abbreviation B := 1000000000.

Lemma product_bound (x y a b : Q) :
  - a <= x <= a -> - b <= y <= b -> - (a * b) <= x * y <= a * b.
Proof. intros [H1 H2] [H3 H4]. split; nra. Qed.

Lemma quotient_bound (e k E : Q) :
  0 < k -> - (E * k) <= e * k <= E * k -> - E <= e <= E.
Proof. intros Hk [H1 H2]. split; nra. Qed.

(** The values computed on the way to the margin, each within the error
    of one rounding of the exact result of its operation. *)
Variables P R A s1 K c t d qd qf mf x0 : Q.
Let T := P + R + (8 # 100) * P.
Hypothesis HP : 1 <= P <= B.
Hypothesis HR : 0 <= R <= B.
Hypothesis HA : 0 <= A <= B.
Hypothesis Hs1 : (P + R) - u * ((P + R) + 1) <= s1 <= (P + R) + u * ((P + R) + 1).
Hypothesis HK : (8 # 100) - u * (1 + 1) <= K <= (8 # 100) + u * (1 + 1).
Hypothesis Hc : P * K - u * (P * K + 1) <= c <= P * K + u * (P * K + 1).
Hypothesis Ht : (s1 + c) - u * ((s1 + c) + 1) <= t <= (s1 + c) + u * ((s1 + c) + 1).
Hypothesis Hd : (A - t) - u * ((A + t) + 1) <= d <= (A - t) + u * ((A + t) + 1).
Hypothesis Hqd : qd * t == d.
Hypothesis Hx0 : x0 * T == A - T.
Hypothesis Hqf : qd - u * ((B + 2) + 1) <= qf <= qd + u * ((B + 2) + 1).
Hypothesis Hmf :
  qf * 100 - u * (100 * (B + 3) + 1) <= mf <= qf * 100 + u * (100 * (B + 3) + 1).

Lemma T_bounds : 1 <= T /\ P <= T /\ R <= T /\ T <= 3 * B.
Proof. unfold T in *. repeat split; lra. Qed.

Lemma PK_bounds : (8 # 100) * P - 2 * u * P <= P * K <= (8 # 100) * P + 2 * u * P.
Proof.
  destruct HP as [HP1 _], HK as [HK1 HK2].
  assert (H0 : 0 < P) by lra.
  assert (H1 : P * ((8 # 100) - u * (1 + 1)) <= P * K).
  { apply Qmult_le_l; [exact H0 | exact HK1]. }
  assert (H2 : P * K <= P * ((8 # 100) + u * (1 + 1))).
  { apply Qmult_le_l; [exact H0 | exact HK2]. }
  split; [eapply Qle_trans; [| exact H1] | eapply Qle_trans; [exact H2 |]];
    apply Qle_lteq; right; ring.
Qed.

Lemma c_bounds : (8 # 100) * P - 4 * u * P <= c <= (8 # 100) * P + 4 * u * P.
Proof.
  pose proof PK_bounds as [H1 H2].
  destruct HP, Hc. set (PK := P * K) in *. split; lra.
Qed.

Lemma t_bounds : T - 9 * u * T <= t <= T + 9 * u * T.
Proof.
  pose proof c_bounds as [H1 H2].
  pose proof T_bounds as (HT1 & HT2 & HT3 & HT4).
  destruct HP, HR, Hs1, Ht. unfold T in *. split; lra.
Qed.

Lemma d_bounds : (A - T) - u * (A + 12 * T) <= d <= (A - T) + u * (A + 12 * T).
Proof.
  pose proof t_bounds as [H1 H2].
  pose proof T_bounds as (HT1 & HT2 & HT3 & HT4).
  destruct HA, Hd. split; lra.
Qed.

Lemma qd_close : - (u * (20 * B + 42)) <= qd - x0 <= u * (20 * B + 42).
Proof.
  pose proof t_bounds as [Ht1 Ht2].
  pose proof d_bounds as [Hd1 Hd2].
  pose proof T_bounds as (HT1 & HT2 & HT3 & HT4).
  destruct HA as [HA1 HA2].
  assert (Hpos : 0 < t * T) by nra.
  apply (quotient_bound _ (t * T)); [exact Hpos |].
  assert (Hnum : (qd - x0) * (t * T) == (d - (A - T)) * T - (A - T) * (t - T)).
  { transitivity (qd * t * T - x0 * T * t); [ring |]. rewrite Hqd, Hx0. ring. }
  destruct (product_bound (d - (A - T)) T (u * (A + 12 * T)) T) as [Ha1 Ha2];
    [split; lra | split; lra |].
  destruct (product_bound (A - T) (t - T) (A + T) (9 * u * T)) as [Hb1 Hb2];
    [split; lra | split; lra |].
  assert (Hk : u * T * (10 * A + 21 * T) <= u * T * ((20 * B + 42) * t)).
  { apply Qmult_le_l; [| lra].
    apply Qmult_lt_0_compat; [reflexivity | lra]. }
  rewrite Hnum. split.
  - apply Qle_trans with (- (u * T * ((20 * B + 42) * t))); [apply Qle_lteq; right; ring |].
    apply Qle_trans with (- (u * T * (10 * A + 21 * T))); [lra |].
    apply Qle_trans with (- (u * (A + 12 * T) * T) - (A + T) * (9 * u * T));
      [apply Qle_lteq; right; ring | lra].
  - apply Qle_trans with (u * T * ((20 * B + 42) * t)); [| apply Qle_lteq; right; ring].
    apply Qle_trans with (u * T * (10 * A + 21 * T)); [| lra].
    apply Qle_trans with (u * (A + 12 * T) * T + (A + T) * (9 * u * T));
      [lra | apply Qle_lteq; right; ring].
Qed.

Lemma x0_bounds : - B <= x0 <= B.
Proof.
  pose proof T_bounds as (HT1 & HT2 & HT3 & HT4).
  destruct HA as [HA1 HA2].
  apply (quotient_bound _ T); [lra |]. rewrite Hx0. split; lra.
Qed.

(** The product computed last is within 1/4000 of the exact percentage. *)
Lemma mf_close : 100 * x0 - (1 # 4000) <= mf <= 100 * x0 + (1 # 4000).
Proof.
  pose proof qd_close as [H1 H2]. pose proof x0_bounds as [H3 H4].
  destruct Hqf, Hmf. split; lra.
Qed.

End MarginArithmetic.

Section MarginAndFilters.
Local Open Scope Q_scope.

(** For plausible amounts no operation overflows, the margin is the
    rounding of a product that is within 1/4000 of the exact percentage. *)
Lemma calculateMargin_close (p : Property.t) :
  Spec.plausible p ->
  exists mf : Q,
    Marketplace.calculateMargin p = Num.Fin (inject_Z (Num.round_half_up mf))
    /\ Spec.margin_value p - (1 # 4000) <= mf <= Spec.margin_value p + (1 # 4000).
Proof.
  intros (HP & HR & HA).
  unfold Marketplace.calculateMargin, Marketplace.totalCost, Spec.margin_value,
    Spec.totalCost, Num.literal.
  set (P := Property.price p) in *. set (R := Property.rehabEstimate p) in *.
  set (A := Property.arv p) in *.
  set (T := P + R + (8 # 100) * P).
  (* price + rehabEstimate *)
  destruct (binary64_error (P + R) (P + R)) as (s1 & Es1 & Hs1);
    [apply Qabs_Qle_condition; split; lra | lra |].
  (* the literal 0.08 *)
  destruct (binary64_error (8 # 100) 1) as (K & EK & HK);
    [apply Qabs_Qle_condition; split; lra | lra |].
  (* price * 0.08 *)
  pose proof (PK_bounds P K HP HK) as HPK.
  destruct (binary64_error (P * K) (P * K)) as (c & Ec & Hc);
    [apply Qabs_Qle_condition; split; lra | lra |].
  (* the total cost *)
  pose proof (c_bounds P K c HP HK Hc) as Hcb.
  destruct (binary64_error (s1 + c) (s1 + c)) as (t & Et & Ht);
    [apply Qabs_Qle_condition; split; lra | lra |].
  pose proof (t_bounds P R s1 K c t HP HR Hs1 HK Hc Ht) as Htb.
  fold T in Htb.
  assert (HT : 1 <= T <= 3 * 1000000000) by (unfold T; lra).
  (* arv - totalCost *)
  destruct (binary64_error (A + - t) (A + t)) as (d & Ed & Hd);
    [apply Qabs_Qle_condition; split; lra | lra |].
  (* the quotient *)
  assert (Htpos : ~ t == 0) by lra.
  assert (Hqd : d / t * t == d) by (field; exact Htpos).
  assert (Hx0 : (A - T) / T * T == A - T) by (field; lra).
  pose proof (qd_close P R A s1 K c t d (d / t) ((A - T) / T)
                HP HR HA Hs1 HK Hc Ht Hd Hqd Hx0) as Hq.
  pose proof (x0_bounds P R A ((A - T) / T) HP HR HA Hx0) as Hx.
  destruct (binary64_error (d / t) (1000000000 + 2)) as (qf & Eqf & Hqf);
    [apply Qabs_Qle_condition; split; lra | lra |].
  (* the percentage *)
  destruct (binary64_error (qf * 100) (100 * (1000000000 + 3))) as (mf & Emf & Hmf);
    [apply Qabs_Qle_condition; split; lra | lra |].
  exists mf. split.
  - cbn [Num.add]. rewrite Es1, EK. cbn [Num.mul]. rewrite Ec.
    cbn [Num.add]. rewrite Et. cbn [Num.sub Num.opp Num.add]. rewrite Ed.
    cbn [Num.div].
    destruct (Qeq_bool t 0) eqn:E0.
    { apply Qeq_bool_iff in E0. contradiction. }
    rewrite Eqf. cbn [Num.mul]. rewrite Emf. reflexivity.
  - pose proof (mf_close P R A s1 K c t d (d / t) qf mf ((A - T) / T)
                  HP HR HA Hs1 HK Hc Ht Hd Hqd Hx0 Hqf Hmf) as [H1 H2].
    fold T in H1, H2.
    assert (E : 100 * (A - T) / T == 100 * ((A - T) / T)) by (field; lra).
    rewrite E. split; assumption.
Qed.

Lemma or_default_zero (o : option Q) :
  Num.or_default o 0 == Spec.set_or o 0.
Proof.
  destruct o as [v |]; simpl; [| reflexivity].
  destruct (Qeq_bool v 0) eqn:E; [| reflexivity].
  apply Qeq_bool_iff in E. symmetry. exact E.
Qed.

Lemma or_default_nonzero (o : option Q) (d : Q) :
  Spec.nonzero o -> Num.or_default o d = Spec.set_or o d.
Proof.
  destruct o as [v |]; simpl; [| reflexivity].
  intros H. destruct (Qeq_bool v 0) eqn:E; [| reflexivity].
  apply Qeq_bool_iff in E. destruct (H v eq_refl E).
Qed.

(** [Math.round] of a number close to [x] is close to round(x), and is
    round(x) when [x] is clear of the halves. *)
Lemma round_half_up_close (x mf : Q) :
  x - (1 # 4000) <= mf <= x + (1 # 4000) ->
  Qabs (inject_Z (Num.round_half_up mf) - x) <= (1 # 2) + (1 # 1000)
  /\ (forall k : Z,
        inject_Z k - (1 # 2) + (1 # 1000) <= x ->
        x <= inject_Z k + (1 # 2) - (1 # 1000) ->
        Num.round_half_up mf = k).
Proof.
  intros [H1 H2]. unfold Num.round_half_up.
  pose proof (Qfloor_le (mf + (1 # 2))) as Hlo.
  pose proof (Qlt_floor (mf + (1 # 2))) as Hhi.
  rewrite inject_Z_plus in Hhi. change (inject_Z 1) with 1 in Hhi.
  set (m := Qfloor (mf + (1 # 2))) in *.
  split.
  - apply Qabs_Qle_condition. split; lra.
  - intros k Hk1 Hk2.
    assert (Hle : (k <= m)%Z).
    { apply Z.lt_succ_r. rewrite Zlt_Qlt. unfold Z.succ.
      rewrite inject_Z_plus. change (inject_Z 1) with 1. lra. }
    assert (Hge : (m <= k)%Z).
    { apply Z.lt_succ_r. rewrite Zlt_Qlt. unfold Z.succ.
      rewrite inject_Z_plus. change (inject_Z 1) with 1. lra. }
    lia.
Qed.

Lemma passes_iff (f : SearchFilters.t) (p : Property.t) (margin : Q) :
  Spec.nonzero (SearchFilters.priceMax f) ->
  Spec.nonzero (SearchFilters.daysOnMarketMax f) ->
  Marketplace.calculateMargin p = Num.Fin margin ->
  Marketplace.passes f p = true <-> Spec.filter_with_defaults f p margin.
Proof.
  intros Hmax Hdom Hmargin.
  unfold Marketplace.passes, Spec.filter_with_defaults.
  rewrite Hmargin.
  rewrite (or_default_nonzero _ _ Hmax), (or_default_nonzero _ _ Hdom).
  simpl Num.ge.
  rewrite !andb_true_iff, String.eqb_eq, !Qle_bool_iff, !or_default_zero.
  assert (Hbeds :
    match SearchFilters.beds f with
    | Some b => Qeq_bool b 0 || Qle_bool b (Property.beds p)
    | None => true
    end = true
    <-> Spec.when_set (SearchFilters.beds f)
          (fun b => ~ b == 0 -> b <= Property.beds p)).
  { unfold Spec.when_set. destruct (SearchFilters.beds f) as [b |].
    - rewrite orb_true_iff, Qeq_bool_iff, Qle_bool_iff. split.
      + intros [H | H] v [= <-] Hv; [contradiction | exact H].
      + intros H. destruct (Qeq_dec b 0) as [Hz | Hz]; [left; exact Hz |].
        right. exact (H b eq_refl Hz).
    - split; [intros _ v [=] | reflexivity]. }
  assert (Htype :
    match SearchFilters.propertyType f with
    | Some ty => String.eqb ty "" || String.eqb (Property.propertyType p) ty
    | None => true
    end = true
    <-> Spec.when_set (SearchFilters.propertyType f)
          (fun ty => ty <> ""%string -> Property.propertyType p = ty)).
  { unfold Spec.when_set. destruct (SearchFilters.propertyType f) as [ty |].
    - rewrite orb_true_iff, !String.eqb_eq. split.
      + intros [H | H] v [= <-] Hv; [contradiction | exact H].
      + intros H. destruct (String.eqb_spec ty "") as [Hz | Hz]; [left; exact Hz |].
        right. exact (H ty eq_refl Hz).
    - split; [intros _ v [=] | reflexivity]. }
  assert (Hwork :
    match SearchFilters.needsWork f with
    | Some w => Bool.eqb (Property.needsWork p) w
    | None => true
    end = true
    <-> Spec.when_set (SearchFilters.needsWork f)
          (fun w => Property.needsWork p = w)).
  { unfold Spec.when_set. destruct (SearchFilters.needsWork f) as [w |].
    - rewrite Bool.eqb_true_iff. split.
      + intros H v [= <-]. exact H.
      + intros H. exact (H w eq_refl).
    - split; [intros _ v [=] | reflexivity]. }
  rewrite Hbeds, Htype, Hwork. tauto.
Qed.

End MarginAndFilters.

(** C8 (amended).  The Marketplace margin is computed in binary64 as
    Math.round(((arv - totalCost) / totalCost) * 100) with
    totalCost = price + rehabEstimate + price * 0.08.  For a property whose
    price is between 1 and 10^9 and whose rehab estimate and ARV are between
    0 and 10^9, it is an integer within 1/2 + 0.001 of the exact value
    x = 100 * (arv - totalCost) / totalCost, and it is round(x) whenever [x]
    is at least 0.001 away from the halves next to round(x).  A property of
    finite margin is in [filteredProperties], when the upper price bound and
    the bound on the days on market are not zero, exactly when it is one of
    the page's properties, its state is the state filter, its price is
    between priceMin and priceMax (0 and 1,000,000 when not set), it meets
    the minimum-beds, property-type and needsWork filters when those are set
    (zero beds and an empty type select nothing), its margin is at least
    marginMin (0 when not set) and its days on market are at most
    daysOnMarketMax (90 when not set). *)
Theorem C8_margin_and_filter (st : Marketplace.State) (p : Property.t) :
  (Spec.plausible p ->
   exists m : Z,
     Marketplace.calculateMargin p = Num.Fin (inject_Z m)
     /\ (Qabs (inject_Z m - Spec.margin_value p) <= (1 # 2) + (1 # 1000))%Q
     /\ (forall k : Z,
           Spec.rounds_to (Spec.margin_value p) k ->
           (inject_Z k - (1 # 2) + (1 # 1000) <= Spec.margin_value p)%Q ->
           (Spec.margin_value p <= inject_Z k + (1 # 2) - (1 # 1000))%Q ->
           m = k))
  /\ (forall margin : Q,
        Marketplace.calculateMargin p = Num.Fin margin ->
        Spec.nonzero (SearchFilters.priceMax (Marketplace.filters st)) ->
        Spec.nonzero (SearchFilters.daysOnMarketMax (Marketplace.filters st)) ->
        (In p (Marketplace.filteredProperties st)
         <-> In p (Marketplace.properties st)
             /\ Spec.filter_with_defaults (Marketplace.filters st) p margin)).
Proof.
  split.
  - intros Hp. destruct (calculateMargin_close p Hp) as (mf & Hm & Hclose).
    destruct (round_half_up_close _ mf Hclose) as [Hnear Hround].
    exists (Num.round_half_up mf). split; [exact Hm |]. split; [exact Hnear |].
    intros k _ Hk1 Hk2. apply Hround; assumption.
  - intros margin Hm Hmax Hdom.
    unfold Marketplace.filteredProperties. rewrite filter_In.
    rewrite (passes_iff _ _ margin Hmax Hdom Hm). reflexivity.
Qed.

Lemma C8_witness :
  (exists m : Z,
     Marketplace.calculateMargin Examples.austin = Num.Fin (inject_Z m)
     /\ (Qabs (inject_Z m - Spec.margin_value Examples.austin) <= (1 # 2) + (1 # 1000))%Q
     /\ (forall k : Z,
           Spec.rounds_to (Spec.margin_value Examples.austin) k ->
           (inject_Z k - (1 # 2) + (1 # 1000) <= Spec.margin_value Examples.austin)%Q ->
           (Spec.margin_value Examples.austin <= inject_Z k + (1 # 2) - (1 # 1000))%Q ->
           m = k))
  /\ (In Examples.austin (Marketplace.filteredProperties Examples.margin_at_zero)
      <-> In Examples.austin (Marketplace.properties Examples.margin_at_zero)
          /\ Spec.filter_with_defaults
               (Marketplace.filters Examples.margin_at_zero) Examples.austin 3).
Proof.
  destruct (C8_margin_and_filter Examples.margin_at_zero Examples.austin)
    as [Hmargin Hfilter].
  split.
  - apply Hmargin. vm_compute. intuition discriminate.
  - apply Hfilter; [vm_compute; reflexivity | |]; intros v [= <-]; discriminate.
Defined.

(** C8, as stated, fails twice.  The margin is not always
    round(100 * (arv - totalCost) / totalCost): for a price of 200000, no
    rehab and an ARV of 247320 the exact value is 14.5, which rounds to 15,
    and the page computes 14.499999999999998 and shows 14.  And with the
    days-on-market slider at 0 the first mock property (14 days on the
    market) is still listed, because a bound of 0 is read as the default of
    90. *)
Lemma C8_counterexample :
  ~ (forall p : Property.t,
       exists m : Z,
         Marketplace.calculateMargin p = Num.Fin (inject_Z m)
         /\ Spec.rounds_to (Spec.margin_value p) m)
  /\ ~ (forall (st : Marketplace.State) (p : Property.t) (margin : Q),
          Marketplace.calculateMargin p = Num.Fin margin ->
          (In p (Marketplace.filteredProperties st)
           <-> In p (Marketplace.properties st)
               /\ Spec.filter_as_stated (Marketplace.filters st) p margin)).
Proof.
  split.
  - intros H. destruct (H Examples.halfway) as (m & Hm & Hlo & Hhi).
    assert (E : Marketplace.calculateMargin Examples.halfway = Num.Fin 14)
      by (vm_compute; reflexivity).
    rewrite E in Hm. injection Hm as Hm.
    assert (Em : m = 14%Z) by (unfold inject_Z in Hm; congruence).
    subst m. vm_compute in Hhi. discriminate Hhi.
  - intros H.
    assert (E : Marketplace.calculateMargin Examples.austin = Num.Fin 3)
      by (vm_compute; reflexivity).
    destruct (H Examples.sliders_at_zero Examples.austin 3%Q E) as [Hlisted _].
    assert (Hin : In Examples.austin
                    (Marketplace.filteredProperties Examples.sliders_at_zero)).
    { vm_compute. left. reflexivity. }
    destruct (Hlisted Hin) as (_ & _ & _ & _ & _ & _ & _ & _ & Hdom).
    specialize (Hdom 0%Q eq_refl). apply Qle_bool_iff in Hdom. discriminate Hdom.
Qed.

(** ** Marketplace: saving a property *)

Lemma includes_In (x : string) (l : list string) :
  Marketplace.includes x l = true <-> In x l.
Proof.
  unfold Marketplace.includes. rewrite existsb_exists. split.
  - intros (y & Hy & E). apply String.eqb_eq in E. subst. exact Hy.
  - intros H. exists x. split; [exact H | apply String.eqb_refl].
Qed.

Lemma removed_not_In (x : string) (l : list string) :
  ~ In x (List.filter (fun y => negb (String.eqb y x)) l).
Proof.
  rewrite filter_In. intros [_ H]. rewrite String.eqb_refl in H. discriminate.
Qed.

Lemma remove_absent (x : string) (l : list string) :
  ~ In x l -> List.filter (fun y => negb (String.eqb y x)) l = l.
Proof.
  induction l as [| a l IH]; intros H; [reflexivity |].
  simpl. destruct (String.eqb_spec a x) as [-> | Hne].
  - exfalso. apply H. left. reflexivity.
  - simpl. f_equal. apply IH. intros Hin. apply H. right. exact Hin.
Qed.

Lemma toggled_present (x : string) (l : list string) :
  In x l -> Marketplace.toggled x l = List.filter (fun y => negb (String.eqb y x)) l.
Proof.
  intros H. unfold Marketplace.toggled.
  apply includes_In in H. rewrite H. reflexivity.
Qed.

Lemma toggled_absent (x : string) (l : list string) :
  ~ In x l -> Marketplace.toggled x l = (l ++ [x])%list.
Proof.
  intros H. unfold Marketplace.toggled.
  destruct (Marketplace.includes x l) eqn:E; [| reflexivity].
  apply includes_In in E. contradiction.
Qed.

Lemma toggled_twice_absent (x : string) (l : list string) :
  ~ In x l -> Marketplace.toggled x (Marketplace.toggled x l) = l.
Proof.
  intros H. rewrite (toggled_absent x l H).
  rewrite toggled_present by (apply in_or_app; right; left; reflexivity).
  rewrite List.filter_app. simpl. rewrite String.eqb_refl. simpl.
  rewrite remove_absent by exact H. apply app_nil_r.
Qed.

Lemma toggled_twice_present (x : string) (l : list string) :
  In x l ->
  Marketplace.toggled x (Marketplace.toggled x l)
  = (List.filter (fun y => negb (String.eqb y x)) l ++ [x])%list.
Proof.
  intros H. rewrite (toggled_present x l H).
  apply toggled_absent, removed_not_In.
Qed.

Lemma toggled_twice_members (x : string) (l : list string) (y : string) :
  In y (Marketplace.toggled x (Marketplace.toggled x l)) <-> In y l.
Proof.
  destruct (in_dec String.string_dec x l) as [Hin | Hout].
  - rewrite (toggled_twice_present x l Hin), in_app_iff, filter_In. simpl.
    split.
    + intros [[H _] | [<- | []]]; assumption.
    + intros H. destruct (String.eqb_spec y x) as [-> | Hne].
      * right. left. reflexivity.
      * left. split; [exact H | reflexivity].
  - rewrite (toggled_twice_absent x l Hout). reflexivity.
Qed.

Lemma remove_then_append_perm (x : string) (l : list string) :
  In x l -> List.NoDup l ->
  Permutation (List.filter (fun y => negb (String.eqb y x)) l ++ [x])%list l.
Proof.
  induction l as [| a l IH]; intros Hin Hnd; [destruct Hin |].
  inversion Hnd as [| ? ? Ha Hl]; subst. simpl.
  destruct (String.eqb_spec a x) as [-> | Hne]; simpl.
  - rewrite remove_absent by exact Ha.
    symmetry. apply Permutation_cons_append.
  - apply perm_skip. apply IH; [| exact Hl].
    destruct Hin as [E | Hin]; [contradiction | exact Hin].
Qed.

(** C9 (amended).  [handleSaveProperty] removes the id from the saved list if
    it is present and appends it if it is absent, and after every call the
    localStorage key 'savedProperties' holds the JSON serialization of the
    updated list.  Applying it twice with the same id gives back the same set
    of saved ids; it gives back the same list when the id was absent at first,
    and a permutation of a duplicate-free list (the id moved to the end) when
    it was present. *)
Theorem C9_save_toggles_and_syncs (st : Marketplace.State) (propertyId : string) :
  let saved := Marketplace.savedProperties st in
  let st1 := Marketplace.handleSaveProperty propertyId st in
  let st2 := Marketplace.handleSaveProperty propertyId st1 in
  (In propertyId saved ->
     ~ In propertyId (Marketplace.savedProperties st1)
     /\ Marketplace.savedProperties st1
        = List.filter (fun y => negb (String.eqb y propertyId)) saved)
  /\ (~ In propertyId saved -> Marketplace.savedProperties st1 = (saved ++ [propertyId])%list)
  /\ Marketplace.localStorage st1 !! "savedProperties"
     = Some (Json.stringify (Marketplace.savedProperties st1))
  /\ Marketplace.localStorage st2 !! "savedProperties"
     = Some (Json.stringify (Marketplace.savedProperties st2))
  /\ (forall y, In y (Marketplace.savedProperties st2) <-> In y saved)
  /\ (~ In propertyId saved -> Marketplace.savedProperties st2 = saved)
  /\ (In propertyId saved -> List.NoDup saved ->
        Permutation (Marketplace.savedProperties st2) saved).
Proof.
  simpl. repeat split.
  - apply toggled_present in H. rewrite H. apply removed_not_In.
  - apply toggled_present, H.
  - intros H. apply toggled_absent, H.
  - apply lookup_insert_eq.
  - apply lookup_insert_eq.
  - apply toggled_twice_members.
  - apply toggled_twice_members.
  - intros H. apply toggled_twice_absent, H.
  - intros Hin Hnd. rewrite (toggled_twice_present _ _ Hin).
    apply remove_then_append_perm; assumption.
Qed.

Lemma C9_witness :
  Marketplace.savedProperties
    (Marketplace.handleSaveProperty "3"
       (Marketplace.handleSaveProperty "3" Examples.two_saved))
  = ["1"; "2"]
  /\ Permutation
       (Marketplace.savedProperties
          (Marketplace.handleSaveProperty "1"
             (Marketplace.handleSaveProperty "1" Examples.two_saved)))
       ["1"; "2"].
Proof.
  split.
  - apply (C9_save_toggles_and_syncs Examples.two_saved "3").
    simpl. intros [H | [H | []]]; discriminate.
  - apply (C9_save_toggles_and_syncs Examples.two_saved "1").
    + left. reflexivity.
    + repeat constructor; simpl; intros H; decompose [or] H; discriminate || contradiction.
Defined.

(** C9, as stated, fails: un-saving and re-saving a property that is not the
    last of the list does not restore the list. *)
Lemma C9_counterexample :
  Marketplace.savedProperties Examples.two_saved = ["1"; "2"]
  /\ Marketplace.savedProperties
       (Marketplace.handleSaveProperty "1"
          (Marketplace.handleSaveProperty "1" Examples.two_saved))
     = ["2"; "1"]
  /\ ~ (forall (st : Marketplace.State) (propertyId : string),
          Marketplace.savedProperties
            (Marketplace.handleSaveProperty propertyId
               (Marketplace.handleSaveProperty propertyId st))
          = Marketplace.savedProperties st).
Proof.
  split; [reflexivity |]. split; [reflexivity |].
  intros H. specialize (H Examples.two_saved "1"). discriminate H.
Qed.

(** ** Agent connect: submitting the lead form *)

(** C6.  Whatever the form holds, submitting it prevents the default action
    and raises the toast "Request submitted" / "We'll connect you with a
    qualified agent within 24 hours." and nothing else: no request is sent and
    the form data are unchanged. *)
Theorem C6_submit_only_toasts (st : AgentConnect.State) :
  let st' := AgentConnect.handle AgentConnect.Submit st in
  AgentConnect.effects st'
  = (AgentConnect.effects st
     ++ [ AgentConnect.PreventDefault;
          AgentConnect.Toast "Request submitted"
            "We'll connect you with a qualified agent within 24 hours." ])%list
  /\ existsb AgentConnect.is_fetch
       (skipn (length (AgentConnect.effects st)) (AgentConnect.effects st')) = false
  /\ AgentConnect.formData st' = AgentConnect.formData st.
Proof.
  simpl. unfold AgentConnect.handleSubmit, AgentConnect.perform. simpl.
  rewrite <- app_assoc. simpl. split; [reflexivity |]. split; [| reflexivity].
  rewrite skipn_app, skipn_all, Nat.sub_diag. reflexivity.
Qed.

(** ** Routing: lookup and fallback *)



(** An identifier that is neither listed nor the name of a property of
    [Object.prototype] is routed to the home page. *)
Lemma vanilla_targetId_fallback (pageId : string) :
  Vanilla.pages !! pageId = None -> JS.inherited pageId = false ->
  Vanilla.targetId pageId = "home-page".
Proof.
  intros H Hin. unfold Vanilla.targetId, JS.or, JS.get. rewrite H, Hin. reflexivity.
Qed.

(** The name of an inherited property is not routed to the home page: the
    lookup yields the inherited function, which is truthy. *)
Lemma vanilla_targetId_inherited (pageId : string) :
  JS.inherited pageId = true -> Vanilla.targetId pageId <> "home-page".
Proof.
  intros Hin. unfold Vanilla.targetId, JS.or, JS.get.
  destruct (Vanilla.pages !! pageId) as [v |] eqn:H.
  - apply elem_of_list_to_map_2 in H.
    repeat (apply elem_of_cons in H as [[= -> _] | H];
            [vm_compute in Hin; discriminate Hin |]).
    apply elem_of_nil in H. destruct H.
  - rewrite Hin. simpl.
    destruct (String.eqb pageId "__proto__"); [discriminate |].
    destruct (String.eqb pageId "constructor"); discriminate.
Qed.

(** A click on an element that carries [data-page] prevents the default
    action and calls [showPage] with the value of the attribute. *)
Lemma vanilla_click_routes (querySelector : Dom.QuerySelector)
    (st : Router.Page) (target : nat) (el : Dom.Element) (pageId : string) :
  Router.document st !! target = Some el ->
  Dom.data_page el = Some pageId ->
  Vanilla.on_click querySelector target st
  = Router.mkClick (fst (Vanilla.showPage querySelector pageId st)) true
      (snd (Vanilla.showPage querySelector pageId st)).
Proof.
  intros Hel Hattr. unfold Vanilla.on_click.
  assert (Hclosest : Dom.closest_data_page (length (Router.document st))
                       (Router.document st) target = Some target).
  { destruct (length (Router.document st)); simpl; rewrite Hel, Hattr; reflexivity. }
  rewrite Hclosest, Hel, Hattr.
  destruct (Vanilla.showPage querySelector pageId st). reflexivity.
Qed.

(** ** Routing: which page is active after [showPage] *)

Lemma lookup_forEach_class (c : string) (f : Dom.Element -> Dom.Element)
    (doc : Dom.Document) (k : nat) :
  Dom.forEach_class c f doc !! k
  = option_map (fun el => if Dom.contains c el then f el else el) (doc !! k).
Proof.
  unfold Dom.forEach_class. revert k.
  induction doc as [| a doc IH]; intros [| k]; simpl; try reflexivity. apply IH.
Qed.

Lemma lookup_update (i : nat) (f : Dom.Element -> Dom.Element)
    (doc : Dom.Document) (k : nat) :
  Dom.update i f doc !! k
  = option_map (fun el => if Nat.eqb k i then f el else el) (doc !! k).
Proof.
  unfold Dom.update. destruct (doc !! i) as [e |] eqn:E.
  - destruct (Nat.eqb_spec k i) as [-> | Hne].
    + rewrite list_lookup_insert_eq by (eapply lookup_lt_Some; exact E).
      rewrite E. reflexivity.
    + rewrite list_lookup_insert_ne by congruence.
      destruct (doc !! k); reflexivity.
  - destruct (Nat.eqb_spec k i) as [-> | Hne].
    + rewrite E. reflexivity.
    + destruct (doc !! k); reflexivity.
Qed.

Lemma contains_remove_same (c : string) (el : Dom.Element) :
  Dom.contains c (Dom.classList_remove c el) = false.
Proof.
  unfold Dom.contains, Dom.classList_remove. simpl.
  induction (Dom.classList el) as [| a l IH]; [reflexivity |].
  simpl. destruct (String.eqb_spec a c) as [-> | Hne]; simpl; [exact IH |].
  rewrite IH. destruct (String.eqb_spec c a); [congruence | reflexivity].
Qed.

Lemma contains_remove_other (c a : string) (el : Dom.Element) :
  c <> a -> Dom.contains c (Dom.classList_remove a el) = Dom.contains c el.
Proof.
  intros Hne. unfold Dom.contains, Dom.classList_remove. simpl.
  induction (Dom.classList el) as [| x l IH]; [reflexivity |].
  simpl. destruct (String.eqb_spec x a) as [-> | Hxa]; simpl.
  - rewrite IH. destruct (String.eqb_spec c a); [contradiction | reflexivity].
  - rewrite IH. reflexivity.
Qed.

Lemma contains_add_same (c : string) (el : Dom.Element) :
  Dom.contains c (Dom.classList_add c el) = true.
Proof.
  unfold Dom.classList_add. destruct (Dom.contains c el) eqn:E; [exact E |].
  unfold Dom.contains. simpl. rewrite existsb_app. simpl.
  rewrite String.eqb_refl. apply orb_true_r.
Qed.

Lemma contains_add_other (c a : string) (el : Dom.Element) :
  c <> a -> Dom.contains c (Dom.classList_add a el) = Dom.contains c el.
Proof.
  intros Hne. unfold Dom.classList_add.
  destruct (Dom.contains a el); [reflexivity |].
  unfold Dom.contains. simpl. rewrite existsb_app. simpl.
  destruct (String.eqb_spec c a); [contradiction |].
  rewrite !orb_false_r. reflexivity.
Qed.

Lemma find_index_map (p : Dom.Element -> bool) (g : Dom.Element -> Dom.Element)
    (doc : Dom.Document) :
  (forall el, p (g el) = p el) ->
  Dom.find_index p (map g doc) = Dom.find_index p doc.
Proof.
  intros H. induction doc as [| a doc IH]; [reflexivity |].
  simpl. rewrite H, IH. reflexivity.
Qed.

Lemma getElementById_hidden (x : string) (doc : Dom.Document) :
  Dom.getElementById x
    (Dom.forEach_class "page" (Dom.classList_remove "active") doc)
  = Dom.getElementById x doc.
Proof.
  unfold Dom.getElementById, Dom.forEach_class. apply find_index_map.
  intros el. destruct (Dom.contains "page" el); reflexivity.
Qed.
Lemma page_class_kept (e : Dom.Element) (target : option nat) (k : nat) (c : string) :
  c <> "active" ->
  Dom.contains c
    (let el1 := if Dom.contains "page" e
                then Dom.classList_remove "active" e else e in
     match target with
     | Some t => if Nat.eqb k t then Dom.classList_add "active" el1 else el1
     | None => el1
     end) = Dom.contains c e.
Proof.
  intros Hc. simpl.
  destruct target as [t |]; [destruct (Nat.eqb k t) |];
    destruct (Dom.contains "page" e);
    rewrite ?contains_add_other, ?contains_remove_other by exact Hc; reflexivity.
Qed.

(** After [showPage], in a document whose pages are not also navigation
    links, a page is active exactly when it is the element that
    [getElementById] finds for the target id. *)
Lemma vanilla_showPage_active (querySelector : Dom.QuerySelector)
    (pageId : string) (st : Router.Page) (k : nat) (el' : Dom.Element) :
  (forall el, In el (Router.document st) ->
     Dom.contains "page" el = true -> Dom.contains "nav-link" el = false) ->
  Router.document (fst (Vanilla.showPage querySelector pageId st)) !! k = Some el' ->
  Dom.contains "page" el' = true ->
  (Dom.contains "active" el' = true
   <-> Dom.getElementById (Vanilla.targetId pageId) (Router.document st) = Some k).
Proof.
  intros Hsep Hk Hpage. unfold Vanilla.showPage in Hk.
  rewrite getElementById_hidden in Hk.
  set (doc := Router.document st) in *.
  set (doc1 := Dom.forEach_class "page" (Dom.classList_remove "active") doc) in *.
  set (target := Dom.getElementById (Vanilla.targetId pageId) doc) in *.
  set (doc2 := match target with
               | Some t => Dom.update t (Dom.classList_add "active") doc1
               | None => doc1
               end) in *.
  set (doc3 := Dom.forEach_class "nav-link" (Dom.classList_remove "active") doc2) in *.
  set (G := fun el : Dom.Element =>
              let el1 := if Dom.contains "page" el
                         then Dom.classList_remove "active" el else el in
              match target with
              | Some t => if Nat.eqb k t then Dom.classList_add "active" el1 else el1
              | None => el1
              end).
  assert (H2 : doc2 !! k = option_map G (doc !! k)).
  { unfold doc2, doc1, G. destruct target as [t |].
    - rewrite lookup_update, lookup_forEach_class. destruct (doc !! k); reflexivity.
    - rewrite lookup_forEach_class. destruct (doc !! k); reflexivity. }
  assert (H3 : doc3 !! k
               = option_map
                   (fun el => if Dom.contains "nav-link" el
                              then Dom.classList_remove "active" el else el)
                   (doc2 !! k)).
  { unfold doc3. apply lookup_forEach_class. }
  assert (Hfinal : exists e, doc !! k = Some e /\ Dom.contains "page" e = true /\ el' = G e).
  { rewrite H2 in H3. clear H2.
    assert (Hstep : forall el3, doc3 !! k = Some el3 -> Dom.contains "page" el3 = true ->
                      exists e, doc !! k = Some e /\ Dom.contains "page" e = true /\ el3 = G e).
    { intros el3 E3 P3. rewrite H3 in E3.
      destruct (doc !! k) as [e |] eqn:Ee; [| discriminate].
      simpl in E3. injection E3 as <-.
      assert (Hin : In e doc).
      { apply list_elem_of_In. eapply list_elem_of_lookup_2. exact Ee. }
      assert (Pe : Dom.contains "page" e = true).
      { destruct (Dom.contains "nav-link" (G e));
          rewrite ?contains_remove_other in P3 by discriminate;
          unfold G in P3; rewrite page_class_kept in P3 by discriminate; exact P3. }
      exists e. split; [reflexivity |]. split; [exact Pe |].
      assert (Hnav : Dom.contains "nav-link" (G e) = false).
      { unfold G. rewrite page_class_kept by discriminate. apply Hsep; assumption. }
      rewrite Hnav. reflexivity. }
    destruct (querySelector (Dom.data_page_selector pageId) doc3) as [[j |] |];
      simpl in Hk; try (apply Hstep; assumption).
    destruct (doc3 !! j) as [ej |] eqn:Ej; [| apply Hstep; assumption].
    destruct (Dom.contains "nav-link" ej) eqn:Enav; [| apply Hstep; assumption].
    rewrite lookup_update in Hk.
    destruct (Nat.eqb_spec k j) as [-> | Hne].
    - exfalso. rewrite Ej in Hk. simpl in Hk. injection Hk as <-.
      rewrite contains_add_other in Hpage by discriminate.
      destruct (Hstep ej Ej Hpage) as (e & Ee & Pe & ->).
      unfold G in Enav. rewrite page_class_kept in Enav by discriminate.
      assert (Hin : In e doc).
      { apply list_elem_of_In. eapply list_elem_of_lookup_2. exact Ee. }
      rewrite (Hsep e Hin Pe) in Enav. discriminate.
    - apply Hstep; [| exact Hpage]. destruct (doc3 !! k); [exact Hk | discriminate]. }
  destruct Hfinal as (e & Ee & Pe & ->).
  unfold G. rewrite Pe. simpl.
  destruct target as [t |].
  - destruct (Nat.eqb_spec k t) as [-> | Hne].
    + rewrite contains_add_same. split; reflexivity.
    + rewrite contains_remove_same. split; [discriminate | congruence].
  - rewrite contains_remove_same. split; discriminate.
Qed.

(** The fallback: for an identifier that is neither listed nor the name of
    an inherited property, the active page after [showPage] is the home
    page. *)
Lemma vanilla_unknown_name_home (querySelector : Dom.QuerySelector)
    (pageId : string) (st : Router.Page) (k : nat) (el' : Dom.Element) :
  Vanilla.pages !! pageId = None ->
  JS.inherited pageId = false ->
  (forall el, In el (Router.document st) ->
     Dom.contains "page" el = true -> Dom.contains "nav-link" el = false) ->
  Router.document (fst (Vanilla.showPage querySelector pageId st)) !! k = Some el' ->
  Dom.contains "page" el' = true ->
  (Dom.contains "active" el' = true
   <-> Dom.getElementById "home-page" (Router.document st) = Some k).
Proof.
  intros Hnone Hin Hsep Hk Hpage.
  rewrite <- (vanilla_targetId_fallback pageId Hnone Hin).
  apply (vanilla_showPage_active querySelector pageId st k el' Hsep Hk Hpage).
Qed.

Lemma getElementById_absent (x : string) (doc : Dom.Document) :
  (forall el, In el doc -> Dom.id el <> x) -> Dom.getElementById x doc = None.
Proof.
  unfold Dom.getElementById. induction doc as [| a doc IH]; intros H; [reflexivity |].
  simpl. destruct (String.eqb_spec (Dom.id a) x) as [E | _].
  - exfalso. apply (H a); [left; reflexivity | exact E].
  - rewrite IH; [reflexivity |]. intros el Hel. apply H. right. exact Hel.
Qed.

(** The missed case: for the name of an inherited property, in a document
    where no element has the text of the inherited function as id, no page
    is active after [showPage]. *)
Lemma vanilla_inherited_name_no_page (querySelector : Dom.QuerySelector)
    (pageId : string) (st : Router.Page) (k : nat) (el' : Dom.Element) :
  (forall el, In el (Router.document st) -> Dom.id el <> Vanilla.targetId pageId) ->
  (forall el, In el (Router.document st) ->
     Dom.contains "page" el = true -> Dom.contains "nav-link" el = false) ->
  Router.document (fst (Vanilla.showPage querySelector pageId st)) !! k = Some el' ->
  Dom.contains "page" el' = true ->
  Dom.contains "active" el' = false.
Proof.
  intros Hid Hsep Hk Hpage.
  destruct (Dom.contains "active" el') eqn:E; [| reflexivity].
  apply (vanilla_showPage_active querySelector pageId st k el' Hsep Hk Hpage) in E.
  rewrite (getElementById_absent _ _ Hid) in E. discriminate.
Qed.

Lemma new_document_of_render (st : VanillaNew.State) :
  VanillaNew.document (VanillaNew.renderProperties st) = VanillaNew.document st.
Proof.
  unfold VanillaNew.renderProperties.
  destruct (Dom.getElementById "properties-grid" (VanillaNew.document st)); reflexivity.
Qed.

(** The same for script_new.js, where a page is shown through its display
    style: after [showPage] the element found for the target id is displayed
    as a block and every other page is not displayed. *)
Lemma new_showPage_display (pageId : string) (st : VanillaNew.State)
    (k : nat) (el' : Dom.Element) :
  VanillaNew.document (VanillaNew.showPage pageId st) !! k = Some el' ->
  Dom.contains "page" el' = true ->
  Dom.style_display el'
  = if decide (Dom.getElementById (VanillaNew.targetPageId pageId)
                 (VanillaNew.document st) = Some k)
    then "block" else "none".
Proof.
  intros Hk Hpage. unfold VanillaNew.showPage in Hk.
  assert (Hid : forall x,
            Dom.getElementById x
              (Dom.forEach_class "page" (Dom.set_display "none") (VanillaNew.document st))
            = Dom.getElementById x (VanillaNew.document st)).
  { intros x. unfold Dom.getElementById, Dom.forEach_class. apply find_index_map.
    intros el. destruct (Dom.contains "page" el); reflexivity. }
  rewrite Hid in Hk.
  destruct (Dom.getElementById (VanillaNew.targetPageId pageId) (VanillaNew.document st))
    as [t |].
  - assert (Hdoc : Dom.update t (Dom.set_display "block")
                     (Dom.forEach_class "page" (Dom.set_display "none")
                        (VanillaNew.document st)) !! k = Some el').
    { destruct (String.eqb pageId "marketplace");
        [rewrite new_document_of_render in Hk |]; exact Hk. }
    rewrite lookup_update, lookup_forEach_class in Hdoc.
    destruct (VanillaNew.document st !! k) as [e |]; [| discriminate].
    simpl in Hdoc. injection Hdoc as <-.
    destruct (Nat.eqb_spec k t) as [-> | Hne].
    + rewrite decide_True by reflexivity. reflexivity.
    + rewrite decide_False by congruence.
      destruct (Dom.contains "page" e) eqn:Pe; [reflexivity |].
      rewrite Pe in Hpage. simpl in Hpage. congruence.
  - simpl in Hk. rewrite lookup_forEach_class in Hk.
    destruct (VanillaNew.document st !! k) as [e |]; [| discriminate].
    simpl in Hk. injection Hk as <-.
    rewrite decide_False by discriminate.
    destruct (Dom.contains "page" e) eqn:Pe; [reflexivity |].
    rewrite Pe in Hpage. simpl in Hpage. congruence.
Qed.

(** ** Routing: the two copies of [showPage] *)




(** C7, at an identifier that names an inherited property.  A click on the
    link with [data-page="constructor"] prevents the default action and calls
    [showPage]; "constructor" is not in the routing table, yet the home page
    is not activated: the lookup yields the inherited [Object] function, no
    element has its text as id, and the document is left with no active page
    (script.js) and no displayed page (script_new.js). *)
Theorem C7_inherited_name_shows_no_page :
  let click := Vanilla.on_click Dom.plain_querySelector 3 Examples.at_home in
  let shown := VanillaNew.showPage "constructor" Examples.new_at_home in
  Vanilla.pages !! "constructor" = None
  /\ VanillaNew.pages !! "constructor" = None
  /\ Router.defaultPrevented click = true
  /\ Router.after click
     = fst (Vanilla.showPage Dom.plain_querySelector "constructor" Examples.at_home)
  /\ Dom.getElementById "home-page" (Router.document Examples.at_home) = Some 5%nat
  /\ Vanilla.targetId "constructor" = "function Object() { [native code] }"
  /\ List.filter (fun el => Dom.contains "page" el && Dom.contains "active" el)
       (Router.document (Router.after click)) = []
  /\ List.filter
       (fun el => Dom.contains "page" el && negb (String.eqb (Dom.style_display el) "none"))
       (VanillaNew.document shown) = [].
Proof. vm_compute. repeat split. Qed.

(** For comparison: an identifier that is merely unknown falls back to the
    home page. *)
Example unknown_name_shows_home :
  map Dom.id
    (List.filter (fun el => Dom.contains "page" el && Dom.contains "active" el)
       (Router.document
          (Router.after (Vanilla.on_click Dom.plain_querySelector 4 Examples.at_home))))
  = ["home-page"].
Proof. reflexivity. Qed.

(** ** The chatbot widget *)

Section ChatbotFacts.
Import Chatbot.

Lemma sendMessage_sends (b : Browser) :
  isTyping b = false ->
  trim (input_value (elements b)) <> "" ->
  let message := trim (input_value (elements b)) in
  let b' := snd (sendMessage b) in
  requests b' = (requests b ++ [message_request (sessionId b) message])%list
  /\ pending b' = (pending b ++ [AwaitMessage])%list
  /\ messages (elements b') = (messages (elements b) ++ [(user, message)])%list
  /\ input_value (elements b') = ""
  /\ isTyping b' = true
  /\ sessionId b' = sessionId b.
Proof.
  intros Htyping Hmsg. unfold sendMessage, bind, read. simpl.
  rewrite Htyping.
  destruct (String.eqb_spec (trim (input_value (elements b))) "") as [E | _];
    [contradiction |].
  simpl. repeat split.
Qed.

Lemma sendMessage_resume_ok (b : Browser) (sid c p : JS.value) (m : string) :
  let b' := snd (sendMessage_resume (Response true (Some (BodyObject sid (JS.VStr m) c p))) b) in
  messages (elements b') = (messages (elements b) ++ [(assistant, m)])%list
  /\ requests b' = requests b
  /\ isTyping b' = false
  /\ typing_display (elements b') = "none"
  /\ send_disabled (elements b') = false
  /\ sessionId b' = sessionId b
  /\ timers b' = (timers b ++ ScrollToBottom ::
                   (if JS.truthy c && JS.truthy p then [Acknowledge] else []))%list.
Proof.
  unfold sendMessage_resume, try_catch, bind. simpl.
  destruct (JS.truthy c && JS.truthy p); simpl; repeat split.
  rewrite <- app_assoc. reflexivity.
Qed.

Lemma openChat_starts (b : Browser) :
  let b' := snd (openChat b) in
  isOpen b' = true
  /\ sessionId b' = sessionId b
  /\ requests b'
     = (requests b ++ if JS.truthy (sessionId b) then [] else [start_request])%list
  /\ pending b'
     = (pending b ++ if JS.truthy (sessionId b) then [] else [AwaitStart])%list.
Proof.
  unfold openChat, bind, read. simpl.
  destruct (JS.truthy (sessionId b)); simpl; rewrite ?app_nil_r; repeat split.
Qed.

Lemma startSession_resume_ok (b : Browser) (sid message c p : JS.value) :
  let b' := snd (startSession_resume (Response true (Some (BodyObject sid message c p))) b) in
  sessionId b' = sid
  /\ requests b' = requests b
  /\ messages (elements b')
     = (messages (elements b)
        ++ [(assistant, match message with
                        | JS.VStr m => m
                        | _ => start_apology
                        end)])%list.
Proof.
  unfold startSession_resume, try_catch, bind. simpl.
  destruct message; simpl; repeat split.
Qed.

Lemma startSession_resume_failed (b : Browser) (r : FetchResult) :
  failed r = true ->
  let b' := snd (startSession_resume r b) in
  sessionId b' = sessionId b
  /\ messages (elements b') = (messages (elements b) ++ [(assistant, start_apology)])%list
  /\ requests b' = requests b.
Proof.
  intros H. unfold startSession_resume, try_catch, bind.
  destruct r as [| [|] [[| sid msg c p] |]]; simpl in *; try discriminate; repeat split.
Qed.

Lemma sendMessage_resume_failed (b : Browser) (r : FetchResult) :
  failed r = true ->
  let b' := snd (sendMessage_resume r b) in
  isTyping b' = false
  /\ typing_display (elements b') = "none"
  /\ send_disabled (elements b') = false
  /\ messages (elements b') = (messages (elements b) ++ [(assistant, message_apology)])%list
  /\ sessionId b' = sessionId b
  /\ requests b' = requests b.
Proof.
  intros H. unfold sendMessage_resume, try_catch, bind.
  destruct r as [| [|] [[| sid msg c p] |]]; simpl in *; try discriminate; repeat split.
Qed.

Lemma resume_requests (k : Awaiting) (r : FetchResult) (b : Browser) :
  requests (snd (resume k r b)) = requests b.
Proof.
  destruct k, r as [| [|] [[| sid [] c p] |]]; try reflexivity.
  all: unfold resume, sendMessage_resume, try_catch, bind; simpl.
  all: destruct (JS.truthy c && JS.truthy p); reflexivity.
Qed.

Lemma callback_requests (t : Timer) (b : Browser) :
  requests (snd (callback t b)) = requests b.
Proof.
  destruct t; try reflexivity.
  unfold callback, bind, read. simpl. destruct (isOpen b); reflexivity.
Qed.

Lemma sendMessage_requests (b : Browser) :
  exists extra, requests (snd (sendMessage b)) = (requests b ++ extra)%list
                /\ Forall local_request extra.
Proof.
  unfold sendMessage, bind, read. simpl.
  destruct (String.eqb (trim (input_value (elements b))) "" || isTyping b); simpl.
  - exists []. rewrite app_nil_r. split; [reflexivity | constructor].
  - eexists [_]. split; [reflexivity |].
    constructor; [| constructor]. right. eexists _, _. reflexivity.
Qed.

Lemma step_requests (e : Event) (b : Browser) :
  exists extra, requests (step e b) = (requests b ++ extra)%list
                /\ Forall local_request extra.
Proof.
  assert (Hnone : forall b' : Browser, requests b' = requests b ->
            exists extra, requests b' = (requests b ++ extra)%list
                          /\ Forall local_request extra).
  { intros b' H. exists []. rewrite app_nil_r. split; [exact H | constructor]. }
  unfold step, handler.
  destruct e as [| | | key shift | text | i r | i].
  - unfold toggleChat, bind, read. simpl. destruct (isOpen b).
    + apply Hnone. reflexivity.
    + destruct (openChat_starts b) as (_ & _ & Hreq & _). rewrite Hreq.
      eexists. split; [reflexivity |].
      destruct (JS.truthy (sessionId b)); repeat constructor.
  - apply Hnone. reflexivity.
  - unfold bind, read. simpl. destruct (send_disabled (elements b)).
    + apply Hnone. reflexivity.
    + apply sendMessage_requests.
  - destruct (String.eqb key "Enter" && negb shift).
    + apply sendMessage_requests.
    + apply Hnone. reflexivity.
  - apply Hnone. reflexivity.
  - unfold bind, read. simpl. destruct (nth_error (pending b) i) as [k |].
    + apply Hnone. simpl. rewrite resume_requests. reflexivity.
    + apply Hnone. reflexivity.
  - unfold bind, read. simpl. destruct (nth_error (timers b) i) as [t |].
    + apply Hnone. simpl. rewrite callback_requests. reflexivity.
    + apply Hnone. reflexivity.
Qed.

Lemma run_requests (events : list Event) (b : Browser) :
  Forall local_request (requests b) ->
  Forall local_request (requests (run events b)).
Proof.
  revert b. induction events as [| e events IH]; intros b H; [exact H |].
  simpl. apply IH. destruct (step_requests e b) as (extra & -> & Hextra).
  apply Forall_app. split; assumption.
Qed.

Lemma local_request_url (r : Request) :
  local_request r ->
  url r = "http://localhost:8001/chat/start"
  \/ url r = "http://localhost:8001/chat/message".
Proof. intros [-> | (s & m & ->)]; [left | right]; reflexivity. Qed.

Lemma In_remove_nth {A} (x : A) (i : nat) (l : list A) :
  In x (remove_nth i l) -> In x l.
Proof.
  unfold remove_nth. intros H. apply in_app_or in H as [H | H].
  - rewrite <- (firstn_skipn i l). apply in_or_app. left. exact H.
  - rewrite <- (firstn_skipn (S i) l). apply in_or_app. right. exact H.
Qed.

Lemma sendMessage_frame (b : Browser) :
  sessionId (snd (sendMessage b)) = sessionId b
  /\ (forall k, In k (pending (snd (sendMessage b))) -> In k (pending b) \/ k = AwaitMessage)
  /\ List.filter is_start (requests (snd (sendMessage b))) = List.filter is_start (requests b).
Proof.
  unfold sendMessage, bind, read. simpl.
  destruct (String.eqb (trim (input_value (elements b))) "" || isTyping b); simpl.
  - repeat split. intros k H. left. exact H.
  - repeat split.
    + intros k H. apply in_app_or in H as [H | [<- | []]]; [left; exact H | right; reflexivity].
    + rewrite List.filter_app. simpl. apply app_nil_r.
Qed.

Lemma sendMessage_resume_frame (r : FetchResult) (b : Browser) :
  sessionId (snd (sendMessage_resume r b)) = sessionId b
  /\ pending (snd (sendMessage_resume r b)) = pending b.
Proof.
  destruct r as [| [|] [[| sid [] c p] |]]; try (split; reflexivity).
  unfold sendMessage_resume, try_catch, bind; simpl.
  destruct (JS.truthy c && JS.truthy p); split; reflexivity.
Qed.

Lemma callback_frame (t : Timer) (b : Browser) :
  sessionId (snd (callback t b)) = sessionId b
  /\ pending (snd (callback t b)) = pending b.
Proof.
  destruct t; try (split; reflexivity).
  unfold callback, bind, read. simpl. destruct (isOpen b); split; reflexivity.
Qed.

Lemma step_established (e : Event) (b : Browser) :
  established b ->
  established (step e b)
  /\ sessionId (step e b) = sessionId b
  /\ List.filter is_start (requests (step e b)) = List.filter is_start (requests b).
Proof.
  intros [Hid Hpend]. unfold established, step, handler.
  destruct e as [| | | key shift | text | i r | i].
  - unfold toggleChat, bind, read. simpl. destruct (isOpen b).
    + simpl. tauto.
    + destruct (openChat_starts b) as (_ & Hs & Hreq & Hp).
      rewrite Hs, Hreq, Hp, Hid, !app_nil_r. tauto.
  - simpl. tauto.
  - unfold bind, read. simpl. destruct (send_disabled (elements b)).
    + simpl. tauto.
    + destruct (sendMessage_frame b) as (Hs & Hp & Hreq).
      rewrite Hs, Hreq. repeat split; try assumption.
      intros H. apply Hp in H as [H | H]; [contradiction | discriminate].
  - destruct (String.eqb key "Enter" && negb shift).
    + destruct (sendMessage_frame b) as (Hs & Hp & Hreq).
      rewrite Hs, Hreq. repeat split; try assumption.
      intros H. apply Hp in H as [H | H]; [contradiction | discriminate].
    + simpl. tauto.
  - simpl. tauto.
  - unfold bind, read. simpl. destruct (nth_error (pending b) i) as [k |] eqn:Ek.
    + simpl. rewrite resume_requests. simpl.
      destruct k.
      * exfalso. apply Hpend. eapply nth_error_In. exact Ek.
      * simpl. destruct (sendMessage_resume_frame r (set_pending (remove_nth i (pending b)) b))
          as (Hs & Hp).
        rewrite Hs, Hp. simpl. repeat split; try assumption.
        intros H. apply In_remove_nth in H. contradiction.
    + simpl. tauto.
  - unfold bind, read. simpl. destruct (nth_error (timers b) i) as [t |].
    + simpl. rewrite callback_requests. simpl.
      destruct (callback_frame t (set_timers (remove_nth i (timers b)) b)) as (Hs & Hp).
      rewrite Hs, Hp. simpl. tauto.
    + simpl. tauto.
Qed.

Lemma run_established (events : list Event) (b : Browser) :
  established b ->
  established (run events b)
  /\ sessionId (run events b) = sessionId b
  /\ List.filter is_start (requests (run events b)) = List.filter is_start (requests b).
Proof.
  revert b. induction events as [| e events IH]; intros b H; [tauto |].
  simpl. destruct (step_established e b H) as (He & Hs & Hr).
  destruct (IH _ He) as (He' & Hs' & Hr').
  unfold run in *. rewrite Hs', Hr', Hs, Hr. tauto.
Qed.

End ChatbotFacts.

(** C2 (amended).  The widget calls only two local endpoints.  A message
    that is non-empty after trimming and is sent while no reply is awaited
    makes [sendMessage] issue a POST to http://localhost:8001/chat/message
    whose JSON body has the members session_id and message, the former being
    left out when the stored session id is undefined; when the reply has an ok
    status and a body whose message is a string, that message is appended to
    the transcript.  Opening the chat with no session makes [startSession]
    issue a POST to http://localhost:8001/chat/start; when the reply has an ok
    status and an object as body, its session_id is stored, whatever its
    other members are. *)
Theorem C2_local_endpoint_calls
    (b : Chatbot.Browser) (events : list Chatbot.Event) (page : Chatbot.Elements)
    (session_id completed preferences_collected : JS.value) (message : string) :
  Chatbot.isTyping b = false ->
  Chatbot.trim (Chatbot.input_value (Chatbot.elements b)) <> "" ->
  let sent := Chatbot.trim (Chatbot.input_value (Chatbot.elements b)) in
  let reply :=
    Chatbot.Response true
      (Some (Chatbot.BodyObject session_id (JS.VStr message) completed
               preferences_collected)) in
  Forall (fun r => Chatbot.url r = "http://localhost:8001/chat/start"
                   \/ Chatbot.url r = "http://localhost:8001/chat/message")
    (Chatbot.requests (Chatbot.run events (Chatbot.initializeChatbot page)))
  /\ Chatbot.requests (snd (Chatbot.sendMessage b))
     = (Chatbot.requests b
        ++ [Chatbot.mkRequest "http://localhost:8001/chat/message" "POST"
              "application/json"
              match Chatbot.sessionId b with
              | JS.VUndefined => [("message", JS.VStr sent)]
              | session => [("session_id", session); ("message", JS.VStr sent)]
              end])%list
  /\ Chatbot.pending (snd (Chatbot.sendMessage b))
     = (Chatbot.pending b ++ [Chatbot.AwaitMessage])%list
  /\ (forall waiting : Chatbot.Browser,
        Chatbot.messages (Chatbot.elements (snd (Chatbot.sendMessage_resume reply waiting)))
        = (Chatbot.messages (Chatbot.elements waiting)
           ++ [(Chatbot.assistant, message)])%list)
  /\ (forall closed : Chatbot.Browser,
        JS.truthy (Chatbot.sessionId closed) = false ->
        Chatbot.requests (snd (Chatbot.openChat closed))
        = (Chatbot.requests closed
           ++ [Chatbot.mkRequest "http://localhost:8001/chat/start" "POST"
                 "application/json" []])%list
        /\ Chatbot.pending (snd (Chatbot.openChat closed))
           = (Chatbot.pending closed ++ [Chatbot.AwaitStart])%list)
  /\ (forall (starting : Chatbot.Browser) (greeting : JS.value),
        Chatbot.sessionId
          (snd (Chatbot.startSession_resume
                  (Chatbot.Response true
                     (Some (Chatbot.BodyObject session_id greeting completed
                              preferences_collected)))
                  starting))
        = session_id).
Proof.
  intros Htyping Hsent sent reply.
  destruct (sendMessage_sends b Htyping Hsent) as (Hreq & Hpend & _).
  split; [| split; [| split; [exact Hpend | split; [| split]]]].
  - apply (List.Forall_impl _ local_request_url).
    apply run_requests. constructor.
  - rewrite Hreq. unfold Chatbot.message_request, Chatbot.JSON_object. fold sent.
    destruct (Chatbot.sessionId b); reflexivity.
  - intros waiting. apply sendMessage_resume_ok.
  - intros closed Hnone.
    destruct (openChat_starts closed) as (_ & _ & Hr & Hp).
    rewrite Hr, Hp, Hnone. split; reflexivity.
  - intros starting greeting. apply startSession_resume_ok.
Qed.

Lemma C2_witness :
  Chatbot.requests (snd (Chatbot.sendMessage Examples.typed))
  = [ Chatbot.mkRequest "http://localhost:8001/chat/start" "POST" "application/json" [];
      Chatbot.mkRequest "http://localhost:8001/chat/message" "POST" "application/json"
        [("session_id", JS.VStr "s1"); ("message", JS.VStr "Austin, under 300k")] ].
Proof.
  refine (proj1 (proj2
    (C2_local_endpoint_calls Examples.typed [] Chatbot.blank_page
       JS.VUndefined JS.VUndefined JS.VUndefined "Noted." _ _))).
  - reflexivity.
  - vm_compute. discriminate.
Defined.

(** C2, as stated, fails: the message of a reply is not appended when the
    status of the reply is not ok, nor when the message is not a string; the
    widget apologises instead. *)
Lemma C2_counterexample :
  let sent := snd (Chatbot.sendMessage Examples.typed) in
  Chatbot.messages (Chatbot.elements
    (Chatbot.step (Chatbot.Settle 0 Examples.refusal) sent))
  = [ (Chatbot.assistant, "Hi! What are you looking for?");
      (Chatbot.user, "Austin, under 300k");
      (Chatbot.assistant, Chatbot.message_apology) ]
  /\ Chatbot.messages (Chatbot.elements
       (Chatbot.step (Chatbot.Settle 0 Examples.untexted) sent))
     = [ (Chatbot.assistant, "Hi! What are you looking for?");
         (Chatbot.user, "Austin, under 300k");
         (Chatbot.assistant, Chatbot.message_apology) ]
  /\ ~ (forall (waiting : Chatbot.Browser) (ok : bool)
               (session_id completed preferences_collected : JS.value)
               (message : string),
          Chatbot.messages (Chatbot.elements
            (snd (Chatbot.sendMessage_resume
                    (Chatbot.Response ok
                       (Some (Chatbot.BodyObject session_id (JS.VStr message)
                                completed preferences_collected)))
                    waiting)))
          = (Chatbot.messages (Chatbot.elements waiting)
             ++ [(Chatbot.assistant, message)])%list).
Proof.
  split; [reflexivity |]. split; [reflexivity |].
  intros H.
  specialize (H Examples.loaded false JS.VUndefined JS.VUndefined JS.VUndefined
                "Too many requests").
  discriminate H.
Qed.

(** C3 (amended).  A message that is non-empty after trimming and is sent
    while no reply is awaited is transmitted to the backend in the body of a
    POST to the chat/message endpoint; when the reply has an ok status, a
    string as message and true (truthy) completed and preferences_collected,
    the widget schedules, one second later, the acknowledgement of the
    handoff, which appends the message saying that the property finding team
    will now search for matching investments. *)
Theorem C3_preferences_handoff
    (b : Chatbot.Browser)
    (session_id completed preferences_collected : JS.value) (message : string) :
  Chatbot.isTyping b = false ->
  Chatbot.trim (Chatbot.input_value (Chatbot.elements b)) <> "" ->
  JS.truthy completed = true ->
  JS.truthy preferences_collected = true ->
  let sent := Chatbot.trim (Chatbot.input_value (Chatbot.elements b)) in
  let reply :=
    Chatbot.Response true
      (Some (Chatbot.BodyObject session_id (JS.VStr message) completed
               preferences_collected)) in
  (exists r,
      Chatbot.requests (snd (Chatbot.sendMessage b)) = (Chatbot.requests b ++ [r])%list
      /\ Chatbot.url r = "http://localhost:8001/chat/message"
      /\ Chatbot.method r = "POST"
      /\ In ("message", JS.VStr sent) (Chatbot.body r))
  /\ (forall waiting : Chatbot.Browser,
        Chatbot.timers (snd (Chatbot.sendMessage_resume reply waiting))
        = (Chatbot.timers waiting ++ [Chatbot.ScrollToBottom; Chatbot.Acknowledge])%list)
  /\ Chatbot.delay Chatbot.Acknowledge = 1000%nat
  /\ (forall (later : Chatbot.Browser) (i : nat),
        nth_error (Chatbot.timers later) i = Some Chatbot.Acknowledge ->
        Chatbot.messages (Chatbot.elements (Chatbot.step (Chatbot.Fire i) later))
        = (Chatbot.messages (Chatbot.elements later)
           ++ [(Chatbot.assistant,
                "Perfect! I have all the information I need. Our property finding team will now search for investments that match your criteria. You should hear from us soon with some exciting opportunities!")])%list).
Proof.
  intros Htyping Hsent Hc Hp sent reply.
  destruct (sendMessage_sends b Htyping Hsent) as (Hreq & _).
  split; [| split; [| split]].
  - eexists. split; [exact Hreq |]. split; [reflexivity |]. split; [reflexivity |].
    unfold Chatbot.message_request, Chatbot.JSON_object. simpl.
    destruct (Chatbot.sessionId b); simpl; tauto.
  - intros waiting.
    destruct (sendMessage_resume_ok waiting session_id completed preferences_collected
                message) as (_ & _ & _ & _ & _ & _ & Ht).
    unfold reply. rewrite Ht, Hc, Hp. reflexivity.
  - reflexivity.
  - intros later i Hi. unfold Chatbot.step, Chatbot.handler, Chatbot.bind, Chatbot.read.
    simpl. rewrite Hi. reflexivity.
Qed.

Lemma C3_witness :
  Chatbot.timers
    (snd (Chatbot.sendMessage_resume
            (Chatbot.Response true
               (Some (Chatbot.BodyObject JS.VUndefined (JS.VStr "All set.")
                        (JS.VBool true) (JS.VBool true))))
            (snd (Chatbot.sendMessage Examples.typed))))
  = (Chatbot.timers (snd (Chatbot.sendMessage Examples.typed))
     ++ [Chatbot.ScrollToBottom; Chatbot.Acknowledge])%list.
Proof.
  refine (proj1 (proj2
    (C3_preferences_handoff Examples.typed JS.VUndefined (JS.VBool true)
       (JS.VBool true) "All set." _ _ _ _)) _).
  - reflexivity.
  - vm_compute. discriminate.
  - reflexivity.
  - reflexivity.
Defined.

(** C3, as stated, fails: a text entered while a reply is awaited is not
    transmitted when the user presses Enter, and a reply whose completed and
    preferences_collected are true is not acknowledged when its status is not
    ok or its message is not a string. *)
Lemma C3_counterexample :
  let sent := snd (Chatbot.sendMessage Examples.typed) in
  Chatbot.requests
    (Chatbot.run [Chatbot.Input "and a garage"; Chatbot.Keypress "Enter" false] sent)
  = Chatbot.requests sent
  /\ ~ In Chatbot.Acknowledge
       (Chatbot.timers (Chatbot.step (Chatbot.Settle 0 Examples.refusal) sent))
  /\ ~ In Chatbot.Acknowledge
       (Chatbot.timers (Chatbot.step (Chatbot.Settle 0 Examples.untexted) sent))
  /\ ~ (forall (waiting : Chatbot.Browser) (ok : bool) (session_id message : JS.value),
          In Chatbot.Acknowledge
            (Chatbot.timers
               (snd (Chatbot.sendMessage_resume
                       (Chatbot.Response ok
                          (Some (Chatbot.BodyObject session_id message
                                   (JS.VBool true) (JS.VBool true))))
                       waiting)))).
Proof.
  split; [reflexivity |].
  split; [vm_compute; intuition discriminate |].
  split; [vm_compute; intuition discriminate |].
  intros H.
  specialize (H Examples.loaded false JS.VUndefined (JS.VStr "Too many requests")).
  vm_compute in H. intuition discriminate.
Qed.

(** C10, at a chat that is opened, closed and opened again before the
    backend has answered.  Both calls of [openChat] find [sessionId] null, so
    two POSTs to chat/start leave; when both are answered the session id of
    the first answer is stored and then replaced by that of the second, and
    two greetings are appended: two sessions in one page load. *)
Theorem C10_two_sessions_in_one_page_load :
  let before := Chatbot.run (firstn 3 Examples.impatient) Examples.loaded in
  let first_answered := Chatbot.run (firstn 4 Examples.impatient) Examples.loaded in
  let both_answered := Chatbot.run Examples.impatient Examples.loaded in
  Chatbot.sessionId before = JS.VNull
  /\ Chatbot.requests before = [Chatbot.start_request; Chatbot.start_request]
  /\ Chatbot.pending before = [Chatbot.AwaitStart; Chatbot.AwaitStart]
  /\ Chatbot.sessionId first_answered = JS.VStr "s1"
  /\ Chatbot.sessionId both_answered = JS.VStr "s2"
  /\ Chatbot.messages (Chatbot.elements both_answered)
     = [ (Chatbot.assistant, "Hi! What are you looking for?");
         (Chatbot.assistant, "Hi! What are you looking for?") ].
Proof. vm_compute. repeat split. Qed.

(** The rest of C10 holds.  A failed start leaves [sessionId] as it was and
    appends the apology; a failed message hides the typing indicator,
    re-enables the send button, appends the apology and leaves [sessionId] as
    it was; [openChat] starts a session exactly when [sessionId] is falsy; and
    once a session id is stored with no start under way, no event starts
    another session or changes the id. *)
Lemma C10_failures_and_single_start
    (b : Chatbot.Browser) (r : Chatbot.FetchResult) (events : list Chatbot.Event) :
  (Chatbot.failed r = true ->
     Chatbot.sessionId (snd (Chatbot.startSession_resume r b)) = Chatbot.sessionId b
     /\ Chatbot.messages (Chatbot.elements (snd (Chatbot.startSession_resume r b)))
        = (Chatbot.messages (Chatbot.elements b)
           ++ [(Chatbot.assistant, Chatbot.start_apology)])%list)
  /\ (Chatbot.failed r = true ->
        let b' := snd (Chatbot.sendMessage_resume r b) in
        Chatbot.typing_display (Chatbot.elements b') = "none"
        /\ Chatbot.isTyping b' = false
        /\ Chatbot.send_disabled (Chatbot.elements b') = false
        /\ Chatbot.messages (Chatbot.elements b')
           = (Chatbot.messages (Chatbot.elements b)
              ++ [(Chatbot.assistant, Chatbot.message_apology)])%list
        /\ Chatbot.sessionId b' = Chatbot.sessionId b)
  /\ Chatbot.requests (snd (Chatbot.openChat b))
     = (Chatbot.requests b
        ++ if JS.truthy (Chatbot.sessionId b) then [] else [Chatbot.start_request])%list
  /\ (Chatbot.established b ->
        Chatbot.sessionId (Chatbot.run events b) = Chatbot.sessionId b
        /\ List.filter Chatbot.is_start (Chatbot.requests (Chatbot.run events b))
           = List.filter Chatbot.is_start (Chatbot.requests b)).
Proof.
  split; [| split; [| split]].
  - intros H. destruct (startSession_resume_failed b r H) as (Hs & Hm & _).
    split; assumption.
  - intros H. destruct (sendMessage_resume_failed b r H) as (Ht & Hd & Hb & Hm & Hs & _).
    cbv zeta. tauto.
  - apply openChat_starts.
  - intros H. destruct (run_established events b H) as (_ & Hs & Hr).
    split; assumption.
Qed.

(** ** Deal analyzer: the total of the rehab costs *)

Section DealAnalyzerFacts.
Import DealAnalyzer.
Variable ToString : Q -> string.
Local Open Scope Q_scope.

Lemma sum_costs_app (l1 l2 : list RehabItem) :
  sum_costs (l1 ++ l2) == sum_costs l1 + sum_costs l2.
Proof.
  induction l1 as [| it l1 IH]; simpl; [ring |].
  destruct (cost it); rewrite IH; ring.
Qed.

Lemma numbers_after_rename (from index : nat) (value : string) (items : list RehabItem) :
  Forall (fun it => is_number (cost it)) items ->
  Forall (fun it => is_number (cost it))
    (map_at from index (with_field item_field value) items)
  /\ sum_costs (map_at from index (with_field item_field value) items)
     = sum_costs items.
Proof.
  revert from. induction items as [| it items IH]; intros from H; simpl.
  - split; [constructor | reflexivity].
  - inversion H as [| ? ? Hit Hrest]; subst.
    destruct (IH (S from) Hrest) as [IH1 IH2]. split.
    + constructor; [| exact IH1]. destruct (Nat.eqb from index); exact Hit.
    + rewrite IH2. destruct (Nat.eqb from index); reflexivity.
Qed.

(** Over numbers, a rename adds up all the costs. *)
Lemma reduce_costs_rename (from index : nat) (number acc : Q) (items : list RehabItem) :
  Forall (fun it => is_number (cost it)) items ->
  exists t, reduce_costs ToString from index item_field number items (Num acc) = Num t
            /\ t == acc + sum_costs items.
Proof.
  revert from acc. induction items as [| it items IH]; intros from acc H; cbn [reduce_costs sum_costs].
  - exists acc. split; [reflexivity | ring].
  - inversion H as [| ? ? [q Hq] Hrest]; subst.
    assert (Hstep : (if Nat.eqb from index then plus ToString (Num acc) (cost it)
                     else plus ToString (Num acc) (cost it)) = Num (acc + q)).
    { rewrite Hq. destruct (Nat.eqb from index); reflexivity. }
    rewrite Hstep. rewrite Hq. destruct (IH (S from) (acc + q) Hrest) as (t & Ht & Et).
    exists t. split; [exact Ht |]. rewrite Et. ring.
Qed.


Lemma handle_consistent (e : Event) (a : Analysis) :
  edits_cost e = false -> consistent a -> consistent (handle ToString e a).
Proof.
  intros He (Hnum & t & Ht & Et).
  destruct e as [n | n | n | | index value | index value number]; try discriminate He;
    simpl; unfold consistent; simpl.
  - split; [exact Hnum | exists t; split; assumption].
  - split; [exact Hnum | exists t; split; assumption].
  - split; [exact Hnum | exists t; split; assumption].
  - split.
    + apply Forall_app. split; [exact Hnum |]. repeat constructor. exists 0. reflexivity.
    + exists t. split; [exact Ht |]. rewrite sum_costs_app, Et. simpl. ring.
  - destruct (numbers_after_rename 0 index value _ Hnum) as [H1 H2].
    split; [exact H1 |]. rewrite H2.
    destruct (reduce_costs_rename 0 index 0 0 _ Hnum) as (t' & Ht' & Et').
    exists t'. split; [exact Ht' |]. rewrite Et'. ring.
Qed.

Lemma initial_consistent : consistent initial.
Proof.
  split.
  - repeat constructor; eexists; reflexivity.
  - exists 45000. split; reflexivity.
Qed.

(** X1.  As long as no cost input is edited, every cost is a number and
    [totalRehab] is the sum of the costs. *)
Theorem totalRehab_follows_costs (events : list Event) (a : Analysis) :
  consistent a ->
  forallb (fun e => negb (edits_cost e)) events = true ->
  consistent (run ToString events a).
Proof.
  revert a. induction events as [| e events IH]; intros a Ha Hev; [exact Ha |].
  simpl in Hev. apply andb_true_iff in Hev as [He Hev].
  apply negb_true_iff in He. simpl. apply IH; [| exact Hev].
  apply handle_consistent; assumption.
Qed.

Lemma map_at_length (from index : nat) (f : RehabItem -> RehabItem) (items : list RehabItem) :
  length (map_at from index f items) = length items.
Proof.
  revert from. induction items as [| it items IH]; intros from; simpl; [reflexivity |].
  rewrite IH. reflexivity.
Qed.

Lemma map_at_nth (from index : nat) (f : RehabItem -> RehabItem)
    (items : list RehabItem) (k : nat) :
  nth_error (map_at from index f items) k
  = option_map (fun it => if Nat.eqb (from + k) index then f it else it)
      (nth_error items k).
Proof.
  revert from k. induction items as [| it items IH]; intros from [| k]; simpl;
    try reflexivity.
  - rewrite Nat.add_0_r. reflexivity.
  - rewrite IH. replace (S from + k)%nat with (from + S k)%nat by lia. reflexivity.
Qed.


Lemma plus_string_l (s : string) (v : Value) : is_string (plus ToString (Str s) v).
Proof. destruct v; eexists; reflexivity. Qed.

Lemma plus_string_r (v : Value) (s : string) : is_string (plus ToString v (Str s)).
Proof. destruct v; eexists; reflexivity. Qed.

Lemma reduce_costs_string (from index : nat) (field : Field) (number : Q)
    (items : list RehabItem) (s : string) :
  is_string (reduce_costs ToString from index field number items (Str s)).
Proof.
  revert from s. induction items as [| it items IH]; intros from s;
    cbn [reduce_costs].
  - eexists. reflexivity.
  - destruct (Nat.eqb from index).
    + destruct (plus_string_l s (match field with
                                 | cost_field => Num number
                                 | item_field => cost it
                                 end)) as [s' ->]. apply IH.
    + destruct (plus_string_l s (cost it)) as [s' ->]. apply IH.
Qed.

(** One cost that is a string, read by the [reduce], makes the total a
    string. *)
Lemma reduce_costs_contaminated (from index : nat) (field : Field) (number : Q)
    (items : list RehabItem) (sum : Value) (k : nat) (it : RehabItem) :
  nth_error items k = Some it ->
  is_string (cost it) ->
  ~ ((from + k)%nat = index /\ field = cost_field) ->
  is_string (reduce_costs ToString from index field number items sum).
Proof.
  revert from sum k. induction items as [| hd items IH]; intros from sum k Hk Hs Hnot.
  - destruct k; discriminate.
  - destruct k as [| k]; cbn [nth_error] in Hk; cbn [reduce_costs].
    + injection Hk as ->. destruct Hs as [s Hs]. rewrite Hs.
      rewrite Nat.add_0_r in Hnot.
      destruct (Nat.eqb_spec from index) as [E | _].
      * destruct field; [| exfalso; apply Hnot; split; [exact E | reflexivity]].
        destruct (plus_string_r sum s) as [s' ->]. apply reduce_costs_string.
      * destruct (plus_string_r sum s) as [s' ->]. apply reduce_costs_string.
    + apply (IH (S from) _ k Hk Hs).
      replace (S from + k)%nat with (from + S k)%nat by lia. exact Hnot.
Qed.

(** X3.  After the cost of a row has been edited, any further change of a row,
    other than editing that same cost again, makes [totalRehab] and the total
    investment strings: the stored text of the first input is concatenated. *)
Theorem later_edit_concatenates (index index' : nat) (field' : Field)
    (value value' : string) (number number' : Q) (a : Analysis) :
  (index < length (rehabItems a))%nat ->
  ~ (index' = index /\ field' = cost_field) ->
  let a1 := updateRehabItem ToString index cost_field value number a in
  let a2 := updateRehabItem ToString index' field' value' number' a1 in
  is_string (totalRehab a2) /\ is_string (totalInvestment ToString a2).
Proof.
  intros Hlt Hnot a1 a2.
  assert (Hs : is_string (totalRehab a2)).
  { unfold a2, a1, updateRehabItem. simpl.
    destruct (nth_error (rehabItems a) index) as [it |] eqn:Hit.
    2: { apply nth_error_None in Hit. lia. }
    apply (reduce_costs_contaminated 0 index' field' number' _ (Num 0) index
             (mkItem (item it) (Str value))).
    - rewrite map_at_nth, Hit. simpl. rewrite Nat.eqb_refl. reflexivity.
    - eexists. reflexivity.
    - simpl. intros [E F]. apply Hnot. split; [symmetry; exact E | exact F]. }
  split; [exact Hs |].
  unfold totalInvestment. destruct Hs as [s ->]. apply plus_string_r.
Qed.

End DealAnalyzerFacts.

Lemma totalRehab_follows_costs_witness :
  DealAnalyzer.consistent
    (DealAnalyzer.run Scenarios.ToString Scenarios.renaming DealAnalyzer.initial).
Proof.
  apply totalRehab_follows_costs; [| reflexivity].
  split.
  - repeat (apply List.Forall_cons; [eexists; reflexivity |]). apply List.Forall_nil.
  - exists 45000%Q. split; [reflexivity | vm_compute; reflexivity].
Defined.


Lemma later_edit_concatenates_witness :
  let a1 := DealAnalyzer.updateRehabItem Scenarios.ToString 0
              DealAnalyzer.cost_field "30000" 30000 DealAnalyzer.initial in
  let a2 := DealAnalyzer.updateRehabItem Scenarios.ToString 1
              DealAnalyzer.cost_field "15000" 15000 a1 in
  DealAnalyzer.is_string (DealAnalyzer.totalRehab a2)
  /\ DealAnalyzer.is_string (DealAnalyzer.totalInvestment Scenarios.ToString a2).
Proof.
  apply (later_edit_concatenates Scenarios.ToString 0 1 DealAnalyzer.cost_field
           "30000" "15000" 30000 15000 DealAnalyzer.initial).
  - simpl. lia.
  - intros [H _]. discriminate H.
Defined.

(** ** Marketplace: more on saving and filtering *)

Lemma includes_toggled (y x : string) (l : list string) :
  Marketplace.includes y (Marketplace.toggled x l)
  = if String.eqb y x then negb (Marketplace.includes x l) else Marketplace.includes y l.
Proof.
  destruct (String.eqb_spec y x) as [-> | Hne].
  - destruct (Marketplace.includes x l) eqn:E.
    + apply includes_In in E. rewrite (toggled_present x l E).
      apply not_true_is_false. rewrite includes_In. apply removed_not_In.
    + assert (Hout : ~ In x l) by (rewrite <- includes_In; congruence).
      rewrite (toggled_absent x l Hout). apply includes_In.
      apply in_or_app. right. left. reflexivity.
  - apply eq_true_iff_eq. rewrite !includes_In.
    destruct (in_dec String.string_dec x l) as [Hin | Hout].
    + rewrite (toggled_present x l Hin), filter_In.
      split; [tauto |]. intros H. split; [exact H |].
      destruct (String.eqb_spec y x); [contradiction | reflexivity].
    + rewrite (toggled_absent x l Hout), in_app_iff. simpl.
      split; [| tauto]. intros [H | [E | []]]; [exact H | congruence].
Qed.

(** X4.  Saving or un-saving a property flips the saved flag of the cards of
    that property and changes nothing else in the grid. *)
Theorem save_flips_one_flag (st : Marketplace.State) (propertyId : string) :
  Marketplace.render (Marketplace.handleSaveProperty propertyId st)
  = map (fun card =>
           if String.eqb (Property.id (Marketplace.card_property card)) propertyId
           then Marketplace.mkCard (Marketplace.card_property card)
                  (Marketplace.card_margin card)
                  (negb (Marketplace.card_isSaved card))
           else card)
      (Marketplace.render st).
Proof.
  unfold Marketplace.render, Marketplace.filteredProperties. simpl.
  rewrite map_map. apply map_ext. intros p. simpl.
  rewrite includes_toggled.
  destruct (String.eqb_spec (Property.id p) propertyId) as [E | _];
    [rewrite E |]; reflexivity.
Qed.

Lemma toggled_NoDup (x : string) (l : list string) :
  List.NoDup l -> List.NoDup (Marketplace.toggled x l).
Proof.
  intros H. destruct (in_dec String.string_dec x l) as [Hin | Hout].
  - rewrite (toggled_present x l Hin). apply List.NoDup_filter, H.
  - rewrite (toggled_absent x l Hout).
    apply (Permutation_NoDup (l := x :: l)); [apply Permutation_cons_append |].
    constructor; assumption.
Qed.

Lemma handle_saved (e : Marketplace.Event) (st : Marketplace.State) :
  Marketplace.savedProperties (Marketplace.handle e st)
  = match e with
    | Marketplace.ClickSave propertyId =>
        Marketplace.toggled propertyId (Marketplace.savedProperties st)
    | _ => Marketplace.savedProperties st
    end.
Proof. destruct e; reflexivity. Qed.

(** X5.  A saved list without repeated ids stays without repeated ids. *)
Theorem saved_ids_stay_distinct (events : list Marketplace.Event) (st : Marketplace.State) :
  List.NoDup (Marketplace.savedProperties st) ->
  List.NoDup (Marketplace.savedProperties (Marketplace.run events st)).
Proof.
  revert st. induction events as [| e events IH]; intros st H; [exact H |].
  simpl. apply IH. rewrite handle_saved.
  destruct e; try exact H. apply toggled_NoDup, H.
Qed.

Lemma handle_storage (e : Marketplace.Event) (st : Marketplace.State) :
  Marketplace.localStorage (Marketplace.handle e st)
  = match e with
    | Marketplace.ClickSave propertyId =>
        <["savedProperties" :=
            Json.stringify (Marketplace.toggled propertyId (Marketplace.savedProperties st))]>
          (Marketplace.localStorage st)
    | _ => Marketplace.localStorage st
    end.
Proof. destruct e; reflexivity. Qed.

Lemma handle_synced (e : Marketplace.Event) (st : Marketplace.State) :
  MarketplaceLog.synced st \/ MarketplaceLog.is_save e = true ->
  MarketplaceLog.synced (Marketplace.handle e st).
Proof.
  unfold MarketplaceLog.synced. rewrite handle_saved, handle_storage.
  destruct e; simpl; try (intros [H | H]; [exact H | discriminate]).
  intros _. apply lookup_insert_eq.
Qed.

(** X6.  From the first save on, and from then on after every interaction, the
    localStorage key 'savedProperties' holds the JSON text of the saved
    list. *)
Theorem storage_follows_saved (events : list Marketplace.Event) (st : Marketplace.State) :
  MarketplaceLog.synced st \/ existsb MarketplaceLog.is_save events = true ->
  MarketplaceLog.synced (Marketplace.run events st).
Proof.
  revert st. induction events as [| e events IH]; intros st H.
  - destruct H as [H | H]; [exact H | discriminate].
  - simpl. apply IH. simpl in H.
    destruct (MarketplaceLog.is_save e) eqn:E.
    + left. apply handle_synced. right. exact E.
    + destruct H as [H | H]; [| right; exact H].
      left. apply handle_synced. left. exact H.
Qed.

Lemma stringify_nonempty (l : list string) : String.eqb (Json.stringify l) "" = false.
Proof. reflexivity. Qed.

(** X7.  Saved properties survive a reload: mounting the page on the storage
    left by a session whose storage is in step restores the saved list,
    provided [JSON.parse] reads back what [JSON.stringify] wrote. *)
Theorem reload_restores_saved (parse : string -> option (list string))
    (st : Marketplace.State) :
  MarketplaceLog.synced st ->
  parse (Json.stringify (Marketplace.savedProperties st))
  = Some (Marketplace.savedProperties st) ->
  exists st',
    Marketplace.lifetime parse (Marketplace.localStorage st) [] = Some st'
    /\ Marketplace.savedProperties st' = Marketplace.savedProperties st
    /\ Marketplace.filters st' = Marketplace.defaultFilters
    /\ Marketplace.localStorage st' = Marketplace.localStorage st.
Proof.
  intros Hsync Hparse.
  unfold Marketplace.lifetime, Marketplace.useEffect_mount. simpl.
  unfold MarketplaceLog.synced in Hsync. rewrite Hsync.
  rewrite stringify_nonempty, Hparse.
  eexists. split; [reflexivity |]. repeat split.
Qed.

Lemma handle_inert (e : Marketplace.Event) (st : Marketplace.State) :
  MarketplaceLog.location_or_sort e = true ->
  Marketplace.render (Marketplace.handle e st) = Marketplace.render st.
Proof. destruct e; try discriminate; reflexivity. Qed.

(** X8.  The location box and the sort menu are inert: whatever is typed as
    city and whichever order is selected, the grid shows the same cards in
    the same order. *)
Theorem location_and_sort_are_inert (events : list Marketplace.Event)
    (st : Marketplace.State) :
  forallb MarketplaceLog.location_or_sort events = true ->
  Marketplace.render (Marketplace.run events st) = Marketplace.render st.
Proof.
  revert st. induction events as [| e events IH]; intros st H; [reflexivity |].
  simpl in H. apply andb_true_iff in H as [He H].
  simpl. rewrite (IH _ H). apply handle_inert, He.
Qed.

Lemma or_default_zero_le (m : Q) (q : Q) :
  Qle_bool (if Qeq_bool m 0 then 0%Q else m) q = Qle_bool m q.
Proof.
  destruct (Qeq_bool m 0) eqn:E; [| reflexivity].
  apply Qeq_bool_iff in E. apply eq_true_iff_eq.
  rewrite !Qle_bool_iff, E. reflexivity.
Qed.

(** X9.  Raising the minimum margin never adds a property to the grid. *)
Theorem raising_margin_only_removes (st : Marketplace.State) (m m' : Q) (p : Property.t) :
  (m <= m')%Q ->
  In p (Marketplace.filteredProperties
          (Marketplace.handle (Marketplace.ChangeMarginMin m') st)) ->
  In p (Marketplace.filteredProperties
          (Marketplace.handle (Marketplace.ChangeMarginMin m) st)).
Proof.
  intros Hle. unfold Marketplace.filteredProperties. simpl.
  rewrite !filter_In. intros [Hin Hpass]. split; [exact Hin |].
  unfold Marketplace.passes in *. simpl in *.
  rewrite !andb_true_iff in *.
  destruct Hpass as [[Hrest Hmargin] Hdom]. split; [split; [exact Hrest |] | exact Hdom].
  destruct (Marketplace.calculateMargin p) as [q | | |]; simpl in *; try assumption.
  rewrite or_default_zero_le in *. rewrite Qle_bool_iff in *.
  eapply Qle_trans; eassumption.
Qed.

Lemma saved_ids_stay_distinct_witness :
  List.NoDup
    (Marketplace.savedProperties
       (Marketplace.run [Marketplace.ClickSave "3"; Marketplace.ClickSave "1"]
          Examples.two_saved)).
Proof.
  apply saved_ids_stay_distinct.
  repeat constructor; simpl; intros H; decompose [or] H; discriminate || contradiction.
Defined.

Lemma storage_follows_saved_witness :
  MarketplaceLog.synced (Marketplace.run Scenarios.browsing (Marketplace.initial ∅)).
Proof. apply storage_follows_saved. right. reflexivity. Defined.

Lemma reload_restores_saved_witness :
  exists st',
    Marketplace.lifetime Scenarios.parse (Marketplace.localStorage Examples.two_saved) []
    = Some st'
    /\ Marketplace.savedProperties st' = Marketplace.savedProperties Examples.two_saved
    /\ Marketplace.filters st' = Marketplace.defaultFilters
    /\ Marketplace.localStorage st' = Marketplace.localStorage Examples.two_saved.
Proof.
  apply (reload_restores_saved Scenarios.parse Examples.two_saved); reflexivity.
Defined.

Lemma location_and_sort_are_inert_witness :
  Marketplace.render
    (Marketplace.run
       [Marketplace.ChangeCity "Houston"; Marketplace.ChangeSortBy "price-low"]
       Examples.margin_at_zero)
  = Marketplace.render Examples.margin_at_zero.
Proof. apply location_and_sort_are_inert. reflexivity. Defined.

Lemma raising_margin_only_removes_witness :
  In Scenarios.houston
    (Marketplace.filteredProperties
       (Marketplace.handle (Marketplace.ChangeMarginMin 5) (Marketplace.initial ∅))).
Proof.
  apply (raising_margin_only_removes (Marketplace.initial ∅) 5 8 Scenarios.houston).
  - vm_compute. discriminate.
  - vm_compute. left. reflexivity.
Defined.

(** ** Agent connect: the page over time *)

Lemma agent_handle_effects (e : AgentConnect.Event) (st : AgentConnect.State) :
  exists added,
    AgentConnect.effects (AgentConnect.handle e st)
    = (AgentConnect.effects st ++ added)%list
    /\ existsb AgentConnect.is_fetch added = false
    /\ length (List.filter AgentConnectPage.is_toast added)
       = (if AgentConnectPage.raises_toast e then 1 else 0)%nat.
Proof.
  destruct e; simpl;
    try (exists []; rewrite app_nil_r; repeat split; reflexivity).
  - eexists [_; _]. unfold AgentConnect.handleSubmit, AgentConnect.perform. simpl.
    rewrite <- app_assoc. repeat split.
  - eexists [_]. repeat split.
Qed.

(** X10.  Whatever is typed, submitted or requested on the agent-connect page, no
    request is ever made, and exactly one toast is raised per submission and
    per introduction request. *)
Theorem agent_connect_never_fetches (events : list AgentConnect.Event) :
  let st := AgentConnectPage.run events AgentConnect.initial in
  existsb AgentConnect.is_fetch (AgentConnect.effects st) = false
  /\ length (List.filter AgentConnectPage.is_toast (AgentConnect.effects st))
     = length (List.filter AgentConnectPage.raises_toast events).
Proof.
  assert (H : forall st0,
            let st := AgentConnectPage.run events st0 in
            existsb AgentConnect.is_fetch (AgentConnect.effects st)
            = existsb AgentConnect.is_fetch (AgentConnect.effects st0)
            /\ length (List.filter AgentConnectPage.is_toast (AgentConnect.effects st))
               = (length (List.filter AgentConnectPage.is_toast (AgentConnect.effects st0))
                  + length (List.filter AgentConnectPage.raises_toast events))%nat).
  { induction events as [| e events IH]; intros st0; simpl.
    - split; [reflexivity | lia].
    - destruct (IH (AgentConnect.handle e st0)) as [IH1 IH2].
      unfold AgentConnectPage.run in *. rewrite IH1, IH2.
      destruct (agent_handle_effects e st0) as (added & -> & Hf & Ht).
      rewrite existsb_app, Hf, orb_false_r, List.filter_app, length_app, Ht.
      split; [reflexivity |].
      destruct (AgentConnectPage.raises_toast e); simpl; lia. }
  apply (H AgentConnect.initial).
Qed.

(** ** Routing: what [showPage] leaves alone *)

Lemma filter_twice {A} (f : A -> bool) (l : list A) :
  List.filter f (List.filter f l) = List.filter f l.
Proof.
  induction l as [| a l IH]; [reflexivity |].
  simpl. destruct (f a) eqn:E; simpl; [rewrite E, IH; reflexivity | exact IH].
Qed.

Lemma frame_remove (el : Dom.Element) :
  RouterFrame.frame (Dom.classList_remove "active" el) = RouterFrame.frame el.
Proof.
  unfold RouterFrame.frame, Dom.classList_remove. simpl.
  rewrite filter_twice. reflexivity.
Qed.

Lemma frame_add (el : Dom.Element) :
  RouterFrame.frame (Dom.classList_add "active" el) = RouterFrame.frame el.
Proof.
  unfold RouterFrame.frame, Dom.classList_add.
  destruct (Dom.contains "active" el); [reflexivity |]. simpl.
  rewrite List.filter_app. simpl. rewrite app_nil_r. reflexivity.
Qed.

Lemma frame_forEach (c : string) (f : Dom.Element -> Dom.Element) (doc : Dom.Document) :
  (forall el, RouterFrame.frame (f el) = RouterFrame.frame el) ->
  map RouterFrame.frame (Dom.forEach_class c f doc) = map RouterFrame.frame doc.
Proof.
  intros H. unfold Dom.forEach_class. rewrite map_map. apply map_ext.
  intros el. destruct (Dom.contains c el); [apply H | reflexivity].
Qed.

Lemma frame_update (i : nat) (f : Dom.Element -> Dom.Element) (doc : Dom.Document) :
  (forall el, RouterFrame.frame (f el) = RouterFrame.frame el) ->
  map RouterFrame.frame (Dom.update i f doc) = map RouterFrame.frame doc.
Proof.
  intros H. unfold Dom.update.
  destruct (doc !! i) as [el |] eqn:E; [| reflexivity].
  revert i E. induction doc as [| a doc IH]; intros [| i] E; simpl in *;
    try discriminate.
  - injection E as ->. rewrite H. reflexivity.
  - f_equal. apply IH, E.
Qed.

(** X11.  [showPage] only adds and removes the class "active": the elements, their
    ids, their other classes, their data-page attributes, their display styles
    and their parents are as before. *)
Theorem showPage_touches_only_active (querySelector : Dom.QuerySelector)
    (pageId : string) (st : Router.Page) :
  map RouterFrame.frame
    (Router.document (fst (Vanilla.showPage querySelector pageId st)))
  = map RouterFrame.frame (Router.document st).
Proof.
  unfold Vanilla.showPage.
  set (doc1 := Dom.forEach_class "page" (Dom.classList_remove "active") (Router.document st)).
  set (doc2 := match Dom.getElementById (Vanilla.targetId pageId) doc1 with
               | Some t => Dom.update t (Dom.classList_add "active") doc1
               | None => doc1
               end).
  set (doc3 := Dom.forEach_class "nav-link" (Dom.classList_remove "active") doc2).
  assert (H1 : map RouterFrame.frame doc1 = map RouterFrame.frame (Router.document st)).
  { apply frame_forEach, frame_remove. }
  assert (H2 : map RouterFrame.frame doc2 = map RouterFrame.frame (Router.document st)).
  { unfold doc2. destruct (Dom.getElementById (Vanilla.targetId pageId) doc1);
      [rewrite frame_update by apply frame_add |]; exact H1. }
  assert (H3 : map RouterFrame.frame doc3 = map RouterFrame.frame (Router.document st)).
  { unfold doc3. rewrite frame_forEach by apply frame_remove. exact H2. }
  destruct (querySelector (Dom.data_page_selector pageId) doc3) as [[j |] |];
    simpl; try exact H3.
  destruct (doc3 !! j) as [ej |]; [| exact H3].
  destruct (Dom.contains "nav-link" ej); [| exact H3].
  rewrite frame_update by apply frame_add. exact H3.
Qed.

(** ** Routing: clicks *)

(** X12.  A click inside a link (on an element without the attribute whose parent
    carries it) navigates like a click on the link. *)
Theorem click_inside_link_routes (querySelector : Dom.QuerySelector)
    (st : Router.Page) (target p : nat) (el link : Dom.Element) (pageId : string) :
  Router.document st !! target = Some el ->
  Dom.data_page el = None ->
  Dom.parent el = Some p ->
  Router.document st !! p = Some link ->
  Dom.data_page link = Some pageId ->
  Vanilla.on_click querySelector target st
  = Router.mkClick (fst (Vanilla.showPage querySelector pageId st)) true
      (snd (Vanilla.showPage querySelector pageId st)).
Proof.
  intros Hel Hnone Hparent Hlink Hattr. unfold Vanilla.on_click.
  assert (Hclosest : Dom.closest_data_page (length (Router.document st))
                       (Router.document st) target = Some p).
  { destruct (length (Router.document st)) as [| fuel] eqn:Hlen.
    - apply lookup_lt_Some in Hel. lia.
    - simpl. rewrite Hel, Hnone, Hparent.
      destruct fuel; simpl; rewrite Hlink, Hattr; reflexivity. }
  rewrite Hclosest, Hlink, Hattr.
  destruct (Vanilla.showPage querySelector pageId st). reflexivity.
Qed.

Lemma closest_sound (fuel : nat) (doc : Dom.Document) (i t : nat) :
  Dom.closest_data_page fuel doc i = Some t ->
  exists el pageId, doc !! t = Some el /\ Dom.data_page el = Some pageId.
Proof.
  revert i. induction fuel as [| fuel IH]; intros i; simpl;
    destruct (doc !! i) as [el |] eqn:E; try discriminate;
    destruct (Dom.data_page el) as [v |] eqn:Ev; try discriminate.
  - intros [= <-]. eauto.
  - intros [= <-]. eauto.
  - destruct (Dom.parent el) as [p |]; [apply IH | discriminate].
Qed.

(** X13.  A click on the page, both listeners taken together.  Either no
    element with a data-page attribute is found on the way up from the target:
    then the page stays as it is, and the default action is prevented exactly
    when the target is an [A] element whose href starts with '#'.  Or the
    click shows the page named by the attribute of an element of the document,
    and the default action is prevented. *)
Theorem click_routes_or_does_nothing (querySelector : Dom.QuerySelector)
    (target : nat) (tagName : string) (href : option string) (st : Router.Page) :
  (Router.after (Vanilla.click querySelector target tagName href st) = st
   /\ Router.defaultPrevented (Vanilla.click querySelector target tagName href st)
      = (String.eqb tagName "A"
         && match href with
            | Some h => String.prefix "#" h
            | None => false
            end))
  \/ (exists t link pageId,
        Router.document st !! t = Some link
        /\ Dom.data_page link = Some pageId
        /\ Router.after (Vanilla.click querySelector target tagName href st)
           = fst (Vanilla.showPage querySelector pageId st)
        /\ Router.defaultPrevented (Vanilla.click querySelector target tagName href st)
           = true).
Proof.
  unfold Vanilla.click, Vanilla.on_click.
  destruct (Dom.closest_data_page (length (Router.document st)) (Router.document st) target)
    as [t |] eqn:E.
  - destruct (closest_sound _ _ _ _ E) as (link & pageId & Hl & Ha).
    right. exists t, link, pageId. rewrite Hl, Ha.
    destruct (Vanilla.showPage querySelector pageId st). repeat split; assumption.
  - left. simpl. split; [reflexivity |].
    unfold Vanilla.on_anchor_click, Vanilla.is_hash_anchor.
    destruct (String.eqb tagName "A"); [| reflexivity].
    destruct href as [h |]; [| reflexivity].
    simpl. destruct (String.prefix "#" h); reflexivity.
Qed.

Lemma click_inside_link_routes_witness :
  Vanilla.on_click Dom.plain_querySelector 2 Examples.at_home
  = Router.mkClick
      (fst (Vanilla.showPage Dom.plain_querySelector "marketplace" Examples.at_home))
      true
      (snd (Vanilla.showPage Dom.plain_querySelector "marketplace" Examples.at_home)).
Proof.
  apply (click_inside_link_routes Dom.plain_querySelector Examples.at_home 2 1
           (Dom.mkElement "nav-icon" [] None "" (Some 1%nat))
           (Dom.mkElement "nav-market" ["nav-link"] (Some "marketplace") "" None)
           "marketplace"); reflexivity.
Defined.

(** ** Routing: the highlighted link *)

Lemma append_length (a b : string) :
  String.length (a ++ b) = (String.length a + String.length b)%nat.
Proof. induction a as [| c a IH]; simpl; [reflexivity | rewrite IH; reflexivity]. Qed.

Lemma append_inv_tail (s v p : string) : v ++ s = p ++ s -> v = p.
Proof.
  revert p. induction v as [| a v IH]; intros [| b p] H; simpl in H.
  - reflexivity.
  - apply (f_equal String.length) in H. rewrite !append_length in H. simpl in H. lia.
  - apply (f_equal String.length) in H. rewrite !append_length in H. simpl in H. lia.
  - injection H as -> H. f_equal. apply (IH p H).
Qed.

Lemma data_page_selector_eqb (v pageId : string) :
  String.eqb (Dom.data_page_selector v) (Dom.data_page_selector pageId)
  = String.eqb v pageId.
Proof.
  destruct (String.eqb_spec v pageId) as [-> | Hne]; [apply String.eqb_refl |].
  apply String.eqb_neq. intros H. apply Hne.
  unfold Dom.data_page_selector in H. simpl in H.
  injection H as H. apply (append_inv_tail _ _ _ H).
Qed.

Lemma find_index_ext (p q : Dom.Element -> bool) (doc : Dom.Document) :
  (forall el, p el = q el) -> Dom.find_index p doc = Dom.find_index q doc.
Proof.
  intros H. induction doc as [| el doc IH]; simpl; [reflexivity |].
  rewrite H, IH. reflexivity.
Qed.

(** The engine for plain identifiers finds the first element that carries
    the attribute value. *)
Lemma plain_querySelector_finds (pageId : string) :
  RouterFrame.finds_data_page Dom.plain_querySelector pageId.
Proof.
  intros doc. unfold Dom.plain_querySelector. f_equal.
  apply find_index_ext. intros el. unfold RouterFrame.has_data_page.
  destruct (Dom.data_page el) as [v |]; [apply data_page_selector_eqb | reflexivity].
Qed.

Lemma find_index_frame (p : Dom.Element -> bool) (doc doc' : Dom.Document) :
  map p doc' = map p doc -> Dom.find_index p doc' = Dom.find_index p doc.
Proof.
  revert doc'. induction doc as [| a doc IH]; intros [| a' doc'] H; simpl in *;
    try discriminate; [reflexivity |].
  injection H as Ha H. rewrite Ha, (IH _ H). reflexivity.
Qed.

Lemma has_data_page_frame (pageId : string) (doc doc' : Dom.Document) :
  map RouterFrame.frame doc' = map RouterFrame.frame doc ->
  map (RouterFrame.has_data_page pageId) doc' = map (RouterFrame.has_data_page pageId) doc.
Proof.
  revert doc'. induction doc as [| a doc IH]; intros [| a' doc'] H; simpl in *;
    try discriminate; [reflexivity |].
  unfold RouterFrame.frame in H at 1 3. injection H as _ _ Hd _ _ Hrest.
  rewrite (IH _ Hrest). f_equal.
  unfold RouterFrame.has_data_page. rewrite Hd. reflexivity.
Qed.

(** X14.  The navigation links after [showPage], when the selector engine finds
    the first element carrying [data-page="pageId"]: a link is highlighted
    exactly when it is that first element.  If the first such element is not a
    navigation link, no link is highlighted. *)
Theorem showPage_highlights_first_match (querySelector : Dom.QuerySelector)
    (pageId : string) (st : Router.Page) (k : nat) (el' : Dom.Element) :
  RouterFrame.finds_data_page querySelector pageId ->
  Router.document (fst (Vanilla.showPage querySelector pageId st)) !! k = Some el' ->
  Dom.contains "nav-link" el' = true ->
  (Dom.contains "active" el' = true
   <-> Dom.find_index (RouterFrame.has_data_page pageId) (Router.document st) = Some k).
Proof.
  intros Hqs Hk Hnav. unfold Vanilla.showPage in Hk.
  set (doc1 := Dom.forEach_class "page" (Dom.classList_remove "active") (Router.document st)) in *.
  set (doc2 := match Dom.getElementById (Vanilla.targetId pageId) doc1 with
               | Some t => Dom.update t (Dom.classList_add "active") doc1
               | None => doc1
               end) in *.
  set (doc3 := Dom.forEach_class "nav-link" (Dom.classList_remove "active") doc2) in *.
  assert (H3 : map RouterFrame.frame doc3 = map RouterFrame.frame (Router.document st)).
  { unfold doc3. rewrite frame_forEach by apply frame_remove.
    unfold doc2. destruct (Dom.getElementById (Vanilla.targetId pageId) doc1);
      [rewrite frame_update by apply frame_add |];
      apply frame_forEach, frame_remove. }
  rewrite <- (find_index_frame _ _ _ (has_data_page_frame pageId _ _ H3)).
  rewrite (Hqs doc3) in Hk.
  (* a navigation link of [doc3] is not active *)
  assert (Hoff : forall e3, doc3 !! k = Some e3 -> Dom.contains "nav-link" e3 = true ->
                            Dom.contains "active" e3 = false).
  { intros e3 E3 N3. unfold doc3 in E3. rewrite lookup_forEach_class in E3.
    destruct (doc2 !! k) as [e2 |]; [| discriminate]. simpl in E3.
    destruct (Dom.contains "nav-link" e2) eqn:N2; injection E3 as <-.
    - apply contains_remove_same.
    - congruence. }
  destruct (Dom.find_index (RouterFrame.has_data_page pageId) doc3) as [j |] eqn:Ej;
    simpl in Hk.
  - destruct (doc3 !! j) as [ej |] eqn:E3.
    + destruct (Dom.contains "nav-link" ej) eqn:Nj.
      * rewrite lookup_update in Hk.
        destruct (Nat.eqb_spec k j) as [-> | Hne].
        -- rewrite E3 in Hk. simpl in Hk. injection Hk as <-.
           rewrite contains_add_same. split; reflexivity.
        -- destruct (doc3 !! k) as [e3 |] eqn:Ek; [| discriminate].
           simpl in Hk. injection Hk as <-.
           rewrite (Hoff e3 eq_refl Hnav). split; [discriminate | congruence].
      * rewrite (Hoff el' Hk Hnav). split; [discriminate |].
        intros [= ->]. congruence.
    + rewrite (Hoff el' Hk Hnav). split; [discriminate |].
      intros [= ->]. congruence.
  - rewrite (Hoff el' Hk Hnav). split; discriminate.
Qed.

Lemma showPage_highlights_first_match_witness :
  Dom.contains "active"
    (Dom.mkElement "nav-market" ["nav-link"; "active"] (Some "marketplace") "" None)
  = true
  <-> Dom.find_index (RouterFrame.has_data_page "marketplace")
        (Router.document Examples.at_home)
      = Some 1%nat.
Proof.
  apply (showPage_highlights_first_match Dom.plain_querySelector "marketplace"
           Examples.at_home 1).
  - apply plain_querySelector_finds.
  - reflexivity.
  - reflexivity.
Defined.

(** ** Routing in script_new.js: a missing target *)

(** X15.  When no element has the target id, [showPage] hides every page, keeps
    [currentPage] and renders nothing. *)
Theorem new_showPage_without_target (pageId : string) (st : VanillaNew.State) :
  Dom.getElementById (VanillaNew.targetPageId pageId) (VanillaNew.document st) = None ->
  let st' := VanillaNew.showPage pageId st in
  VanillaNew.currentPage st' = VanillaNew.currentPage st
  /\ VanillaNew.renderings st' = VanillaNew.renderings st
  /\ (forall k el', VanillaNew.document st' !! k = Some el' ->
        Dom.contains "page" el' = true -> Dom.style_display el' = "none").
Proof.
  intros Hnone st'.
  assert (Hshape : st' = VanillaNew.mkState
                           (Dom.forEach_class "page" (Dom.set_display "none")
                              (VanillaNew.document st))
                           (VanillaNew.currentPage st) (VanillaNew.renderings st)).
  { unfold st', VanillaNew.showPage.
    assert (Hid : Dom.getElementById (VanillaNew.targetPageId pageId)
                    (Dom.forEach_class "page" (Dom.set_display "none")
                       (VanillaNew.document st)) = None).
    { rewrite <- Hnone. unfold Dom.getElementById, Dom.forEach_class.
      apply find_index_map. intros el. destruct (Dom.contains "page" el); reflexivity. }
    rewrite Hid. reflexivity. }
  split; [rewrite Hshape; reflexivity |]. split; [rewrite Hshape; reflexivity |].
  intros k el' Hk Hpage.
  rewrite (new_showPage_display pageId st k el' Hk Hpage), Hnone.
  rewrite decide_False by discriminate. reflexivity.
Qed.

Lemma new_showPage_without_target_witness :
  let st' := VanillaNew.showPage "property-details" Examples.new_at_home in
  VanillaNew.currentPage st' = VanillaNew.currentPage Examples.new_at_home
  /\ VanillaNew.renderings st' = VanillaNew.renderings Examples.new_at_home
  /\ (forall k el', VanillaNew.document st' !! k = Some el' ->
        Dom.contains "page" el' = true -> Dom.style_display el' = "none").
Proof.
  apply (new_showPage_without_target "property-details" Examples.new_at_home).
  reflexivity.
Defined.

(** ** script_new.js: amounts of money *)

Lemma group_rev_four (a b c d : ascii) (rest : list ascii) :
  Money.group_rev (a :: b :: c :: d :: rest)
  = a :: b :: c :: ","%char :: Money.group_rev (d :: rest).
Proof. reflexivity. Qed.

Lemma filter_group_rev (f : ascii -> bool) (l : list ascii) :
  f ","%char = false ->
  List.filter f (Money.group_rev l) = List.filter f l.
Proof.
  intros Hcomma.
  assert (H : forall n l, (length l <= n)%nat ->
                List.filter f (Money.group_rev l) = List.filter f l).
  { clear l. induction n as [| n IH]; intros l Hlen.
    - destruct l; [reflexivity | simpl in Hlen; lia].
    - destruct l as [| a [| b [| c [| d rest]]]]; try reflexivity.
      rewrite group_rev_four.
      change (a :: b :: c :: ","%char :: Money.group_rev (d :: rest))
        with ([a; b; c] ++ ","%char :: Money.group_rev (d :: rest))%list.
      change (a :: b :: c :: d :: rest) with ([a; b; c] ++ d :: rest)%list.
      rewrite !List.filter_app. f_equal.
      change (List.filter f (","%char :: Money.group_rev (d :: rest)))
        with (if f ","%char
              then ","%char :: List.filter f (Money.group_rev (d :: rest))
              else List.filter f (Money.group_rev (d :: rest))).
      rewrite Hcomma. apply IH. simpl in *. lia. }
  apply (H (length l)). lia.
Qed.

Lemma digits_kept (d : Decimal.uint) :
  List.filter Money.is_amount_char (list_ascii_of_string (NilEmpty.string_of_uint d))
  = list_ascii_of_string (NilEmpty.string_of_uint d).
Proof. induction d; simpl; [reflexivity | rewrite IHd; reflexivity ..]. Qed.

Lemma digits_kept_zero (d : Decimal.uint) :
  List.filter Money.is_amount_char (list_ascii_of_string (NilZero.string_of_uint d))
  = list_ascii_of_string (NilZero.string_of_uint d).
Proof. destruct d; try apply digits_kept. reflexivity. Qed.

Lemma filter_group (s : string) :
  List.filter Money.is_amount_char (list_ascii_of_string (Money.group s))
  = List.filter Money.is_amount_char (list_ascii_of_string s).
Proof.
  unfold Money.group. rewrite list_ascii_of_string_of_list_ascii.
  rewrite List.filter_rev, filter_group_rev by reflexivity.
  rewrite <- List.filter_rev, rev_involutive. reflexivity.
Qed.

Lemma to_int_not_nil (z : Z) :
  Z.to_int z <> Decimal.Pos Decimal.Nil /\ Z.to_int z <> Decimal.Neg Decimal.Nil.
Proof.
  destruct z as [| p | p]; simpl; split; try discriminate;
    intros [= H]; exact (Unsigned.to_uint_nonnil p H).
Qed.

Lemma list_ascii_of_string_app (s1 s2 : string) :
  list_ascii_of_string (s1 ++ s2)
  = (list_ascii_of_string s1 ++ list_ascii_of_string s2)%list.
Proof. induction s1 as [| c s1 IH]; simpl; [reflexivity | rewrite IH; reflexivity]. Qed.

Lemma strip_money (sign : string) (d : Decimal.uint) :
  string_of_list_ascii
    (List.filter Money.is_amount_char
       (list_ascii_of_string (sign ++ Money.group (NilZero.string_of_uint d))))
  = string_of_list_ascii (List.filter Money.is_amount_char (list_ascii_of_string sign))
    ++ NilZero.string_of_uint d.
Proof.
  rewrite list_ascii_of_string_app, List.filter_app, filter_group, digits_kept_zero.
  generalize (List.filter Money.is_amount_char (list_ascii_of_string sign)). intros l.
  induction l as [| c l IH]; simpl.
  - apply string_of_list_ascii_of_string.
  - rewrite IH. reflexivity.
Qed.

Lemma digits_are_digits (d : Decimal.uint) :
  Forall (fun c => Ascii.eqb c "," = false /\ Ascii.eqb c "$" = false
                   /\ Ascii.eqb c "-" = false)
    (list_ascii_of_string (NilZero.string_of_uint d)).
Proof.
  assert (H : forall d, Forall (fun c => Ascii.eqb c "," = false /\ Ascii.eqb c "$" = false
                                         /\ Ascii.eqb c "-" = false)
                          (list_ascii_of_string (NilEmpty.string_of_uint d))).
  { clear d. induction d; simpl; constructor; try assumption; repeat split. }
  destruct d; try apply H. simpl. constructor; [repeat split | constructor].
Qed.

(** In the grouped digits, read from the right, the commas stand at the
    places 3, 7, 11, ... and nowhere else. *)
Lemma group_rev_commas (l : list ascii) (i : nat) (c : ascii) :
  Forall (fun c => Ascii.eqb c "," = false) l ->
  nth_error (Money.group_rev l) i = Some c ->
  (c = ","%char <-> (i mod 4 = 3)%nat).
Proof.
  intros Hl.
  assert (H : forall n l i, (length l <= n)%nat ->
                Forall (fun c => Ascii.eqb c "," = false) l ->
                nth_error (Money.group_rev l) i = Some c ->
                (c = ","%char <-> (i mod 4 = 3)%nat)).
  { clear l i Hl. induction n as [| n IH]; intros l i Hlen Hl Hi.
    - destruct l; [destruct i; discriminate Hi | simpl in Hlen; lia].
    - assert (Hdigit : forall k x, (k < 3)%nat -> nth_error l k = Some x ->
                         (x = ","%char <-> (k mod 4 = 3)%nat)).
      { intros k x Hk Hx. apply nth_error_In in Hx.
        rewrite List.Forall_forall in Hl. specialize (Hl x Hx).
        split.
        - intros ->. discriminate Hl.
        - intros Hmod. rewrite Nat.mod_small in Hmod by lia. lia. }
      destruct l as [| a [| b [| x [| d rest]]]].
      + destruct i; discriminate Hi.
      + destruct i as [| [| i]]; try discriminate Hi. apply (Hdigit 0%nat c); [lia | exact Hi].
      + destruct i as [| [| [| i]]]; try discriminate Hi.
        * apply (Hdigit 0%nat c); [lia | exact Hi].
        * apply (Hdigit 1%nat c); [lia | exact Hi].
      + destruct i as [| [| [| [| i]]]]; try discriminate Hi.
        * apply (Hdigit 0%nat c); [lia | exact Hi].
        * apply (Hdigit 1%nat c); [lia | exact Hi].
        * apply (Hdigit 2%nat c); [lia | exact Hi].
      + rewrite group_rev_four in Hi.
        destruct i as [| [| [| [| i]]]].
        * apply (Hdigit 0%nat c); [lia | exact Hi].
        * apply (Hdigit 1%nat c); [lia | exact Hi].
        * apply (Hdigit 2%nat c); [lia | exact Hi].
        * injection Hi as <-. split; reflexivity.
        * change (nth_error (Money.group_rev (d :: rest)) i = Some c) in Hi.
          replace (S (S (S (S i))) mod 4)%nat with (i mod 4)%nat.
          -- apply (IH (d :: rest) i); [simpl in *; lia | | exact Hi].
             inversion Hl as [| ? ? _ Hl1]. inversion Hl1 as [| ? ? _ Hl2].
             inversion Hl2 as [| ? ? _ Hl3]. exact Hl3.
          -- change (S (S (S (S i)))) with (4 + i)%nat.
             rewrite <- (Nat.Div0.mod_add i 1 4). f_equal. lia. }
  apply (H (length l) l i); [lia | exact Hl].
Qed.

Lemma group_rev_Forall (P : ascii -> Prop) (l : list ascii) :
  P ","%char -> Forall P l -> Forall P (Money.group_rev l).
Proof.
  intros Hcomma.
  assert (H : forall n l, (length l <= n)%nat -> Forall P l ->
                Forall P (Money.group_rev l)).
  { clear l. induction n as [| n IH]; intros l Hlen Hl.
    - destruct l; [constructor | simpl in Hlen; lia].
    - destruct l as [| a [| b [| x [| d rest]]]]; try exact Hl.
      rewrite group_rev_four.
      inversion Hl as [| ? ? Ha Hl1]. inversion Hl1 as [| ? ? Hb Hl2].
      inversion Hl2 as [| ? ? Hx Hl3].
      repeat (constructor; [assumption |]).
      apply IH; [simpl in *; lia | exact Hl3]. }
  apply (H (length l)). lia.
Qed.

Lemma from_right_money (sign : string) (d : Decimal.uint) :
  List.filter (fun c => negb (Ascii.eqb c "$") && negb (Ascii.eqb c "-"))
    (list_ascii_of_string sign) = [] ->
  Money.from_right (sign ++ Money.group (NilZero.string_of_uint d))
  = Money.group_rev (rev (list_ascii_of_string (NilZero.string_of_uint d))).
Proof.
  intros Hsign. unfold Money.from_right, Money.group.
  rewrite list_ascii_of_string_app, List.filter_app, Hsign. simpl.
  rewrite list_ascii_of_string_of_list_ascii.
  set (keep := fun c => negb (Ascii.eqb c "$") && negb (Ascii.eqb c "-")).
  assert (Hkeep : forall l, Forall (fun c => Ascii.eqb c "$" = false
                                            /\ Ascii.eqb c "-" = false) l ->
                    List.filter keep l = l).
  { induction 1 as [| x l [H1 H2] _ IH]; [reflexivity |].
    simpl. unfold keep at 1. rewrite H1, H2. simpl. rewrite IH. reflexivity. }
  rewrite Hkeep; [apply rev_involutive |].
  apply List.Forall_rev. apply group_rev_Forall; [split; reflexivity |].
  apply List.Forall_rev. eapply List.Forall_impl; [| apply digits_are_digits].
  intros c (_ & H1 & H2). split; assumption.
Qed.

(** X16.  The text of an amount that is a safe integer: after the dollar
    sign the digits stand in groups of three, a comma at every fourth place
    from the right and nowhere else, and the text can be read back: without
    the dollar sign and the commas it is the decimal numeral of the amount,
    so that different amounts are shown differently. *)
Theorem formatMoney_reads_back (amount : Z) :
  (Z.abs amount <= Money.MAX_SAFE_INTEGER)%Z ->
  exists text,
    Money.formatMoney amount = Some text
    /\ Money.unformat text = Some amount
    /\ (forall (i : nat) (c : ascii),
          nth_error (Money.from_right text) i = Some c ->
          (c = ","%char <-> (i mod 4 = 3)%nat)).
Proof.
  intros Hsafe. unfold Money.formatMoney.
  destruct (Z.abs amount <=? Money.MAX_SAFE_INTEGER)%Z eqn:Esafe;
    [| apply Z.leb_gt in Esafe; lia].
  eexists. split; [reflexivity |]. split.
  - unfold Money.unformat.
    assert (H : string_of_list_ascii
                  (List.filter Money.is_amount_char
                     (list_ascii_of_string
                        match Z.to_int amount with
                        | Decimal.Pos d => "$" ++ Money.group (NilZero.string_of_uint d)
                        | Decimal.Neg d => "-$" ++ Money.group (NilZero.string_of_uint d)
                        end))
                = NilZero.string_of_int (Z.to_int amount)).
    { destruct (Z.to_int amount) as [d | d]; rewrite strip_money; reflexivity. }
    rewrite H.
    destruct (to_int_not_nil amount) as [H1 H2].
    rewrite NilZero.isi by assumption. simpl. rewrite DecimalZ.of_to. reflexivity.
  - intros i c Hi.
    assert (Hdigits : forall d,
              Forall (fun c => Ascii.eqb c "," = false)
                (rev (list_ascii_of_string (NilZero.string_of_uint d)))).
    { intros d. apply List.Forall_rev. eapply List.Forall_impl; [| apply digits_are_digits].
      intros x (H & _). exact H. }
    destruct (Z.to_int amount) as [d | d];
      rewrite from_right_money in Hi by reflexivity;
      exact (group_rev_commas _ i c (Hdigits d) Hi).
Qed.

Lemma formatMoney_reads_back_witness :
  Money.formatMoney 1250000 = Some "$1,250,000"
  /\ exists text,
       Money.formatMoney 1250000 = Some text
       /\ Money.unformat text = Some 1250000%Z
       /\ (forall (i : nat) (c : ascii),
             nth_error (Money.from_right text) i = Some c ->
             (c = ","%char <-> (i mod 4 = 3)%nat)).
Proof.
  split; [reflexivity |].
  apply formatMoney_reads_back. vm_compute. discriminate.
Defined.

(** ** The chatbot widget: one message at a time *)

Section ChatbotInvariants.
Import Chatbot.

Lemma filter_remove_nth {A} (f : A -> bool) (i : nat) (l : list A) (x : A) :
  nth_error l i = Some x ->
  length (List.filter f l)
  = (length (List.filter f (remove_nth i l)) + if f x then 1 else 0)%nat.
Proof.
  unfold remove_nth. revert i. induction l as [| a l IH]; intros [| i] H; simpl in *;
    try discriminate.
  - injection H as ->. rewrite skipn_O. destruct (f x); simpl; lia.
  - specialize (IH i H). destruct (f a); simpl; lia.
Qed.

(** What [sendMessage] does to the typing state. *)
Lemma sendMessage_typing (b : Browser) :
  let b' := snd (sendMessage b) in
  if String.eqb (trim (input_value (elements b))) "" || isTyping b
  then b' = b
  else isTyping b' = true
       /\ send_disabled (elements b') = true
       /\ pending b' = (pending b ++ [AwaitMessage])%list.
Proof.
  unfold sendMessage, bind, read. simpl.
  destruct (String.eqb (trim (input_value (elements b))) "" || isTyping b); simpl.
  - reflexivity.
  - repeat split.
Qed.

(** Whatever the reply, the continuation of [sendMessage] ends the typing
    state and leaves the pending requests alone. *)
Lemma sendMessage_resume_typing (r : FetchResult) (b : Browser) :
  let b' := snd (sendMessage_resume r b) in
  isTyping b' = false
  /\ send_disabled (elements b') = false
  /\ typing_display (elements b') = "none"
  /\ pending b' = pending b.
Proof.
  destruct r as [| [|] [[| sid [] c p] |]]; try (repeat split; reflexivity).
  unfold sendMessage_resume, try_catch, bind; simpl.
  destruct (JS.truthy c && JS.truthy p); repeat split.
Qed.

Lemma startSession_resume_typing (r : FetchResult) (b : Browser) :
  let b' := snd (startSession_resume r b) in
  isTyping b' = isTyping b
  /\ send_disabled (elements b') = send_disabled (elements b)
  /\ pending b' = pending b.
Proof.
  destruct r as [| [|] [[| sid [] c p] |]]; repeat split; reflexivity.
Qed.

Lemma callback_typing (t : Timer) (b : Browser) :
  let b' := snd (callback t b) in
  isTyping b' = isTyping b
  /\ send_disabled (elements b') = send_disabled (elements b)
  /\ pending b' = pending b.
Proof.
  destruct t; try (repeat split; reflexivity).
  unfold callback, bind, read. simpl. destruct (isOpen b); repeat split.
Qed.

Lemma sendMessage_one_at_a_time (b : Browser) :
  ChatLog.one_at_a_time b -> ChatLog.one_at_a_time (snd (sendMessage b)).
Proof.
  intros [Hd Hn]. pose proof (sendMessage_typing b) as H. cbv zeta in H.
  destruct (String.eqb (trim (input_value (elements b))) "" || isTyping b) eqn:G.
  - rewrite H. split; assumption.
  - destruct H as (Ht & Hs & Hp). apply orb_false_iff in G as [_ G].
    unfold ChatLog.one_at_a_time, ChatLog.in_flight in *.
    rewrite Ht, Hs, Hp, List.filter_app, length_app. rewrite G in Hn. simpl.
    split; [reflexivity | lia].
Qed.

Lemma step_one_at_a_time (e : Event) (b : Browser) :
  ChatLog.one_at_a_time b -> ChatLog.one_at_a_time (step e b).
Proof.
  intros Inv. unfold step, handler.
  destruct e as [| | | key shift | text | i r | i].
  - destruct Inv as [Hd Hn].
    unfold toggleChat, bind, read. simpl. destruct (isOpen b).
    + split; assumption.
    + unfold openChat, bind, read. simpl. destruct (JS.truthy (sessionId b)); simpl.
      * split; assumption.
      * unfold ChatLog.one_at_a_time, ChatLog.in_flight in *. simpl.
        rewrite List.filter_app, length_app. simpl. split; [exact Hd | lia].
  - exact Inv.
  - unfold bind, read. simpl. destruct (send_disabled (elements b)).
    + exact Inv.
    + apply sendMessage_one_at_a_time, Inv.
  - destruct (String.eqb key "Enter" && negb shift).
    + apply sendMessage_one_at_a_time, Inv.
    + exact Inv.
  - exact Inv.
  - unfold bind, read. simpl.
    destruct (nth_error (pending b) i) as [k |] eqn:Ek; [| exact Inv].
    simpl. destruct Inv as [Hd Hn].
    pose proof (filter_remove_nth ChatLog.is_message i (pending b) k Ek) as Hlen.
    unfold ChatLog.one_at_a_time, ChatLog.in_flight in *.
    destruct k; simpl in *.
    + destruct (startSession_resume_typing r (set_pending (remove_nth i (pending b)) b))
        as (Ht & Hs & Hp).
      rewrite Ht, Hs, Hp. simpl. split; [exact Hd | lia].
    + destruct (sendMessage_resume_typing r (set_pending (remove_nth i (pending b)) b))
        as (Ht & Hs & _ & Hp).
      rewrite Ht, Hs, Hp. simpl. split; [reflexivity |].
      destruct (isTyping b); lia.
  - unfold bind, read. simpl.
    destruct (nth_error (timers b) i) as [t |]; [| exact Inv].
    simpl. destruct Inv as [Hd Hn].
    destruct (callback_typing t (set_timers (remove_nth i (timers b)) b)) as (Ht & Hs & Hp).
    unfold ChatLog.one_at_a_time, ChatLog.in_flight in *.
    rewrite Ht, Hs, Hp. simpl. split; assumption.
Qed.

(** X17.  On a page whose send button starts enabled, whatever the user does and
    however the backend answers: the send button is disabled exactly while the
    widget is typing, and then exactly one message awaits its reply, otherwise
    none.  Two messages are never in flight at once, and the widget is never
    left typing without a reply to come. *)
Theorem one_message_at_a_time (page : Elements) (events : list Event) :
  send_disabled page = false ->
  ChatLog.one_at_a_time (run events (initializeChatbot page)).
Proof.
  intros Hpage.
  assert (H : forall b, ChatLog.one_at_a_time b -> ChatLog.one_at_a_time (run events b)).
  { induction events as [| e events IH]; intros b Hb; [exact Hb |].
    simpl. apply IH, step_one_at_a_time, Hb. }
  apply H. split; [exact Hpage | reflexivity].
Qed.

(** ** The chatbot widget: the transcript and the requests *)

Lemma user_texts_app (l1 l2 : list (Role * string)) :
  ChatLog.user_texts (l1 ++ l2) = (ChatLog.user_texts l1 ++ ChatLog.user_texts l2)%list.
Proof.
  induction l1 as [| [[] s] l1 IH]; simpl; [reflexivity | rewrite IH; reflexivity ..].
Qed.

Lemma sent_texts_app (l1 l2 : list Request) :
  ChatLog.sent_texts (l1 ++ l2) = (ChatLog.sent_texts l1 ++ ChatLog.sent_texts l2)%list.
Proof. apply flat_map_app. Qed.

Lemma sent_text_message (session : JS.value) (message : string) :
  ChatLog.sent_text (message_request session message) = [message].
Proof. destruct session; reflexivity. Qed.

Lemma adds_nothing (b b' : Browser) :
  messages (elements b') = messages (elements b) -> requests b' = requests b ->
  ChatLog.adds b b' [] [].
Proof. intros H1 H2. split; rewrite app_nil_r; assumption. Qed.

Lemma sendMessage_adds (b : Browser) :
  exists ms rs, ChatLog.adds b (snd (sendMessage b)) ms rs
                /\ ChatLog.user_texts ms = ChatLog.sent_texts rs
                /\ Forall (fun t => t <> "") (ChatLog.sent_texts rs).
Proof.
  unfold sendMessage, bind, read. simpl.
  destruct (String.eqb_spec (trim (input_value (elements b))) "") as [E | Hne]; simpl.
  - exists [], []. split; [apply adds_nothing; reflexivity |]. split; [reflexivity | constructor].
  - destruct (isTyping b); simpl.
    + exists [], []. split; [apply adds_nothing; reflexivity |].
      split; [reflexivity | constructor].
    + exists [(user, trim (input_value (elements b)))],
        [message_request (sessionId b) (trim (input_value (elements b)))].
      split; [split; reflexivity |].
      unfold ChatLog.sent_texts. simpl. rewrite sent_text_message. simpl.
      split; [reflexivity |]. constructor; [exact Hne | constructor].
Qed.

Lemma resume_adds (k : Awaiting) (r : FetchResult) (b : Browser) :
  exists ms, ChatLog.adds b (snd (resume k r b)) ms [] /\ ChatLog.user_texts ms = [].
Proof.
  destruct k, r as [| [|] [[| sid [] c p] |]];
    try (eexists [_]; split; [split; [reflexivity | rewrite app_nil_r; reflexivity]
                             | reflexivity]).
  all: unfold resume, sendMessage_resume, try_catch, bind; simpl.
  all: destruct (JS.truthy c && JS.truthy p); simpl.
  all: eexists [_]; split; [split; [reflexivity | rewrite app_nil_r; reflexivity]
                           | reflexivity].
Qed.

Lemma callback_adds (t : Timer) (b : Browser) :
  exists ms, ChatLog.adds b (snd (callback t b)) ms [] /\ ChatLog.user_texts ms = [].
Proof.
  destruct t.
  1-3: exists []; split; [apply adds_nothing; reflexivity | reflexivity].
  - eexists [_]. split; [split; [reflexivity | rewrite app_nil_r; reflexivity] | reflexivity].
  - exists []. split; [| reflexivity].
    unfold callback, bind, read. simpl. destruct (isOpen b); apply adds_nothing; reflexivity.
Qed.

Lemma step_adds (e : Event) (b : Browser) :
  exists ms rs, ChatLog.adds b (step e b) ms rs
                /\ ChatLog.user_texts ms = ChatLog.sent_texts rs
                /\ Forall (fun t => t <> "") (ChatLog.sent_texts rs).
Proof.
  assert (Hnone : forall b', messages (elements b') = messages (elements b) ->
                    requests b' = requests b ->
                    exists ms rs, ChatLog.adds b b' ms rs
                                  /\ ChatLog.user_texts ms = ChatLog.sent_texts rs
                                  /\ Forall (fun t => t <> "") (ChatLog.sent_texts rs)).
  { intros b' H1 H2. exists [], [].
    split; [apply adds_nothing; assumption |]. split; [reflexivity | constructor]. }
  assert (Hquiet : forall b' ms, ChatLog.adds b b' ms [] -> ChatLog.user_texts ms = [] ->
                    exists ms rs, ChatLog.adds b b' ms rs
                                  /\ ChatLog.user_texts ms = ChatLog.sent_texts rs
                                  /\ Forall (fun t => t <> "") (ChatLog.sent_texts rs)).
  { intros b' ms H1 H2. exists ms, [].
    split; [exact H1 |]. split; [exact H2 | constructor]. }
  unfold step, handler.
  destruct e as [| | | key shift | text | i r | i].
  - unfold toggleChat, bind, read. simpl. destruct (isOpen b).
    + apply Hnone; reflexivity.
    + unfold openChat, bind, read. simpl. destruct (JS.truthy (sessionId b)); simpl.
      * apply Hnone; reflexivity.
      * exists [], [start_request].
        split; [split; [rewrite app_nil_r |]; reflexivity |].
        split; [reflexivity | constructor].
  - apply Hnone; reflexivity.
  - unfold bind, read. simpl. destruct (send_disabled (elements b)).
    + apply Hnone; reflexivity.
    + apply sendMessage_adds.
  - destruct (String.eqb key "Enter" && negb shift).
    + apply sendMessage_adds.
    + apply Hnone; reflexivity.
  - apply Hnone; reflexivity.
  - unfold bind, read. simpl. destruct (nth_error (pending b) i) as [k |].
    + simpl.
      destruct (resume_adds k r (set_pending (remove_nth i (pending b)) b))
        as (ms & Ha & Hu).
      apply (Hquiet _ ms); [exact Ha | exact Hu].
    + apply Hnone; reflexivity.
  - unfold bind, read. simpl. destruct (nth_error (timers b) i) as [t |].
    + simpl.
      destruct (callback_adds t (set_timers (remove_nth i (timers b)) b)) as (ms & Ha & Hu).
      apply (Hquiet _ ms); [exact Ha | exact Hu].
    + apply Hnone; reflexivity.
Qed.

Lemma run_adds (events : list Event) (b : Browser) :
  exists ms rs, ChatLog.adds b (run events b) ms rs
                /\ ChatLog.user_texts ms = ChatLog.sent_texts rs
                /\ Forall (fun t => t <> "") (ChatLog.sent_texts rs).
Proof.
  revert b. induction events as [| e events IH]; intros b.
  - exists [], []. split; [apply adds_nothing; reflexivity |].
    split; [reflexivity | constructor].
  - simpl. destruct (step_adds e b) as (ms1 & rs1 & [Hm1 Hr1] & Hu1 & Hf1).
    destruct (IH (step e b)) as (ms2 & rs2 & [Hm2 Hr2] & Hu2 & Hf2).
    exists (ms1 ++ ms2)%list, (rs1 ++ rs2)%list. unfold run in *.
    split; [split; [rewrite Hm2, Hm1 | rewrite Hr2, Hr1]; rewrite app_assoc; reflexivity |].
    rewrite user_texts_app, sent_texts_app, Hu1, Hu2.
    split; [reflexivity |]. apply Forall_app. split; assumption.
Qed.

(** X18.  The transcript and the requests only grow, and they agree: from the
    load of the page on, the user's messages in the transcript are, in order,
    exactly the texts posted to chat/message. *)
Theorem transcript_matches_requests (page : Elements) (events : list Event) :
  let b := run events (initializeChatbot page) in
  (exists ms, messages (elements b) = (messages page ++ ms)%list
              /\ ChatLog.user_texts ms = ChatLog.sent_texts (requests b))
  /\ (ChatLog.user_texts (messages page) = [] ->
      ChatLog.user_texts (messages (elements b)) = ChatLog.sent_texts (requests b)).
Proof.
  destruct (run_adds events (initializeChatbot page)) as (ms & rs & [Hm Hr] & Hu & _).
  simpl in Hm, Hr. cbv zeta. split.
  - exists ms. rewrite Hr. split; [exact Hm | exact Hu].
  - intros Hpage. rewrite Hm, Hr, user_texts_app, Hpage. exact Hu.
Qed.

Lemma substring_whole (s : string) : String.substring 0 (String.length s) s = s.
Proof. induction s as [| c s IH]; simpl; [reflexivity | rewrite IH; reflexivity]. Qed.

Lemma drop_string_app (w rest : string) :
  drop_string (String.length w) (w ++ rest) = rest.
Proof.
  unfold drop_string. induction w as [| c w IH]; simpl.
  - rewrite Nat.sub_0_r. apply substring_whole.
  - exact IH.
Qed.

(** No white-space character starts with another one: the first one that
    a text starts with is the one stripped. *)
Lemma strip_one_whitespace (w rest : string) :
  In w whitespace -> strip_one whitespace (w ++ rest) = Some rest.
Proof.
  intros H. rewrite <- (drop_string_app w rest) at 2.
  unfold whitespace, of_bytes in H. simpl in H.
  repeat (destruct H as [<- | H]; [destruct rest; reflexivity |]). destruct H.
Qed.

Lemma whitespace_nonempty (w : string) :
  In w whitespace -> (1 <= String.length w)%nat.
Proof.
  intros H. unfold whitespace, of_bytes in H. simpl in H.
  repeat (destruct H as [<- | H]; [simpl; lia |]). destruct H.
Qed.

Lemma strip_blank (ws : list string) (fuel : nat) :
  Forall (fun w => In w whitespace) ws ->
  (length ws <= fuel)%nat ->
  strip fuel whitespace (ChatLog.flatten ws) = "".
Proof.
  intros Hws. revert fuel. induction Hws as [| w ws Hw _ IH]; intros fuel Hfuel.
  - destruct fuel; reflexivity.
  - destruct fuel as [| fuel]; [simpl in Hfuel; lia |].
    cbn [ChatLog.flatten strip]. rewrite (strip_one_whitespace w _ Hw).
    apply IH. simpl in Hfuel. lia.
Qed.

Lemma flatten_length (ws : list string) :
  Forall (fun w => In w whitespace) ws ->
  (length ws <= String.length (ChatLog.flatten ws))%nat.
Proof.
  induction 1 as [| w ws Hw _ IH]; simpl; [lia |].
  pose proof (whitespace_nonempty w Hw) as H1.
  assert (E : String.length (w ++ ChatLog.flatten ws)
              = (String.length w + String.length (ChatLog.flatten ws))%nat).
  { clear. induction w as [| c w IH]; simpl; [reflexivity | rewrite IH; reflexivity]. }
  rewrite E. lia.
Qed.

(** The characters that [trim] strips include every white-space character
    and line terminator. *)
Lemma utf8_whitespace (cp : N) :
  In cp ChatLog.white_space_code_points -> In (ChatLog.utf8 cp) whitespace.
Proof.
  intros H.
  assert (Hdec : forall w, existsb (String.eqb w) whitespace = true -> In w whitespace).
  { intros w Hw. apply existsb_exists in Hw as (y & Hy & E).
    apply String.eqb_eq in E. subst y. exact Hy. }
  unfold ChatLog.white_space_code_points in H. simpl in H.
  repeat (destruct H as [<- | H]; [apply Hdec; reflexivity |]). destruct H.
Qed.

(** [trim] leaves nothing of a text made of white space. *)
Lemma trim_blank (s : string) : ChatLog.blank s -> trim s = "".
Proof.
  intros (cps & Hcps & ->).
  assert (Hws : Forall (fun w => In w whitespace) (map ChatLog.utf8 cps)).
  { apply List.Forall_map. eapply List.Forall_impl; [| exact Hcps].
    intros cp. apply utf8_whitespace. }
  unfold trim, trimStart.
  rewrite (strip_blank _ _ Hws (flatten_length _ Hws)). reflexivity.
Qed.

(** X19.  No empty text is ever posted to chat/message, and an input that
    is empty or made of white-space characters only is not sent: neither a
    click on the send button nor the Enter key changes anything then. *)
Theorem blank_messages_never_sent (page : Elements) (events : list Event) :
  Forall (fun t => t <> "")
    (ChatLog.sent_texts (requests (run events (initializeChatbot page))))
  /\ (forall b : Browser,
        ChatLog.blank (input_value (elements b)) ->
        step ClickSend b = b /\ step (Keypress "Enter" false) b = b).
Proof.
  split.
  - destruct (run_adds events (initializeChatbot page)) as (ms & rs & [_ Hr] & _ & Hf).
    simpl in Hr. rewrite Hr. exact Hf.
  - intros b Hblank.
    assert (Hsend : snd (sendMessage b) = b).
    { pose proof (sendMessage_typing b) as H. cbv zeta in H.
      rewrite (trim_blank _ Hblank) in H. exact H. }
    unfold step, handler. split.
    + unfold bind, read. simpl. destruct (send_disabled (elements b)); [reflexivity | exact Hsend].
    + simpl. exact Hsend.
Qed.

End ChatbotInvariants.

Lemma one_message_at_a_time_witness :
  ChatLog.one_at_a_time
    (Chatbot.run Scenarios.chat (Chatbot.initializeChatbot Chatbot.blank_page)).
Proof. apply one_message_at_a_time. reflexivity. Defined.

Lemma blank_messages_never_sent_witness :
  Chatbot.step Chatbot.ClickSend Scenarios.spaces = Scenarios.spaces
  /\ Chatbot.step (Chatbot.Keypress "Enter" false) Scenarios.spaces = Scenarios.spaces.
Proof.
  apply (proj2 (blank_messages_never_sent Chatbot.blank_page [])).
  exists [0x20; 0x20; 0x20]%N. split; [| reflexivity].
  repeat (apply List.Forall_cons; [simpl; auto 30 |]). apply List.Forall_nil.
Defined.

Lemma transcript_matches_requests_witness :
  ChatLog.user_texts
    (Chatbot.messages (Chatbot.elements
       (Chatbot.run Scenarios.chat (Chatbot.initializeChatbot Chatbot.blank_page))))
  = ChatLog.sent_texts
      (Chatbot.requests
         (Chatbot.run Scenarios.chat (Chatbot.initializeChatbot Chatbot.blank_page))).
Proof.
  apply (proj2 (transcript_matches_requests Chatbot.blank_page Scenarios.chat)).
  reflexivity.
Defined.

(** ** The chatbot widget: the toggle button and the notification *)

Section ChatbotChrome.
Import Chatbot.

Lemma sendMessage_chrome (b : Browser) :
  let b' := snd (sendMessage b) in
  isOpen b' = isOpen b
  /\ toggle_active (elements b') = toggle_active (elements b)
  /\ notification_display (elements b') = notification_display (elements b).
Proof.
  unfold sendMessage, bind, read. simpl.
  destruct (String.eqb (trim (input_value (elements b))) "" || isTyping b); simpl;
    repeat split.
Qed.

Lemma resume_chrome (k : Awaiting) (r : FetchResult) (b : Browser) :
  let b' := snd (resume k r b) in
  isOpen b' = isOpen b
  /\ toggle_active (elements b') = toggle_active (elements b)
  /\ notification_display (elements b') = notification_display (elements b).
Proof.
  destruct k.
  - destruct r as [| [|] [[| sid [] c p] |]]; repeat split; reflexivity.
  - destruct r as [| [|] [[| sid [] c p] |]]; try (repeat split; reflexivity).
    unfold resume, sendMessage_resume, try_catch, bind; simpl.
    destruct (JS.truthy c && JS.truthy p); repeat split.
Qed.

Lemma callback_chrome (t : Timer) (b : Browser) :
  let b' := snd (callback t b) in
  isOpen b' = isOpen b
  /\ toggle_active (elements b') = toggle_active (elements b)
  /\ (isOpen b = true ->
      notification_display (elements b') = notification_display (elements b)).
Proof.
  destruct t; try (repeat split; reflexivity).
  unfold callback, bind, read. simpl.
  destruct (isOpen b) eqn:E; simpl; rewrite ?E;
    (split; [reflexivity | split; [reflexivity |]]).
  - reflexivity.
  - intros H. discriminate H.
Qed.

Lemma step_chrome (e : Event) (b : Browser) :
  toggle_active (elements b) = isOpen b
  /\ (isOpen b = true -> notification_display (elements b) = "none") ->
  toggle_active (elements (step e b)) = isOpen (step e b)
  /\ (isOpen (step e b) = true -> notification_display (elements (step e b)) = "none").
Proof.
  intros [Ht Hn].
  assert (Hsend : toggle_active (elements (snd (sendMessage b))) = isOpen (snd (sendMessage b))
                  /\ (isOpen (snd (sendMessage b)) = true ->
                      notification_display (elements (snd (sendMessage b))) = "none")).
  { destruct (sendMessage_chrome b) as (Ho & Ha & Hd). rewrite Ho, Ha, Hd. split; assumption. }
  unfold step, handler.
  destruct e as [| | | key shift | text | i r | i].
  - unfold toggleChat, bind, read. simpl. destruct (isOpen b) eqn:Eo.
    + simpl. split; [reflexivity | discriminate].
    + unfold openChat, bind, read. simpl.
      destruct (JS.truthy (sessionId b)); simpl; split; reflexivity.
  - simpl. split; [reflexivity | discriminate].
  - unfold bind, read. simpl. destruct (send_disabled (elements b)).
    + simpl. split; assumption.
    + exact Hsend.
  - destruct (String.eqb key "Enter" && negb shift).
    + exact Hsend.
    + simpl. split; assumption.
  - simpl. split; assumption.
  - unfold bind, read. simpl.
    destruct (nth_error (pending b) i) as [k |]; [| simpl; split; assumption].
    simpl.
    destruct (resume_chrome k r (set_pending (remove_nth i (pending b)) b)) as (Ho & Ha & Hd).
    rewrite Ho, Ha, Hd. simpl. split; assumption.
  - unfold bind, read. simpl.
    destruct (nth_error (timers b) i) as [t |]; [| simpl; split; assumption].
    simpl.
    destruct (callback_chrome t (set_timers (remove_nth i (timers b)) b)) as (Ho & Ha & Hd).
    rewrite Ho, Ha. simpl. split; [exact Ht |].
    intros Hopen. rewrite (Hd Hopen). simpl. apply Hn, Hopen.
Qed.

(** X20.  On a page whose toggle button starts without the class "active",
    whatever happens: the button carries the class exactly while the chat is
    open, and while the chat is open the notification is not displayed. *)
Theorem toggle_and_notification_follow_isOpen (page : Elements) (events : list Event) :
  toggle_active page = false ->
  let b := run events (initializeChatbot page) in
  toggle_active (elements b) = isOpen b
  /\ (isOpen b = true -> notification_display (elements b) = "none").
Proof.
  intros Hpage.
  assert (H : forall b,
             toggle_active (elements b) = isOpen b
             /\ (isOpen b = true -> notification_display (elements b) = "none") ->
             toggle_active (elements (run events b)) = isOpen (run events b)
             /\ (isOpen (run events b) = true ->
                 notification_display (elements (run events b)) = "none")).
  { induction events as [| e events IH]; intros b Hb; [exact Hb |].
    simpl. apply IH, step_chrome, Hb. }
  apply H. split; [exact Hpage | discriminate].
Qed.

End ChatbotChrome.

Lemma toggle_and_notification_follow_isOpen_witness :
  let b := Chatbot.run Scenarios.chat (Chatbot.initializeChatbot Chatbot.blank_page) in
  Chatbot.toggle_active (Chatbot.elements b) = Chatbot.isOpen b
  /\ (Chatbot.isOpen b = true ->
      Chatbot.notification_display (Chatbot.elements b) = "none").
Proof.
  apply (toggle_and_notification_follow_isOpen Chatbot.blank_page Scenarios.chat).
  reflexivity.
Defined.

(** ** The chatbot widget: formatMessage *)

Section MarkupFacts.
Import Markup.

Lemma has_char_app (c : ascii) (a b : string) :
  has_char c (a ++ b) = has_char c a || has_char c b.
Proof.
  induction a as [| x a IH]; simpl; [reflexivity |].
  rewrite IH. apply orb_assoc.
Qed.

Lemma strip_prefix_absent (c : ascii) (d s : string) :
  has_char c s = false -> strip_prefix (String c d) s = None.
Proof.
  destruct s as [| b s]; simpl; [reflexivity |].
  intros H. apply orb_false_iff in H as [H _].
  rewrite Ascii.eqb_sym, H. reflexivity.
Qed.

Lemma replace_pairs_empty (fuel : nat) (d opening closing : string) :
  replace_pairs fuel d opening closing "" = "".
Proof. destruct fuel; reflexivity. Qed.

Lemma replace_pairs_absent (fuel : nat) (c : ascii) (d opening closing s : string) :
  has_char c s = false ->
  replace_pairs fuel (String c d) opening closing s = s.
Proof.
  revert s. induction fuel as [| fuel IH]; intros s H; [reflexivity |].
  destruct s as [| b s]; [reflexivity |].
  cbn [replace_pairs]. rewrite (strip_prefix_absent c d _ H).
  simpl in H. apply orb_false_iff in H as [_ H]. rewrite (IH s H). reflexivity.
Qed.

Lemma replace_newlines_absent (s : string) :
  has_char LF s = false -> replace_newlines s = s.
Proof.
  induction s as [| c s IH]; simpl; [reflexivity |].
  intros H. apply orb_false_iff in H as [Hc H]. rewrite Hc, (IH H). reflexivity.
Qed.

(** X21.  A text without asterisks and line feeds is shown as it is: nothing is
    escaped, markup characters included. *)
Theorem formatMessage_keeps_plain_text (content : string) :
  has_char "*" content = false ->
  has_char LF content = false ->
  formatMessage content = content.
Proof.
  intros Hstar Hlf. unfold formatMessage, replace_all.
  rewrite (replace_newlines_absent _ Hlf).
  rewrite (replace_pairs_absent _ "*" "*" _ _ _ Hstar).
  apply (replace_pairs_absent _ "*" "" _ _ _ Hstar).
Qed.

Lemma replace_newlines_no_LF (s : string) : has_char LF (replace_newlines s) = false.
Proof.
  induction s as [| c s IH]; simpl; [reflexivity |].
  destruct (Ascii.eqb c LF) eqn:E; simpl; [exact IH |].
  rewrite E, IH. reflexivity.
Qed.

Lemma strip_prefix_chars (c : ascii) (d s rest : string) :
  strip_prefix d s = Some rest -> has_char c s = false -> has_char c rest = false.
Proof.
  revert s. induction d as [| a d IH]; intros s; simpl.
  - intros [= <-] H. exact H.
  - destruct s as [| b s]; [discriminate |].
    destruct (Ascii.eqb a b); [| discriminate].
    intros Hs H. simpl in H. apply orb_false_iff in H as [_ H]. apply (IH s Hs H).
Qed.

Lemma close_group_chars (c : ascii) (d s group rest : string) :
  close_group d s = Some (group, rest) ->
  has_char c s = false ->
  has_char c group = false /\ has_char c rest = false.
Proof.
  revert group. induction s as [| b s IH]; intros group; cbn [close_group].
  - destruct (strip_prefix d "") as [r |] eqn:E; [| discriminate].
    intros [= <- <-] H. split; [reflexivity | apply (strip_prefix_chars c d "" r E H)].
  - destruct (strip_prefix d (String b s)) as [r |] eqn:E.
    + intros [= <- <-] H. split; [reflexivity | apply (strip_prefix_chars c d _ r E H)].
    + destruct (at_line_terminator (String b s)); [discriminate |].
      destruct (close_group d s) as [[g r] |]; [| discriminate].
      intros [= <- <-] H. simpl in H. apply orb_false_iff in H as [Hb H].
      destruct (IH g eq_refl H) as [Hg Hr]. simpl. rewrite Hb, Hg. split; [reflexivity | exact Hr].
Qed.

Lemma replace_pairs_chars (fuel : nat) (c : ascii) (d opening closing s : string) :
  has_char c opening = false ->
  has_char c closing = false ->
  has_char c s = false ->
  has_char c (replace_pairs fuel d opening closing s) = false.
Proof.
  intros Ho Hc. revert s. induction fuel as [| fuel IH]; intros s H; [exact H |].
  destruct s as [| b s]; [reflexivity |].
  cbn [replace_pairs].
  assert (Hkeep : has_char c (String b (replace_pairs fuel d opening closing s)) = false).
  { simpl in *. apply orb_false_iff in H as [Hb H]. rewrite Hb, (IH s H). reflexivity. }
  destruct (strip_prefix d (String b s)) as [inner |] eqn:E; [| exact Hkeep].
  destruct (close_group d inner) as [[g r] |] eqn:G; [| exact Hkeep].
  pose proof (strip_prefix_chars c d _ inner E H) as Hinner.
  destruct (close_group_chars c d inner g r G Hinner) as [Hg Hr].
  rewrite !has_char_app, Ho, Hg, Hc, (IH r Hr). reflexivity.
Qed.

Lemma lines_nonempty (s : string) : lines s <> [].
Proof.
  induction s as [| c s IH]; simpl; [discriminate |].
  destruct (Ascii.eqb c LF); [discriminate |].
  destruct (lines s); discriminate.
Qed.

Lemma replace_newlines_lines (s : string) :
  replace_newlines s = Json.join "<br>" (lines s).
Proof.
  induction s as [| c s IH]; [reflexivity |].
  cbn [replace_newlines lines]. pose proof (lines_nonempty s) as Hne.
  destruct (Ascii.eqb c LF).
  - rewrite IH. destruct (lines s) as [| l ls]; [contradiction | reflexivity].
  - rewrite IH. destruct (lines s) as [| l ls]; [contradiction |].
    destruct ls; reflexivity.
Qed.

Lemma replace_newlines_chars (c : ascii) (s : string) :
  has_char c "<br>" = false ->
  has_char c s = false ->
  has_char c (replace_newlines s) = false.
Proof.
  intros Hbr. induction s as [| x s IH]; simpl; [reflexivity |].
  intros H. apply orb_false_iff in H as [Hx H].
  destruct (Ascii.eqb x LF).
  - rewrite has_char_app, Hbr. apply (IH H).
  - simpl. rewrite Hx. apply (IH H).
Qed.

(** X22.  Every line feed becomes a [<br>] tag.  The formatted text has no
    line feed, and for a text without asterisks it is the lines of the text
    with [<br>] between them. *)
Theorem formatMessage_breaks_lines (content : string) :
  has_char LF (formatMessage content) = false
  /\ (has_char "*" content = false ->
      formatMessage content = Json.join "<br>" (lines content)).
Proof.
  split.
  - unfold formatMessage, replace_all.
    apply replace_pairs_chars; try reflexivity.
    apply replace_pairs_chars; try reflexivity.
    apply replace_newlines_no_LF.
  - intros Hstar. unfold formatMessage, replace_all.
    assert (H : has_char "*" (replace_newlines content) = false).
    { apply replace_newlines_chars; [reflexivity | exact Hstar]. }
    rewrite (replace_pairs_absent _ "*" "*" _ _ _ H).
    rewrite (replace_pairs_absent _ "*" "" _ _ _ H).
    apply replace_newlines_lines.
Qed.

Lemma prefix_before_star (t s r : string) :
  has_char "*" t = false ->
  String.prefix t (s ++ String "*" r) = String.prefix t s.
Proof.
  revert s. induction t as [| a t IH]; intros s H; [destruct s; reflexivity |].
  simpl in H. apply orb_false_iff in H as [Ha H].
  destruct s as [| b s]; simpl.
  - destruct (ascii_dec a "*") as [-> | _]; [discriminate Ha | reflexivity].
  - destruct (ascii_dec a b); [apply IH, H | reflexivity].
Qed.

Lemma at_line_terminator_before_star (s r : string) :
  at_line_terminator (s ++ String "*" r) = at_line_terminator s.
Proof.
  unfold at_line_terminator, line_terminators. simpl.
  rewrite !prefix_before_star by reflexivity. reflexivity.
Qed.

Lemma close_group_finds (t rest : string) :
  has_char "*" t = false ->
  has_line_terminator t = false ->
  close_group "**" (t ++ "**" ++ rest) = Some (t, rest).
Proof.
  induction t as [| c t IH]; intros Hstar Hterm; [reflexivity |].
  simpl in Hstar, Hterm.
  apply orb_false_iff in Hstar as [Hc Hstar].
  apply orb_false_iff in Hterm as [Hat Hterm].
  change ((String c t) ++ "**" ++ rest) with (String c (t ++ "**" ++ rest)).
  cbn [close_group strip_prefix].
  rewrite Ascii.eqb_sym, Hc.
  change (String c (t ++ "**" ++ rest)) with ((String c t) ++ String "*" (String "*" rest)).
  rewrite at_line_terminator_before_star, Hat.
  change (String c t ++ String "*" (String "*" rest)) with (String c (t ++ "**" ++ rest)).
  rewrite (IH Hstar Hterm). reflexivity.
Qed.

Lemma replace_pairs_match (fuel : nat) (d opening closing s inner group rest : string) (b : ascii) :
  strip_prefix d (String b s) = Some inner ->
  close_group d inner = Some (group, rest) ->
  replace_pairs (S fuel) d opening closing (String b s)
  = opening ++ group ++ closing ++ replace_pairs fuel d opening closing rest.
Proof. intros Hs Hc. cbn [replace_pairs]. rewrite Hs, Hc. reflexivity. Qed.

Lemma no_terminator_no_LF (t : string) :
  has_line_terminator t = false -> has_char LF t = false.
Proof.
  induction t as [| c t IH]; simpl; [reflexivity |].
  intros H. apply orb_false_iff in H as [Hat H]. rewrite (IH H), orb_false_r.
  destruct (Ascii.eqb_spec c LF) as [-> | _]; [| reflexivity].
  unfold at_line_terminator, line_terminators in Hat. simpl in Hat.
  destruct t; discriminate Hat.
Qed.

(** X23.  A text between two pairs of asterisks, itself without asterisks and
    line breaks, is shown in bold. *)
Theorem formatMessage_bold (t : string) :
  has_char "*" t = false ->
  has_line_terminator t = false ->
  formatMessage ("**" ++ t ++ "**") = "<strong>" ++ t ++ "</strong>".
Proof.
  intros Hstar Hterm.
  pose proof (no_terminator_no_LF t Hterm) as Hlf.
  unfold formatMessage.
  rewrite replace_newlines_absent
    by (rewrite !has_char_app, Hlf; reflexivity).
  assert (Hstrong : replace_all "**" "<strong>" "</strong>" ("**" ++ t ++ "**")
                    = "<strong>" ++ t ++ "</strong>").
  { unfold replace_all.
    change ("**" ++ t ++ "**") with (String "*" (String "*" (t ++ "**" ++ ""))).
    cbn [String.length].
    rewrite (replace_pairs_match _ "**" _ _ _ (t ++ "**" ++ "") t "")
      by (reflexivity || apply (close_group_finds t "" Hstar Hterm)).
    rewrite replace_pairs_empty. reflexivity. }
  rewrite Hstrong. unfold replace_all.
  apply (replace_pairs_absent _ "*" "").
  rewrite !has_char_app, Hstar. reflexivity.
Qed.

End MarkupFacts.

Lemma formatMessage_keeps_plain_text_witness :
  Markup.formatMessage "<b>3 beds</b> & more" = "<b>3 beds</b> & more".
Proof. apply formatMessage_keeps_plain_text; reflexivity. Defined.

Lemma formatMessage_breaks_lines_witness :
  Markup.formatMessage ("3 beds" ++ String Markup.LF "2 baths") = "3 beds<br>2 baths".
Proof.
  apply (proj2 (formatMessage_breaks_lines ("3 beds" ++ String Markup.LF "2 baths"))).
  reflexivity.
Defined.

Lemma formatMessage_bold_witness :
  Markup.formatMessage "**3 beds**" = "<strong>3 beds</strong>".
Proof. apply (formatMessage_bold "3 beds"); reflexivity. Defined.
